(** * Task tools, dispatcher and chat turn of the to-do backend

    A shallow embedding of [backend/tools/task_tools.py],
    [backend/services/tool_executor.py], [backend/services/cohere_client.py]
    ([format_messages_for_cohere]) and [backend/routers/chat.py], with the
    SQLAlchemy session they share made explicit; and of the REST handlers
    of [backend/routes/tasks.py] and the dependencies of
    [backend/dependencies/auth.py], on the same session.

    Conventions.
    - A Python [str] is the list of its code points ([pystr]); literals of
      the source are written with [lit].
    - A function that can raise returns in the monad [M]: a state
      transformer on the [Session] whose result is either the raised
      exception or the returned value.
    - [print] and [logger] calls are not modelled.
    - The identity of a user, which every query carries, is taken to be text
      that the database driver sends; the refusal of a text by the driver
      ([send_text]) is modelled for the texts that a request or the model
      supplies: titles, descriptions, title patterns and messages.
    - The ["message"] entries of the result dictionaries are display strings
      built from the other entries and are left out; the ["error"] entries
      are kept, since they tell the error results apart.  Ids are kept as
      integers where the source renders them with [str]. *)

From Stdlib Require Import ZArith NArith String Ascii List Sorted Lia.
From stdpp Require Import base decidable option list gmap strings.

Local Open Scope Z_scope.
Local Open Scope string_scope.
Local Open Scope list_scope.

(** ** Python strings *)

Abbreviation pystr := (list N).

Definition lit (s : string) : pystr := N_of_ascii <$> list_ascii_of_string s.

(** [str.isspace] on one code point: the characters [str.strip()] removes. *)
Definition is_space (c : N) : bool :=
  (((9 <=? c) && (c <=? 13)) || ((28 <=? c) && (c <=? 32))
   || (c =? 133) || (c =? 160) || (c =? 5760)
   || ((8192 <=? c) && (c <=? 8202)) || (c =? 8232) || (c =? 8233)
   || (c =? 8239) || (c =? 8287) || (c =? 12288))%N.

Fixpoint lstrip (s : pystr) : pystr :=
  match s with
  | c :: s' => if is_space c then lstrip s' else s
  | [] => []
  end.

Definition rstrip (s : pystr) : pystr := rev (lstrip (rev s)).

(** [s.strip()] *)
Definition strip (s : pystr) : pystr := rstrip (lstrip s).

(** A lone surrogate is the only code point of a [str] that UTF-8 cannot
    encode. *)
Definition is_surrogate (c : N) : bool := ((55296 <=? c) && (c <=? 57343))%N.

(** [s.encode('utf-8', errors='ignore').decode('utf-8')] *)
Definition utf8_roundtrip (s : pystr) : pystr :=
  List.filter (fun c => negb (is_surrogate c)) s.

(** Truth value of a string, and of an optional string ([None] is false). *)
Definition truthy (s : pystr) : bool :=
  match s with [] => false | _ :: _ => true end.

Definition truthy_opt (o : option pystr) : bool :=
  match o with Some s => truthy s | None => false end.

(** [o is None] *)
Definition is_None {A} (o : option A) : bool :=
  match o with None => true | Some _ => false end.

(** ** What the tools take from their platform

    [str.lower], [int] on a string, and the database's evaluation of
    [column ILIKE pattern], of a [WHERE] with two conditions and of a string
    compared with a [uuid] column are not code of this repository.  The
    tools are written against this interface; [ascii_postgres] below is the
    instance the concrete runs use. *)

Inductive like_outcome := LikeTrue | LikeFalse | LikeError.

Class Platform := {
  (** [s.lower()] *)
  str_lower : pystr -> pystr;
  (** [int(s)]; [None] stands for the [ValueError] *)
  int_of_str : pystr -> option Z;
  (** [text ILIKE pattern] as the database evaluates it on one row;
      [LikeError] when the database rejects the pattern *)
  ilike : pystr -> pystr -> like_outcome;
  (** [WHERE Task.user_id == user_id AND Task.title ILIKE pattern] is one
      condition to the database, which decides what it evaluates first:
      [true] when it tests the owner of a row before it matches the title,
      so that only rows of [user_id] meet the pattern; [false] when it
      matches the title of every row of the table *)
  owner_first : bool;
  (** a string compared with the [uuid] column [Conversation.id], read as a
      uuid; [None] stands for the error that a malformed string raises *)
  uuid_of_str : pystr -> option N
}.

(** ** Rows *)

(** Modelled from the spec: [models/task.py] is not among the sources; the
    fields are those of the spec's Task, which are also the ones the tools
    read and write. *)
Record Task := mkTask {
  task_pk : Z;  (* the column [id] *)
  task_user_id : pystr;
  task_title : pystr;
  task_description : option pystr;
  task_completed : bool;
  task_created_at : Z;
  task_updated_at : Z
}.

(** [models/conversation.py] *)
Record Conversation := mkConversation {
  conv_id : N;
  conv_user_id : pystr;
  conv_created_at : Z;
  conv_updated_at : Z
}.

(** ** Result dictionaries of the tools *)

(** The ["existing_task"] entry of a duplicate warning. *)
Record ExistingTask := mkExisting {
  ex_id : Z;
  ex_title : pystr;
  ex_description : option pystr;
  ex_completed : bool
}.

(** One entry of the ["tasks"] list of a [multiple_matches] result. *)
Record Candidate := mkCandidate {
  cand_id : Z;
  cand_title : pystr;
  cand_completed : bool
}.

Inductive ToolResult :=
  (** [{"status": "error", "error": ..., ("details": ...)}] *)
  | ResError (error : string) (details : option string)
  (** [{"status": "warning", "existing_task_id": ..., "existing_task": ...}] *)
  | ResWarning (existing_task_id : Z) (existing_task : ExistingTask)
  (** [{"status": "success", "task": {...}}] *)
  | ResTask (task : Task)
  (** [{"status": "success", "tasks": [...], "count": ...}] *)
  | ResTasks (tasks : list Task) (count : nat)
  (** [{"status": "success", "task_id": ...}] *)
  | ResDeleted (deleted_id : Z)
  (** [{"status": "multiple_matches", "tasks": [...]}] *)
  | ResMultipleMatches (candidates : list Candidate).

Definition status (r : ToolResult) : string :=
  match r with
  | ResError _ _ => "error"
  | ResWarning _ _ => "warning"
  | ResTask _ | ResTasks _ _ | ResDeleted _ => "success"
  | ResMultipleMatches _ => "multiple_matches"
  end.

(** [models/message.py]; [msg_tool_calls] holds the record that the source
    serialises with [json.dumps]. *)
Record ToolCallRecord := mkToolCallRecord {
  call_name : string;
  call_parameters : gmap string pystr;
  call_output : ToolResult
}.

Record Message := mkMessage {
  msg_id : N;
  msg_conversation_id : N;
  msg_role : string;
  msg_content : pystr;
  msg_tool_calls : option (list ToolCallRecord);
  msg_created_at : Z
}.

(** ** The session

    One SQLAlchemy [Session] on one connection.  [committed] is what the
    database holds; [working] is the same tables as this session sees them:
    the rows with every change the session has made and not yet committed.
    Assigning to an attribute of a loaded row marks it dirty, and the
    session flushes dirty rows before its next query and at [commit], so the
    assignment is modelled as a write to [working].  [task_seq] is the
    sequence that numbers new tasks.

    The rows of a table are kept in the order in which they were added, an
    updated row at its place, and a query without [ORDER BY] returns them in
    that order.  The database promises no order for such a query (it may
    return an updated row after the others); a statement about all the rows
    of such a query after an update is made up to their order. *)

Record Tables := mkTables {
  tasks : list Task;
  conversations : list Conversation;
  messages : list Message
}.

Record Session := mkSession {
  committed : Tables;
  working : Tables;
  task_seq : Z
}.

Inductive exn :=
  | KeyError (key : string)
  | ValueError (msg : string)
  | DatabaseError (msg : string)
  | ModelError (msg : string)
  | HTTPException (status_code : Z) (detail : string).

(** [str(e)] *)
Definition str_exn (e : exn) : string :=
  match e with
  | KeyError k => ("'" ++ k ++ "'")%string
  | ValueError m | DatabaseError m | ModelError m => m
  | HTTPException _ d => d
  end.

(** [repr(e)], up to the quoting of the message *)
Definition repr_exn (e : exn) : string :=
  match e with
  | KeyError k => ("KeyError('" ++ k ++ "')")%string
  | ValueError m => ("ValueError('" ++ m ++ "')")%string
  | DatabaseError m => ("DatabaseError('" ++ m ++ "')")%string
  | ModelError m => ("ModelError('" ++ m ++ "')")%string
  | HTTPException _ d => ("HTTPException('" ++ d ++ "')")%string
  end.

Definition M (A : Type) : Type := Session -> Session * (exn + A).

Definition ret {A} (a : A) : M A := fun s => (s, inr a).

Definition bind {A B} (m : M A) (k : A -> M B) : M B :=
  fun s => match m s with
           | (s', inr a) => k a s'
           | (s', inl e) => (s', inl e)
           end.

Definition raise {A} (e : exn) : M A := fun s => (s, inl e).

(** [try: m  except Exception as e: h e] *)
Definition try_except {A} (m : M A) (h : exn -> M A) : M A :=
  fun s => match m s with
           | (s', inl e) => h e s'
           | (s', inr a) => (s', inr a)
           end.

Declare Scope py_scope.
Delimit Scope py_scope with py.
Notation "x <- c ;; k" := (bind c (fun x => k))
  (at level 100, c at next level, right associativity) : py_scope.
Notation "c ;;; k" := (bind c (fun _ => k))
  (at level 100, right associativity) : py_scope.

Definition with_tasks (f : list Task -> list Task) (t : Tables) : Tables :=
  mkTables (f (tasks t)) (conversations t) (messages t).

(** A text parameter of a statement is encoded and quoted by the database
    driver before the statement leaves the program.  The driver (psycopg2,
    which SQLAlchemy takes for a [postgresql://] URL) refuses a lone
    surrogate with a [UnicodeEncodeError] and the code point 0 with a
    [ValueError]; to an [except] clause both are [ValueError]s.  The message
    of the encoding error names the character and its position, which are
    left out here. *)
Definition has_surrogate (s : pystr) : bool := existsb is_surrogate s.

Definition has_nul (s : pystr) : bool := existsb (N.eqb 0) s.

Definition send_text (s : pystr) : exn + unit :=
  if has_surrogate s then
    inl (ValueError "'utf-8' codec can't encode character: surrogates not allowed")
  else if has_nul s then
    inl (ValueError "A string literal cannot contain NUL (0x00) characters.")
  else inr tt.

(** The text parameters of one statement, or of the statements of one
    flush, in the order in which they are sent. *)
Fixpoint send_texts (texts : list pystr) : exn + unit :=
  match texts with
  | [] => inr tt
  | s :: texts' =>
      match send_text s with
      | inl e => inl e
      | inr _ => send_texts texts'
      end
  end.

(** The title and the description of a row. *)
Definition texts_of (t : Task) : list pystr :=
  task_title t :: match task_description t with Some d => [d] | None => [] end.

(** [session.commit()] *)
Definition commit : M unit :=
  fun s => (mkSession (working s) (working s) (task_seq s), inr tt).

(** [session.rollback()] *)
Definition rollback : M unit :=
  fun s => (mkSession (committed s) (committed s) (task_seq s), inr tt).

(** [session.commit()] where the flush sends [texts]: when the driver
    refuses one of them the commit raises, and a commit that raises has
    rolled the session back. *)
Definition commit_sending (texts : list pystr) : M unit :=
  fun s =>
    match send_texts texts with
    | inl e => (fst (rollback s), inl e)
    | inr _ => commit s
    end.

(** [session.add(new_task)] for a row built with [id=None], with the
    [INSERT] that the flush of the following [commit] sends: the row is
    numbered from the sequence when the database takes it.  When the driver
    refuses the title or the description, the statement is not sent, the
    sequence is not drawn and the row does not reach the table. *)
Definition add_new_task (mk : Z -> Task) : M Task :=
  fun s =>
    let t := mk (task_seq s) in
    match send_texts (texts_of t) with
    | inl e => (s, inl e)
    | inr _ =>
        (mkSession (committed s) (with_tasks (fun ts => ts ++ [t]) (working s))
                   (task_seq s + 1),
         inr t)
    end.

(** Attribute assignment on a loaded row: the row with this primary key
    takes the new field values. *)
Definition store_task (t : Task) : M unit :=
  fun s =>
    (mkSession (committed s)
       (with_tasks (fmap (fun r => if decide (task_pk r = task_pk t) then t else r))
                   (working s))
       (task_seq s),
     inr tt).

(** [session.delete(task)] *)
Definition delete_row (t : Task) : M unit :=
  fun s =>
    (mkSession (committed s)
       (with_tasks (List.filter (fun r => negb (bool_decide (task_pk r = task_pk t))))
                   (working s))
       (task_seq s),
     inr tt).

(** Rows of the tasks table that belong to [user_id], in table order. *)
Definition tasks_of (user_id : pystr) (ts : list Task) : list Task :=
  List.filter (fun t => bool_decide (task_user_id t = user_id)) ts.

(** [session.refresh(task)]: the row with this primary key, read back. *)
Definition refresh (t : Task) : M Task :=
  fun s =>
    match List.filter (fun r => bool_decide (task_pk r = task_pk t))
                      (tasks (working s)) with
    | r :: _ => (s, inr r)
    | [] => (s, inl (DatabaseError "Could not refresh instance"))
    end.

(** The rows among [rows] whose title the database matches against
    [pattern]; the query fails as soon as one evaluation fails. *)
Fixpoint where_ilike `{P : Platform} (pattern : pystr) (rows : list Task)
  : exn + list Task :=
  match rows with
  | [] => inr []
  | t :: rows' =>
      match ilike (task_title t) pattern with
      | LikeError => inl (DatabaseError "LIKE pattern must not end with escape character")
      | LikeFalse => where_ilike pattern rows'
      | LikeTrue =>
          match where_ilike pattern rows' with
          | inr found => inr (t :: found)
          | inl e => inl e
          end
      end
  end.

(** What [select(Task).where(Task.user_id == user_id,
    Task.title.ilike(pattern))] returns on [rows].  The pattern is a text
    parameter; the two conditions reach the database in one [WHERE], and
    the rows whose title it matches against the pattern are those of
    [user_id], or all, as the database chooses ([owner_first]): the rows
    found are the same, but a pattern that the database rejects on the row
    of another owner fails the query in the second case. *)
Definition lookup_by_title `{P : Platform} (user_id pattern : pystr)
    (rows : list Task) : exn + list Task :=
  match send_text pattern with
  | inl e => inl e
  | inr _ =>
      if owner_first then where_ilike pattern (tasks_of user_id rows)
      else
        match where_ilike pattern rows with
        | inl e => inl e
        | inr found => inr (tasks_of user_id found)
        end
  end.

(** [session.exec(select(Task).where(Task.user_id == user_id,
    Task.title.ilike(pattern))).all()] *)
Definition select_by_title `{P : Platform} (user_id pattern : pystr)
  : M (list Task) :=
  fun s => (s, lookup_by_title user_id pattern (tasks (working s))).

(** [session.exec(select(Task).where(Task.id == i,
    Task.user_id == user_id)).first()] *)
Definition select_by_id (i : Z) (user_id : pystr) : M (option Task) :=
  fun s =>
    (s, inr (head (List.filter (fun t => bool_decide (task_pk t = i))
                               (tasks_of user_id (tasks (working s)))))).

(** [ORDER BY]: a stable insertion sort; [before x y] says that [x] may
    stand before [y]. *)
Fixpoint insert_by {A} (before : A -> A -> bool) (x : A) (l : list A) : list A :=
  match l with
  | [] => [x]
  | y :: l' => if before x y then x :: y :: l' else y :: insert_by before x l'
  end.

Definition sort_by {A} (before : A -> A -> bool) (l : list A) : list A :=
  foldr (insert_by before) [] l.

(** ** [tools/task_tools.py] *)

Definition existing_of (t : Task) : ExistingTask :=
  mkExisting (task_pk t) (task_title t) (task_description t) (task_completed t).

Definition candidate_of (t : Task) : Candidate :=
  mkCandidate (task_pk t) (task_title t) (task_completed t).

Definition add_task `{P : Platform} (user_id title : pystr)
    (description : option pystr) (now : Z) : M ToolResult :=
  try_except
    (let title :=
       if truthy title then utf8_roundtrip (strip title) else title in
     let description :=
       match description with
       | Some d => if truthy d then Some (utf8_roundtrip (strip d)) else Some d
       | None => None
       end in
     if negb (truthy title) || (length title =? 0)%nat then
       ret (ResError "Title is required" None)
     else if (255 <? length title)%nat then
       ret (ResError "Title must be 255 characters or less" None)
     else if truthy_opt description
             && (1000 <? length (default [] description))%nat then
       ret (ResError "Description must be 1000 characters or less" None)
     else
       let title_normalized := str_lower title in
       (found <- select_by_title user_id title_normalized ;;
        match head found with
        | Some existing_task =>
            ret (ResWarning (task_pk existing_task) (existing_of existing_task))
        | None =>
            (new_task <- add_new_task (fun i =>
               mkTask i user_id title
                      (if truthy_opt description then description else None)
                      false now now) ;;
             commit ;;;
             new_task <- refresh new_task ;;
             ret (ResTask new_task))
        end))%py
    (fun e =>
       (rollback ;;;
        ret (ResError ("Failed to add task: " ++ str_exn e)%string
                      (Some (repr_exn e))))%py).

Definition list_tasks (user_id status : pystr) : M ToolResult :=
  fun s =>
    let query := tasks_of user_id (tasks (working s)) in
    let query :=
      if decide (status = lit "completed") then
        List.filter task_completed query
      else if decide (status = lit "incomplete") then
        List.filter (fun t => negb (task_completed t)) query
      else query in
    let tasks :=
      sort_by (fun x y => (task_created_at y <=? task_created_at x)%Z) query in
    (s, inr (ResTasks tasks (length tasks))).

(** The lookup that [complete_task], [delete_task] and [update_task] each
    spell out in the same words: by id first, then by title fragment. *)
Inductive Resolution :=
  | Resolved (task : Task)
  | NotFound
  | MultipleMatches (tasks : list Task).

(** "Try to find by ID first" *)
Definition find_by_id `{P : Platform} (user_id : pystr) (task_id : option pystr)
  : M (option Task) :=
  match task_id with
  | Some id_text =>
      if truthy id_text then
        match int_of_str id_text with
        | Some i => select_by_id i user_id
        | None => ret None
        end
      else ret None
  | None => ret None
  end.

(** "If not found by ID or no ID provided, try by title" *)
Definition resolve `{P : Platform} (user_id : pystr) (task_id title : option pystr)
  : M Resolution :=
  (task <- find_by_id user_id task_id ;;
   match task, title with
   | Some t, _ => ret (Resolved t)
   | None, Some fragment =>
       if truthy fragment then
         (tasks <- select_by_title user_id (lit "%" ++ fragment ++ lit "%") ;;
          match tasks with
          | [t] => ret (Resolved t)
          | [] => ret NotFound
          | _ => ret (MultipleMatches tasks)
          end)
       else ret NotFound
   | None, None => ret NotFound
   end)%py.

Definition set_completed (t : Task) (now : Z) : Task :=
  mkTask (task_pk t) (task_user_id t) (task_title t) (task_description t)
         true (task_created_at t) now.

Definition set_title (t : Task) (title : pystr) : Task :=
  mkTask (task_pk t) (task_user_id t) title (task_description t)
         (task_completed t) (task_created_at t) (task_updated_at t).

Definition set_description (t : Task) (description : option pystr) : Task :=
  mkTask (task_pk t) (task_user_id t) (task_title t) description
         (task_completed t) (task_created_at t) (task_updated_at t).

Definition set_updated_at (t : Task) (now : Z) : Task :=
  mkTask (task_pk t) (task_user_id t) (task_title t) (task_description t)
         (task_completed t) (task_created_at t) now.

Definition complete_task `{P : Platform} (user_id : pystr)
    (task_id title : option pystr) (now : Z) : M ToolResult :=
  if negb (truthy_opt task_id) && negb (truthy_opt title) then
    ret (ResError "Must provide either task_id or title" None)
  else
    (r <- resolve user_id task_id title ;;
     match r with
     | MultipleMatches tasks => ret (ResMultipleMatches (candidate_of <$> tasks))
     | NotFound => ret (ResError "Task not found for this user" None)
     | Resolved task =>
         let task := set_completed task now in
         (store_task task ;;;
          commit ;;;
          task <- refresh task ;;
          ret (ResTask task))
     end)%py.

Definition delete_task `{P : Platform} (user_id : pystr)
    (task_id title : option pystr) : M ToolResult :=
  if negb (truthy_opt task_id) && negb (truthy_opt title) then
    ret (ResError "Must provide either task_id or title" None)
  else
    (r <- resolve user_id task_id title ;;
     match r with
     | MultipleMatches tasks => ret (ResMultipleMatches (candidate_of <$> tasks))
     | NotFound => ret (ResError "Task not found for this user" None)
     | Resolved task =>
         (delete_row task ;;;
          commit ;;;
          ret (ResDeleted (task_pk task)))
     end)%py.

(** The texts that the [UPDATE] of [update_task] sends: the title and the
    description that were assigned. *)
Definition assigned_texts (title description : option pystr) : list pystr :=
  match title with Some new_title => [strip new_title] | None => [] end ++
  match description with
  | Some new_description =>
      if truthy new_description then [strip new_description] else []
  | None => []
  end.

Definition update_task `{P : Platform} (user_id : pystr)
    (task_id old_title title description : option pystr) (now : Z)
  : M ToolResult :=
  if negb (truthy_opt task_id) && negb (truthy_opt old_title) then
    ret (ResError "Must provide either task_id or old_title" None)
  else if is_None title && is_None description then
    ret (ResError "At least one field (title or description) must be provided" None)
  else
    (r <- resolve user_id task_id old_title ;;
     match r with
     | MultipleMatches tasks => ret (ResMultipleMatches (candidate_of <$> tasks))
     | NotFound => ret (ResError "Task not found for this user" None)
     | Resolved task =>
         (** "Update fields": each branch either returns the error result
             or goes on with the row as assigned so far *)
         (after_title <-
            match title with
            | Some new_title =>
                if negb (truthy new_title) || (255 <? length new_title)%nat then
                  ret (inl (ResError "Title must be between 1 and 255 characters" None))
                else
                  let task := set_title task (strip new_title) in
                  (store_task task ;;; ret (inr task))
            | None => ret (inr task)
            end ;;
          match after_title with
          | inl error_result => ret error_result
          | inr task =>
              (after_description <-
                 match description with
                 | Some new_description =>
                     if (1000 <? length new_description)%nat then
                       ret (inl (ResError "Description must be 1000 characters or less" None))
                     else
                       let task :=
                         set_description task
                           (if truthy new_description
                            then Some (strip new_description) else None) in
                       (store_task task ;;; ret (inr task))
                 | None => ret (inr task)
                 end ;;
               match after_description with
               | inl error_result => ret error_result
               | inr task =>
                   let task := set_updated_at task now in
                   (store_task task ;;;
                    commit_sending (assigned_texts title description) ;;;
                    task <- refresh task ;;
                    ret (ResTask task))
               end)
          end)
     end)%py.

(** ** [services/tool_executor.py] *)

(** [parameters[key]] *)
Definition item (parameters : gmap string pystr) (key : string) : M pystr :=
  match parameters !! key with
  | Some v => ret v
  | None => raise (KeyError key)
  end.

(** The two [except] clauses of [execute_tool]: [ValueError] first, then
    [Exception]. *)
Definition error_result_of (e : exn) : M ToolResult :=
  match e with
  | ValueError _ => ret (ResError (str_exn e) None)
  | _ => ret (ResError ("Tool execution failed: " ++ str_exn e)%string None)
  end.

(** The parameters are strings: [get_cohere_tools] declares every parameter
    of every tool with type ["string"]. *)
Definition execute_tool `{P : Platform} (tool_name : string)
    (parameters : gmap string pystr) (now : Z) : M ToolResult :=
  try_except
    (if decide (tool_name = "add_task") then
       (user_id <- item parameters "user_id" ;;
        title <- item parameters "title" ;;
        add_task user_id title (parameters !! "description") now)
     else if decide (tool_name = "list_tasks") then
       (user_id <- item parameters "user_id" ;;
        list_tasks user_id (default (lit "all") (parameters !! "status")))
     else if decide (tool_name = "complete_task") then
       (user_id <- item parameters "user_id" ;;
        complete_task user_id (parameters !! "task_id") (parameters !! "title") now)
     else if decide (tool_name = "delete_task") then
       (user_id <- item parameters "user_id" ;;
        delete_task user_id (parameters !! "task_id") (parameters !! "title"))
     else if decide (tool_name = "update_task") then
       (user_id <- item parameters "user_id" ;;
        update_task user_id (parameters !! "task_id") (parameters !! "old_title")
                    (parameters !! "title") (parameters !! "description") now)
     else raise (ValueError ("Unknown tool: " ++ tool_name)%string))%py
    error_result_of.

(** ** A platform to run on: ASCII case mapping and PostgreSQL's [LIKE]

    [%] matches any run of characters, [_] any one character, a backslash
    makes the next pattern character literal, and a pattern that ends in a
    lone backslash is rejected when the matcher reaches it with text left.
    [ILIKE] compares the lower-cased text with the lower-cased pattern. *)

Definition lower_char (c : N) : N :=
  if ((65 <=? c) && (c <=? 90))%N then (c + 32)%N else c.

Definition ascii_lower (s : pystr) : pystr := lower_char <$> s.

Definition digit_of (c : N) : option Z :=
  if ((48 <=? c) && (c <=? 57))%N then Some (Z.of_N c - 48) else None.

(** Digits, with single underscores allowed between them. *)
Fixpoint digits (acc : Z) (s : pystr) : option Z :=
  match s with
  | [] => Some acc
  | c :: s' =>
      match digit_of c with
      | Some d => digits (10 * acc + d) s'
      | None =>
          if (c =? 95)%N then
            match s' with
            | d :: _ => if negb (is_None (digit_of d)) then digits acc s' else None
            | [] => None
            end
          else None
      end
  end.

Definition unsigned (s : pystr) : option Z :=
  match s with
  | c :: _ => if negb (is_None (digit_of c)) then digits 0 s else None
  | [] => None
  end.

Definition ascii_int (s : pystr) : option Z :=
  match strip s with
  | c :: s' =>
      if (c =? 45)%N then Z.opp <$> unsigned s'
      else if (c =? 43)%N then unsigned s'
      else unsigned (c :: s')
  | [] => None
  end.

Fixpoint like_match (p t : pystr) {struct p} : like_outcome :=
  match p with
  | [] => match t with [] => LikeTrue | _ :: _ => LikeFalse end
  | c :: p' =>
      if (c =? 37)%N then
        (fix anywhere (t : pystr) : like_outcome :=
           match like_match p' t with
           | LikeFalse =>
               match t with
               | [] => LikeFalse
               | _ :: t' => anywhere t'
               end
           | o => o
           end) t
      else
        match t with
        | [] => LikeFalse
        | x :: t' =>
            if (c =? 95)%N then like_match p' t'
            else if (c =? 92)%N then
              match p' with
              | [] => LikeError
              | d :: p'' => if (x =? d)%N then like_match p'' t' else LikeFalse
              end
            else if (x =? c)%N then like_match p' t' else LikeFalse
        end
  end.

Definition hex_digit_of (c : N) : option N :=
  if ((48 <=? c) && (c <=? 57))%N then Some (c - 48)%N
  else if ((97 <=? c) && (c <=? 102))%N then Some (c - 87)%N
  else if ((65 <=? c) && (c <=? 70))%N then Some (c - 55)%N
  else None.

(** PostgreSQL's input of a [uuid]: 16 pairs of hexadecimal digits, a
    hyphen allowed after every second pair but the last.  [i] counts the
    pairs read, [n] those to come. *)
Fixpoint uuid_pairs (n i : nat) (acc : N) (s : pystr) : option (N * pystr) :=
  match n with
  | O => Some (acc, s)
  | S n' =>
      match s with
      | a :: b :: s' =>
          match hex_digit_of a, hex_digit_of b with
          | Some x, Some y =>
              uuid_pairs n' (S i) (256 * acc + 16 * x + y)%N
                (match s' with
                 | c :: rest =>
                     if (c =? 45)%N && Nat.odd i && negb (n' =? 0)%nat
                     then rest else s'
                 | [] => s'
                 end)
          | _, _ => None
          end
      | _ => None
      end
  end.

(** The whole may stand in braces. *)
Definition ascii_uuid (s : pystr) : option N :=
  let braces := match s with c :: _ => (c =? 123)%N | [] => false end in
  match uuid_pairs 16 0 0 (if braces then tail s else s) with
  | Some (u, rest) =>
      if braces then
        match rest with
        | [c] => if (c =? 125)%N then Some u else None
        | _ => None
        end
      else
        match rest with
        | [] => Some u
        | _ :: _ => None
        end
  | None => None
  end.

(** The database of the runs matches the title of a row before it tests
    its owner. *)
#[export] Instance ascii_postgres : Platform := {|
  str_lower := ascii_lower;
  int_of_str := ascii_int;
  ilike text pattern := like_match (ascii_lower pattern) (ascii_lower text);
  owner_first := false;
  uuid_of_str := ascii_uuid
|}.

(** ** [services/cohere_client.py] *)

Record ToolCall := mkToolCall {
  tc_name : string;
  tc_parameters : gmap string pystr
}.

Record CohereResponse := mkCohereResponse {
  response_text : pystr;
  response_tool_calls : list ToolCall
}.

(** One entry of [chat_history] *)
Record HistoryTurn := mkHistoryTurn {
  turn_role : string;
  turn_message : pystr
}.

(** The two ways the chat turn calls [co.chat]: with the history and the
    tool schema, and with the tool results.  Either call can raise. *)
Class LanguageModel := {
  chat_with_tools : pystr -> list HistoryTurn -> exn + CohereResponse;
  chat_with_results : pystr -> list ToolCallRecord -> exn + CohereResponse
}.

Fixpoint format_messages_for_cohere (messages : list Message) : list HistoryTurn :=
  match messages with
  | [] => []
  | msg :: rest =>
      if decide (msg_role msg = "user") then
        mkHistoryTurn "USER" (msg_content msg) :: format_messages_for_cohere rest
      else if decide (msg_role msg = "assistant") then
        mkHistoryTurn "CHATBOT" (msg_content msg) :: format_messages_for_cohere rest
      else format_messages_for_cohere rest
  end.

(** ** [routers/chat.py] *)

(** [models/chat.py] *)
Record ChatRequest := mkChatRequest {
  req_message : pystr;
  req_conversation_id : option pystr
}.

Record ChatResponse := mkChatResponse {
  resp_message : pystr;
  resp_tool_calls : list ToolCallRecord;
  resp_conversation_id : N;
  resp_message_id : N
}.

(** What one turn draws from its environment: the clock and the three
    identifiers that [uuid4()] hands out. *)
Record TurnEnv := mkTurnEnv {
  utcnow : Z;
  conversation_uuid : N;
  user_message_uuid : N;
  assistant_message_uuid : N
}.

Definition lift {A} (r : exn + A) : M A := fun s => (s, r).

Definition with_conversations (f : list Conversation -> list Conversation)
    (t : Tables) : Tables :=
  mkTables (tasks t) (f (conversations t)) (messages t).

Definition with_messages (f : list Message -> list Message) (t : Tables) : Tables :=
  mkTables (tasks t) (conversations t) (f (messages t)).

Definition on_working (f : Tables -> Tables) : M unit :=
  fun s => (mkSession (committed s) (f (working s)) (task_seq s), inr tt).

(** "Step 1: Get or create conversation".  [if request.conversation_id:]
    takes the empty string like [None].  The id of the request is a string
    and the column a uuid: a string that is not a uuid fails the query. *)
Definition get_or_create_conversation `{P : Platform} (user_id : pystr)
    (request : ChatRequest) (env : TurnEnv) : M Conversation :=
  if truthy_opt (req_conversation_id request) then
    match uuid_of_str (default [] (req_conversation_id request)) with
    | Some cid =>
        fun s =>
          match List.filter (fun c => bool_decide (conv_id c = cid)
                                      && bool_decide (conv_user_id c = user_id))
                            (conversations (working s)) with
          | conversation :: _ => (s, inr conversation)
          | [] => (s, inl (HTTPException 404 "Conversation not found"))
          end
    | None => raise (DatabaseError "invalid input syntax for type uuid")
    end
  else
    let conversation :=
      mkConversation (conversation_uuid env) user_id (utcnow env) (utcnow env) in
    (on_working (with_conversations (fun cs => cs ++ [conversation])) ;;;
     commit ;;;
     ret conversation)%py.  (* [session.refresh] reads the same row back *)

(** "Step 2: Fetch conversation history": [select(Message)
    .where(Message.conversation_id == conversation.id)
    .order_by(Message.created_at.asc()).limit(50)] *)
Definition fetch_history (conversation_id : N) : M (list Message) :=
  fun s =>
    (s, inr (take 50
               (sort_by (fun x y => (msg_created_at x <=? msg_created_at y)%Z)
                  (List.filter
                     (fun m => bool_decide (msg_conversation_id m = conversation_id))
                     (messages (working s)))))).

(** "Step 5: Execute tool calls": the loop over [cohere_response.tool_calls] *)
Fixpoint run_tool_calls `{P : Platform} (user_id : pystr) (calls : list ToolCall)
    (now : Z) : M (list ToolCallRecord) :=
  match calls with
  | [] => ret []
  | tool_call :: rest =>
      let tool_name := tc_name tool_call in
      let tool_params := <["user_id" := user_id]> (tc_parameters tool_call) in
      (result <- execute_tool tool_name tool_params now ;;
       tool_results <- run_tool_calls user_id rest now ;;
       ret (mkToolCallRecord tool_name tool_params result :: tool_results))%py
  end.

(** "Step 6: Store messages".  The flush of the commit sends the two
    texts; the tool results are sent as the output of [json.dumps], which
    is ASCII. *)
Definition store_messages (conversation : Conversation) (request : ChatRequest)
    (reply : pystr) (tool_results : list ToolCallRecord) (env : TurnEnv)
  : M Message :=
  let user_message :=
    mkMessage (user_message_uuid env) (conv_id conversation) "user"
              (req_message request) None (utcnow env) in
  let assistant_message :=
    mkMessage (assistant_message_uuid env) (conv_id conversation) "assistant"
              reply
              (match tool_results with [] => None | _ :: _ => Some tool_results end)
              (utcnow env) in
  (on_working (with_messages (fun ms => ms ++ [user_message])) ;;;
   on_working (with_messages (fun ms => ms ++ [assistant_message])) ;;;
   on_working (with_conversations
     (fmap (fun c => if decide (conv_id c = conv_id conversation)
                     then mkConversation (conv_id c) (conv_user_id c)
                                         (conv_created_at c) (utcnow env)
                     else c))) ;;;
   commit_sending [req_message request; reply] ;;;
   ret assistant_message)%py.

(** [token_user_id] is the identity that [get_current_user_with_email]
    returned; a request that fails authentication does not get this far. *)
Definition chat_endpoint `{P : Platform} `{L : LanguageModel}
    (token_user_id user_id : pystr) (request : ChatRequest) (env : TurnEnv)
  : M ChatResponse :=
  if decide (token_user_id <> user_id) then
    raise (HTTPException 403 "Access denied: user_id mismatch")
  else
    try_except
      (conversation <- get_or_create_conversation user_id request env ;;
       messages <- fetch_history (conv_id conversation) ;;
       let chat_history := format_messages_for_cohere messages in
       cohere_response <- lift (chat_with_tools (req_message request) chat_history) ;;
       outcome <-
         match response_tool_calls cohere_response with
         | [] => ret (cohere_response, [])
         | _ :: _ =>
             (tool_results <- run_tool_calls user_id
                                (response_tool_calls cohere_response) (utcnow env) ;;
              final_response <- lift (chat_with_results (req_message request)
                                                        tool_results) ;;
              ret (final_response, tool_results))
         end ;;
       let cohere_response := fst outcome in
       let tool_results := snd outcome in
       assistant_message <- store_messages conversation request
                              (response_text cohere_response) tool_results env ;;
       ret (mkChatResponse (response_text cohere_response) tool_results
                           (conv_id conversation) (msg_id assistant_message)))%py
      (fun e =>
         match e with
         | HTTPException _ _ => raise e
         | _ => raise (HTTPException 500
                         ("Failed to process chat message: " ++ str_exn e)%string)
         end).

(** One request: [get_session] opens a session on the database for it and
    closes it afterwards, and what the session had not committed is gone. *)
Definition serve_chat `{P : Platform} `{L : LanguageModel} (db : Tables) (seq : Z)
    (token_user_id user_id : pystr) (request : ChatRequest) (env : TurnEnv)
  : Tables * (exn + ChatResponse) :=
  let (session, response) :=
    chat_endpoint token_user_id user_id request env (mkSession db db seq) in
  (committed session, response).

(** ** Vocabulary of the properties *)

(** The rows that do not belong to [owner]. *)
Definition foreign (owner : pystr) (rows : list Task) : list Task :=
  List.filter (fun t => negb (bool_decide (task_user_id t = owner))) rows.

(** [id] is the primary key, and the sequence is ahead of every key. *)
Definition keyed (seq : Z) (rows : list Task) : Prop :=
  NoDup (task_pk <$> rows) /\ Forall (fun t => task_pk t < seq) rows.

Definition well_keyed (s : Session) : Prop :=
  keyed (task_seq s) (tasks (working s)) /\
  keyed (task_seq s) (tasks (committed s)).

(** The session holds no uncommitted change to a row of another owner. *)
Definition clean_for (owner : pystr) (s : Session) : Prop :=
  foreign owner (tasks (working s)) = foreign owner (tasks (committed s)).

(** Between [s] and [s'] no row of another owner was added, changed or
    removed, neither in the session's view nor in the database. *)
Definition isolated (owner : pystr) (s s' : Session) : Prop :=
  foreign owner (tasks (working s')) = foreign owner (tasks (working s)) /\
  foreign owner (tasks (committed s')) = foreign owner (tasks (committed s)).

(** The session is well keyed, and the rows of the other owners are [others]
    both in its view and in the database. *)
Definition guarded (owner : pystr) (others : list Task) (s : Session) : Prop :=
  well_keyed s /\
  foreign owner (tasks (working s)) = others /\
  foreign owner (tasks (committed s)) = others.

(** What a lookup found is among [rows] and belongs to [owner]. *)
Definition resolution_within (owner : pystr) (rows : list Task)
    (r : exn + Resolution) : Prop :=
  match r with
  | inr (Resolved t) => In t rows /\ task_user_id t = owner
  | inr (MultipleMatches ts) =>
      forall t, In t ts -> In t rows /\ task_user_id t = owner
  | _ => True
  end.

(** Every task that the result shows is a task of [owner]: a full record
    says so itself, a shorter entry is taken from a row of [owner] in
    [rows]. *)
Definition shows_only (owner : pystr) (rows : list Task) (r : ToolResult) : Prop :=
  match r with
  | ResError _ _ => True
  | ResWarning i e =>
      exists t, In t rows /\ task_user_id t = owner /\
                i = task_pk t /\ e = existing_of t
  | ResTask t => task_user_id t = owner
  | ResTasks ts n => Forall (fun t => In t rows /\ task_user_id t = owner) ts
  | ResDeleted i => exists t, In t rows /\ task_user_id t = owner /\ i = task_pk t
  | ResMultipleMatches cs =>
      Forall (fun c => exists t, In t rows /\ task_user_id t = owner /\
                                 c = candidate_of t) cs
  end.

(** The five tool operations, as invoked for [owner]. *)
Inductive invoked_for `{P : Platform} (owner : pystr) : M ToolResult -> Prop :=
  | invoked_add title description now :
      invoked_for owner (add_task owner title description now)
  | invoked_list status :
      invoked_for owner (list_tasks owner status)
  | invoked_complete task_id title now :
      invoked_for owner (complete_task owner task_id title now)
  | invoked_delete task_id title :
      invoked_for owner (delete_task owner task_id title)
  | invoked_update task_id old_title title description now :
      invoked_for owner (update_task owner task_id old_title title description now).

(** The messages table is [ms], in the session's view and in the database. *)
Definition messages_are (ms : list Message) (s : Session) : Prop :=
  messages (working s) = ms /\ messages (committed s) = ms.

(** The conversations table is [cs], in the session's view and in the
    database. *)
Definition conversations_are (cs : list Conversation) (s : Session) : Prop :=
  conversations (working s) = cs /\ conversations (committed s) = cs.

(** The session of a request after step 1 of the chat turn. *)
Definition after_step_1 `{P : Platform} (db : Tables) (seq : Z) (user_id : pystr)
    (request : ChatRequest) (env : TurnEnv) : Session :=
  fst (get_or_create_conversation user_id request env (mkSession db db seq)).

(** The error response of the chat turn for an exception of its body: an
    [HTTPException] is raised again, anything else becomes a 500. *)
Definition turn_error (e : exn) : exn :=
  match e with
  | HTTPException _ _ => e
  | _ => HTTPException 500 ("Failed to process chat message: " ++ str_exn e)%string
  end.

(** The history that a turn hands to the model, in the session [s]. *)
Definition history_of (conversation_id : N) (s : Session) : list HistoryTurn :=
  match snd (fetch_history conversation_id s) with
  | inr messages => format_messages_for_cohere messages
  | inl _ => []
  end.

(** Step 6 and the response of a turn whose last answer from the model is
    [final]. *)
Definition answer_with (conversation : Conversation) (request : ChatRequest)
    (final : CohereResponse) (tool_results : list ToolCallRecord) (env : TurnEnv)
  : M ChatResponse :=
  fun s =>
    match store_messages conversation request (response_text final)
                         tool_results env s with
    | (s', inr stored) =>
        (s', inr (mkChatResponse (response_text final) tool_results
                                 (conv_id conversation) (msg_id stored)))
    | (s', inl e) => (s', inl (turn_error e))
    end.

(** [m] keeps [J], however it ends. *)
Definition keeps {A} (J : Session -> Prop) (m : M A) : Prop :=
  forall s, J s -> J (fst (m s)).

(** [J] still holds where [m] raises. *)
Definition raises_within {A} (J : Session -> Prop) (m : M A) : Prop :=
  forall s, J s -> forall s' e, m s = (s', inl e) -> J s'.

(** C4 as the specification words it: a turn that fails leaves the database
    exactly as it found it. *)
Definition failed_turn_writes_nothing : Prop :=
  forall (P : Platform) (L : LanguageModel) (db : Tables) (seq : Z)
         (token_user_id user_id : pystr) (request : ChatRequest) (env : TurnEnv)
         (e : exn),
    snd (serve_chat db seq token_user_id user_id request env) = inl e ->
    fst (serve_chat db seq token_user_id user_id request env) = db.

(** Two sessions that show [owner] the same rows of its own and number new
    tasks alike. *)
Definition same_view (owner : pystr) (s1 s2 : Session) : Prop :=
  tasks_of owner (tasks (working s1)) = tasks_of owner (tasks (working s2)) /\
  task_seq s1 = task_seq s2.

(** What a lookup answers when it did not settle on one task. *)
Definition unresolved_answer (r : exn + Resolution) : exn + ToolResult :=
  match r with
  | inl e => inl e
  | inr (MultipleMatches ts) => inr (ResMultipleMatches (candidate_of <$> ts))
  | inr _ => inr (ResError "Task not found for this user" None)
  end.

(** The row with the fields that [update_task] assigns, or the error it
    stops at, together with a flag that tells whether a new title had been
    assigned by then. *)
Definition update_fields (task : Task) (title description : option pystr)
  : string * bool + Task :=
  match title with
  | Some new_title =>
      if negb (truthy new_title) || (255 <? length new_title)%nat then
        inl ("Title must be between 1 and 255 characters", false)
      else
        match description with
        | Some d =>
            if (1000 <? length d)%nat then
              inl ("Description must be 1000 characters or less", true)
            else inr (set_description (set_title task (strip new_title))
                        (if truthy d then Some (strip d) else None))
        | None => inr (set_title task (strip new_title))
        end
  | None =>
      match description with
      | Some d =>
          if (1000 <? length d)%nat then
            inl ("Description must be 1000 characters or less", false)
          else inr (set_description task (if truthy d then Some (strip d) else None))
      | None => inr task
      end
  end.

(** No [%], no [_] and no backslash. *)
Definition plain_text (s : pystr) : bool :=
  forallb (fun c => negb ((c =? 37) || (c =? 95) || (c =? 92))%N) s.

(** Text that the driver sends: no lone surrogate and no code point 0. *)
Definition sendable (s : pystr) : bool :=
  negb (has_surrogate s) && negb (has_nul s).


(** Two tool calls that differ at most in the [user_id] the model wrote. *)
Definition same_but_user_id (c c' : ToolCall) : Prop :=
  tc_name c = tc_name c' /\
  delete "user_id" (tc_parameters c) = delete "user_id" (tc_parameters c').

(** What [add_task] validates: the trimmed and re-encoded text. *)
Definition normalized (s : pystr) : pystr := utf8_roundtrip (strip s).

Definition normalized_length (o : option pystr) : nat :=
  match o with Some d => length (normalized d) | None => 0%nat end.

(** The description that [add_task] stores. *)
Definition stored_description (o : option pystr) : option pystr :=
  match o with
  | Some d => if truthy (normalized d) then Some (normalized d) else None
  | None => None
  end.

(** The answer of [add_task] to an exception of its [try] block. *)
Definition failed_to_add (r : exn + ToolResult) : Prop :=
  exists e, r = inr (ResError ("Failed to add task: " ++ str_exn e)%string
                              (Some (repr_exn e))).


Definition known_tools : list string :=
  ["add_task"; "list_tasks"; "complete_task"; "delete_task"; "update_task"].

Definition statuses : list string :=
  ["success"; "error"; "warning"; "multiple_matches"].

(** [fragment] occurs in [title], read literally and without regard to
    ASCII case. *)
Fixpoint starts_with (prefix s : pystr) : bool :=
  match prefix, s with
  | [], _ => true
  | p :: prefix', c :: s' => (p =? c)%N && starts_with prefix' s'
  | _ :: _, [] => false
  end.

Fixpoint occurs_in (fragment s : pystr) : bool :=
  starts_with fragment s ||
  match s with
  | [] => false
  | _ :: s' => occurs_in fragment s'
  end.

Definition contains_fragment (fragment title : pystr) : bool :=
  occurs_in (ascii_lower fragment) (ascii_lower title).

(** The rows of [owner] whose title contains [fragment]. *)
Definition substring_matches (owner fragment : pystr) (rows : list Task)
  : list Task :=
  List.filter (fun t => contains_fragment fragment (task_title t))
              (tasks_of owner rows).

Definition like_true (o : like_outcome) : bool :=
  match o with LikeTrue => true | _ => false end.

(** The rows of [owner] whose title the database matches against
    [pattern]. *)
Definition title_matches `{P : Platform} (owner pattern : pystr)
    (rows : list Task) : list Task :=
  List.filter (fun t => like_true (ilike (task_title t) pattern))
              (tasks_of owner rows).


(** The rows of [owner] whose title is [title] up to ASCII case. *)
Definition same_title_rows (owner title : pystr) (rows : list Task) : list Task :=
  List.filter (fun t => bool_decide (ascii_lower (task_title t) = ascii_lower title))
              (tasks_of owner rows).

(** The [n] most recently created of [msgs], oldest first. *)
Definition most_recent (n : nat) (msgs : list Message) : list Message :=
  let ascending :=
    sort_by (fun x y => (msg_created_at x <=? msg_created_at y)%Z) msgs in
  drop (length ascending - n) ascending.

(** ** Concrete data for the runs *)

Definition u1 : pystr := lit "u1".
Definition u2 : pystr := lit "u2".

Definition row (pk : Z) (owner : pystr) (title : string) : Task :=
  mkTask pk owner (lit title) None false 0 0.

Definition fresh_session (rows : list Task) (seq : Z) : Session :=
  mkSession (mkTables rows [] []) (mkTables rows [] []) seq.

(** Two owners with one task each. *)
Definition two_owners : Session :=
  fresh_session [row 1 u1 "buy milk"; row 2 u2 "pay rent"] 3.

(** A call in which the model wrote the identity of [u2]. *)
Definition forged_delete : ToolCall :=
  mkToolCall "delete_task" {[ "user_id" := u2; "title" := lit "%" ]}.

(** A title of exactly 255 characters, and one of 256. *)
Definition title_255 : pystr := repeat 97%N 255.

(** [u1] with the one task "buy milk". *)
Definition one_task : Session := fresh_session [row 1 u1 "buy milk"] 2.

(** [u1] with a task "abc" and a younger task "a%". *)
Definition abc_and_pattern : Session :=
  fresh_session [row 1 u1 "abc"; row 2 u1 "a%"] 3.

(** [u1] with a task whose title holds a backslash. *)
Definition backslash_title : Session := fresh_session [row 1 u1 "a\b"] 2.

(** A model that asks for the given tool calls and then answers. *)
Definition scripted_model (calls : list ToolCall) : LanguageModel := {|
  chat_with_tools _ _ := inr (mkCohereResponse (lit "") calls);
  chat_with_results _ _ := inr (mkCohereResponse (lit "done") [])
|}.

(** A model that cannot be reached. *)
Definition unreachable_model : LanguageModel := {|
  chat_with_tools _ _ := inl (ModelError "timed out");
  chat_with_results _ _ := inl (ModelError "timed out")
|}.

(** A model that asks for the given tool calls and cannot be reached for
    its second answer. *)
Definition model_lost_after_tools (calls : list ToolCall) : LanguageModel := {|
  chat_with_tools _ _ := inr (mkCohereResponse (lit "") calls);
  chat_with_results _ _ := inl (ModelError "timed out")
|}.

Definition turn_env : TurnEnv := mkTurnEnv 100 1000 1001 1002.

Definition long_description : pystr := repeat 120%N 1001.

(** An update of task 1 with a valid new title and a description that is
    too long. *)
Definition half_valid_update : ToolCall :=
  mkToolCall "update_task"
    {[ "task_id" := lit "1"; "title" := lit "buy bread";
       "description" := long_description ]}.

(** Conversation 7 with 51 messages, created at times 1 to 51; the text of
    a message is the one character that has its number. *)
Definition numbered_message (i : nat) : Message :=
  mkMessage (N.of_nat i) 7
            (if Nat.even i then "assistant" else "user")
            [N.of_nat i] None (Z.of_nat i).

(** A model that answers with the history it was given, texts joined. *)
Definition echo_model : LanguageModel := {|
  chat_with_tools _ chat_history :=
    inr (mkCohereResponse (concat (turn_message <$> chat_history)) []);
  chat_with_results _ _ := inr (mkCohereResponse [] [])
|}.

(** The id of conversation 7, as a request writes it. *)
Definition conversation_7 : pystr := lit "00000000-0000-0000-0000-000000000007".

Definition long_conversation : Session :=
  let db := mkTables [] [mkConversation 7 u1 0 0]
                     (numbered_message <$> seq 1 51) in
  mkSession db db 1.

(** ** [tools/task_tools.py]: the tool schema *)

(** One entry of ["parameter_definitions"], with its key. *)
Record ParameterDefinition := mkParameterDefinition {
  param_key : string;
  param_description : string;
  param_type : string;
  param_required : bool
}.

Record CohereTool := mkCohereTool {
  tool_name : string;
  tool_description : string;
  parameter_definitions : list ParameterDefinition
}.

Definition get_cohere_tools : list CohereTool :=
  [ mkCohereTool "add_task" "Create a new task for the user"
      [ mkParameterDefinition "user_id" "UUID of the authenticated user"
          "string" true;
        mkParameterDefinition "title" "Task title (1-255 characters)"
          "string" true;
        mkParameterDefinition "description"
          "Optional task description (max 1000 characters)" "string" false ];
    mkCohereTool "list_tasks"
      "List all tasks for the user with optional status filter"
      [ mkParameterDefinition "user_id" "UUID of the authenticated user"
          "string" true;
        mkParameterDefinition "status"
          "Filter by status: 'all', 'completed', or 'incomplete'"
          "string" false ];
    mkCohereTool "complete_task"
      "Mark a task as completed. Can use task_id OR title to find the task."
      [ mkParameterDefinition "user_id" "UUID of the authenticated user"
          "string" true;
        mkParameterDefinition "task_id"
          "ID of the task to complete (optional if title provided)"
          "string" false;
        mkParameterDefinition "title"
          "Title or partial title of the task to complete (optional if task_id provided)"
          "string" false ];
    mkCohereTool "delete_task"
      "Permanently delete a task. Can use task_id OR title to find the task."
      [ mkParameterDefinition "user_id" "UUID of the authenticated user"
          "string" true;
        mkParameterDefinition "task_id"
          "ID of the task to delete (optional if title provided)"
          "string" false;
        mkParameterDefinition "title"
          "Title or partial title of the task to delete (optional if task_id provided)"
          "string" false ];
    mkCohereTool "update_task"
      "Update task title and/or description. Can use task_id OR old_title to find the task."
      [ mkParameterDefinition "user_id" "UUID of the authenticated user"
          "string" true;
        mkParameterDefinition "task_id"
          "ID of the task to update (optional if old_title provided)"
          "string" false;
        mkParameterDefinition "old_title"
          "Current title or partial title to search for (optional if task_id provided)"
          "string" false;
        mkParameterDefinition "title" "New task title (1-255 characters)"
          "string" false;
        mkParameterDefinition "description"
          "New task description (max 1000 characters)" "string" false ] ].

(** ** [dependencies/auth.py] *)

(** [s.replace(old, new)] for a non-empty [old]: the occurrences of [old]
    are found from the left and do not overlap.  [skip] counts the
    characters of the occurrence just replaced that are still to be
    dropped. *)
Fixpoint replace_from (old new : pystr) (skip : nat) (s : pystr) : pystr :=
  match s with
  | [] => []
  | c :: s' =>
      match skip with
      | S n => replace_from old new n s'
      | O =>
          if starts_with old s
          then new ++ replace_from old new (length old - 1) s'
          else c :: replace_from old new 0 s'
      end
  end.

Definition replace (old new s : pystr) : pystr := replace_from old new 0 s.

(** What [jwt.decode(token, SECRET_KEY, algorithms=[ALGORITHM])] does is not
    code of this repository: it returns the payload or raises
    [jwt.ExpiredSignatureError] or another [jwt.InvalidTokenError].  The
    claims that the two dependencies read (["sub"], ["user_id"],
    ["email"]) are strings. *)
Inductive jwt_outcome :=
  | JwtPayload (payload : gmap string pystr)
  | JwtExpired
  | JwtInvalid (msg : string).

Class TokenDecoder := {
  jwt_decode : pystr -> jwt_outcome
}.

(** [a or b] on the results of two [payload.get] calls *)
Definition or_else (a b : option pystr) : option pystr :=
  if truthy_opt a then a else b.

(** An optional string inside an f-string *)
Definition str_opt (o : option pystr) : pystr := default (lit "None") o.

Definition get_current_user `{D : TokenDecoder} (authorization : option pystr)
  : exn + pystr :=
  if negb (truthy_opt authorization)
     || negb (starts_with (lit "Bearer ") (default [] authorization)) then
    inl (HTTPException 401 "Missing or invalid authorization header")
  else
    let token := replace (lit "Bearer ") (lit "") (default [] authorization) in
    match jwt_decode token with
    | JwtPayload payload =>
        let user_id := or_else (payload !! "sub") (payload !! "user_id") in
        if negb (truthy_opt user_id) then
          inl (HTTPException 401 "Invalid token payload")
        else inr (default [] user_id)
    | JwtExpired => inl (HTTPException 401 "Token expired")
    | JwtInvalid _ => inl (HTTPException 401 "Invalid token")
    end.

Definition get_current_user_with_email `{D : TokenDecoder}
    (authorization : option pystr) : exn + pystr * pystr :=
  if negb (truthy_opt authorization)
     || negb (starts_with (lit "Bearer ") (default [] authorization)) then
    inl (HTTPException 401 "Missing or invalid authorization header")
  else
    let token := replace (lit "Bearer ") (lit "") (default [] authorization) in
    match jwt_decode token with
    | JwtPayload payload =>
        let user_id := or_else (payload !! "sub") (payload !! "user_id") in
        let email :=
          or_else (payload !! "email")
                  (Some (str_opt user_id ++ lit "@example.com")) in
        if negb (truthy_opt user_id) then
          inl (HTTPException 401 "Invalid token payload")
        else inr (default [] user_id, default [] email)
    | JwtExpired => inl (HTTPException 401 "Token expired")
    | JwtInvalid _ => inl (HTTPException 401 "Invalid token")
    end.

Definition verify_user_access (path_user_id token_user_id : pystr) : exn + unit :=
  if decide (path_user_id <> token_user_id) then
    inl (HTTPException 403 "Access denied: user_id mismatch")
  else inr tt.

(** [chat_endpoint] from its first line: the identity is taken from the
    [Authorization] header, then the turn runs. *)
Definition chat_endpoint_from_header `{P : Platform} `{L : LanguageModel}
    `{D : TokenDecoder} (authorization : option pystr) (user_id : pystr)
    (request : ChatRequest) (env : TurnEnv) : M ChatResponse :=
  match get_current_user_with_email authorization with
  | inr (token_user_id, user_email) =>
      chat_endpoint token_user_id user_id request env
  | inl e => raise e
  end.

(** ** [routes/tasks.py]

    The handlers take the identity that [get_current_user] returned as
    [current_user], and the request body as [schemas/task.py] parsed it. *)

Module Routes.

(** [schemas/task.py] is not among the sources; the fields are the ones
    the handlers read. *)
Record TaskCreate := mkTaskCreate {
  create_title : pystr;
  create_description : option pystr
}.

Record TaskUpdate := mkTaskUpdate {
  update_title : option pystr;
  update_description : option pystr;
  update_completed : option bool
}.

(** What [Task(...)] fills in for the fields that [create_task] does not
    pass; [models/task.py] is not among the sources. *)
Record TaskDefaults := mkTaskDefaults {
  default_completed : bool;
  default_created_at : Z;
  default_updated_at : Z
}.

(** [session.get(Task, task_id)]: the row with this primary key, whoever
    owns it. *)
Definition session_get (task_id : Z) : M (option Task) :=
  fun s =>
    (s, inr (head (List.filter (fun t => bool_decide (task_pk t = task_id))
                               (tasks (working s))))).

(** The lookup that [get_task], [update_task], [delete_task] and
    [toggle_complete] each spell out in the same words. *)
Definition owned_task (task_id : Z) (current_user : pystr) : M Task :=
  (task <- session_get task_id ;;
   match task with
   | Some task =>
       if decide (task_user_id task <> current_user) then
         raise (HTTPException 404 "Task not found")
       else ret task
   | None => raise (HTTPException 404 "Task not found")
   end)%py.

Definition assign_completed (t : Task) (completed : bool) : Task :=
  mkTask (task_pk t) (task_user_id t) (task_title t) (task_description t)
         completed (task_created_at t) (task_updated_at t).

(** [title_before x y] is [x <= y] in the collation of the title column,
    which the database decides.  A query without [ORDER BY] is modelled
    as returning the rows in table order.  The query has no part that can
    fail here, so the [except] clause that answers 500 is left out. *)
Definition list_tasks (title_before : pystr -> pystr -> bool)
    (user_id status_filter sort current_user : pystr) : M (list Task) :=
  (lift (verify_user_access user_id current_user) ;;;
   fun s =>
     let query := tasks_of current_user (tasks (working s)) in
     let query :=
       if decide (status_filter = lit "completed") then
         List.filter task_completed query
       else if decide (status_filter = lit "pending") then
         List.filter (fun t => negb (task_completed t)) query
       else query in
     let query :=
       if decide (sort = lit "title") then
         sort_by (fun x y => title_before (task_title x) (task_title y)) query
       else if decide (sort = lit "created_at") then
         sort_by (fun x y => (task_created_at y <=? task_created_at x)%Z) query
       else query in
     (s, inr query))%py.

Definition create_task (defaults : TaskDefaults) (user_id : pystr)
    (task_data : TaskCreate) (current_user : pystr) : M Task :=
  (lift (verify_user_access user_id current_user) ;;;
   task <- add_new_task (fun i =>
     mkTask i current_user (create_title task_data)
            (create_description task_data)
            (default_completed defaults) (default_created_at defaults)
            (default_updated_at defaults)) ;;
   commit ;;;
   refresh task)%py.

Definition get_task (user_id : pystr) (task_id : Z) (current_user : pystr)
  : M Task :=
  (lift (verify_user_access user_id current_user) ;;;
   owned_task task_id current_user)%py.

(** The texts that the [UPDATE] of [update_task] sends: the title and the
    description that the request carries. *)
Definition carried_texts (task_data : TaskUpdate) : list pystr :=
  match update_title task_data with Some title => [title] | None => [] end ++
  match update_description task_data with
  | Some description => [description]
  | None => []
  end.

(** "Update only provided fields"; the assignments reach the database
    together, at the flush of [commit].  When the driver refuses a text
    that the request carries, the commit raises and the assignments are
    rolled back: the session, which holds no other change, is as the
    request found it. *)
Definition update_task (user_id : pystr) (task_id : Z) (task_data : TaskUpdate)
    (current_user : pystr) (now : Z) : M Task :=
  (lift (verify_user_access user_id current_user) ;;;
   task <- owned_task task_id current_user ;;
   let task :=
     match update_title task_data with
     | Some title => set_title task title
     | None => task
     end in
   let task :=
     match update_description task_data with
     | Some description => set_description task (Some description)
     | None => task
     end in
   let task :=
     match update_completed task_data with
     | Some completed => assign_completed task completed
     | None => task
     end in
   let task := set_updated_at task now in
   lift (send_texts (carried_texts task_data)) ;;;
   store_task task ;;;
   commit ;;;
   refresh task)%py.

Definition delete_task (user_id : pystr) (task_id : Z) (current_user : pystr)
  : M unit :=
  (lift (verify_user_access user_id current_user) ;;;
   task <- owned_task task_id current_user ;;
   delete_row task ;;;
   commit)%py.

Definition toggle_complete (user_id : pystr) (task_id : Z)
    (current_user : pystr) (now : Z) : M Task :=
  (lift (verify_user_access user_id current_user) ;;;
   task <- owned_task task_id current_user ;;
   let task := assign_completed task (negb (task_completed task)) in
   let task := set_updated_at task now in
   store_task task ;;;
   commit ;;;
   refresh task)%py.

End Routes.

(** ** Vocabulary of the further properties *)

(** The tasks that pass the status filter of the tool [list_tasks]. *)
Definition wanted (status : pystr) (t : Task) : bool :=
  if decide (status = lit "completed") then task_completed t
  else if decide (status = lit "incomplete") then negb (task_completed t)
  else true.

(** The tasks that [list_tasks] returns. *)
Definition listed (user_id status : pystr) (s : Session) : list Task :=
  match snd (list_tasks user_id status s) with
  | inr (ResTasks found _) => found
  | _ => []
  end.

(** The tasks of [user_id] that the REST listing selects. *)
Definition rest_wanted (status_filter : pystr) (t : Task) : bool :=
  if decide (status_filter = lit "completed") then task_completed t
  else if decide (status_filter = lit "pending") then negb (task_completed t)
  else true.

(** What the lookup of [resolve] finds, as a function of the rows that
    the session shows. *)
Definition resolution_of `{P : Platform} (owner : pystr)
    (task_id title : option pystr) (rows : list Task) : exn + Resolution :=
  let by_id :=
    match task_id with
    | Some id_text =>
        if truthy id_text then
          match int_of_str id_text with
          | Some i => head (List.filter (fun t => bool_decide (task_pk t = i))
                                        (tasks_of owner rows))
          | None => None
          end
        else None
    | None => None
    end in
  match by_id, title with
  | Some t, _ => inr (Resolved t)
  | None, Some fragment =>
      if truthy fragment then
        match lookup_by_title owner (lit "%" ++ fragment ++ lit "%") rows with
        | inl e => inl e
        | inr [] => inr NotFound
        | inr [t] => inr (Resolved t)
        | inr ts => inr (MultipleMatches ts)
        end
      else inr NotFound
  | None, None => inr NotFound
  end.

(** The result of a lookup with [g] applied to every task in it. *)
Definition map_resolution (g : Task -> Task) (r : exn + Resolution)
  : exn + Resolution :=
  match r with
  | inr (Resolved t) => inr (Resolved (g t))
  | inr (MultipleMatches ts) => inr (MultipleMatches (g <$> ts))
  | inr NotFound => inr NotFound
  | inl e => inl e
  end.

(** What a tool can end with: it raises nothing but an error of the
    database or of its driver, and none of its error messages, raised or
    returned, begins like "Unknown tool". *)
Definition tool_outcome (r : exn + ToolResult) : Prop :=
  match r with
  | inl (DatabaseError _) => True
  | inl (ValueError (String c _)) => c <> "U"%char
  | inl _ => False
  | inr (ResError (String c _) _) => c <> "U"%char
  | inr _ => True
  end.

(** The messages that reach the model's history. *)
Definition spoken (m : Message) : bool :=
  bool_decide (msg_role m = "user") || bool_decide (msg_role m = "assistant").

(** ** Concrete data for the further runs *)

(** [u1] with two tasks whose titles begin alike. *)
Definition two_purchases : Session :=
  fresh_session [row 1 u1 "buy milk"; row 2 u1 "buy bread"] 3.

(** A decoder that knows one token, issued to [u1]. *)
Definition one_token : TokenDecoder := {|
  jwt_decode token :=
    if decide (token = lit "t1") then JwtPayload {[ "sub" := u1 ]}
    else JwtInvalid "Not enough segments"
|}.

(** A collation that orders titles by length. *)
Definition by_length (x y : pystr) : bool := (length x <=? length y)%nat.

Definition add_task_schema : CohereTool :=
  mkCohereTool "add_task" "Create a new task for the user"
    [ mkParameterDefinition "user_id" "UUID of the authenticated user"
        "string" true;
      mkParameterDefinition "title" "Task title (1-255 characters)"
        "string" true;
      mkParameterDefinition "description"
        "Optional task description (max 1000 characters)" "string" false ].

(** * Supporting lemmas *)

(** ** Rows and queries *)

Lemma tasks_of_In (owner : pystr) (rows : list Task) (t : Task) :
  In t (tasks_of owner rows) <-> In t rows /\ task_user_id t = owner.
Proof.
  unfold tasks_of. rewrite filter_In, bool_decide_eq_true. tauto.
Qed.

Lemma foreign_In (owner : pystr) (rows : list Task) (t : Task) :
  In t (foreign owner rows) <-> In t rows /\ task_user_id t <> owner.
Proof.
  unfold foreign. rewrite filter_In, negb_true_iff, bool_decide_eq_false. tauto.
Qed.

Lemma foreign_app (owner : pystr) (a b : list Task) :
  foreign owner (a ++ b) = foreign owner a ++ foreign owner b.
Proof. apply List.filter_app. Qed.

Lemma foreign_own (owner : pystr) (t : Task) :
  task_user_id t = owner -> foreign owner [t] = [].
Proof.
  intros Ht. unfold foreign. simpl.
  rewrite bool_decide_eq_true_2 by exact Ht. reflexivity.
Qed.

(** Rewriting the rows that carry one key leaves the other owners' rows
    alone, as long as that key belongs to [owner]. *)
Lemma foreign_store (owner : pystr) (t : Task) (rows : list Task) :
  (forall r, In r rows -> task_pk r = task_pk t -> task_user_id r = owner) ->
  task_user_id t = owner ->
  foreign owner ((fun r => if decide (task_pk r = task_pk t) then t else r) <$> rows)
  = foreign owner rows.
Proof.
  intros Hkey Ht. induction rows as [|r rows IH]; [reflexivity|].
  assert (IH' := IH (fun r' Hr' => Hkey r' (or_intror Hr'))).
  rewrite fmap_cons. unfold foreign in *. simpl.
  destruct (decide (task_pk r = task_pk t)) as [Heq|Hne].
  - rewrite (bool_decide_eq_true_2 _ Ht).
    rewrite (bool_decide_eq_true_2 _ (Hkey r (or_introl eq_refl) Heq)).
    simpl. exact IH'.
  - destruct (bool_decide (task_user_id r = owner)); simpl; congruence.
Qed.

Lemma foreign_delete (owner : pystr) (t : Task) (rows : list Task) :
  (forall r, In r rows -> task_pk r = task_pk t -> task_user_id r = owner) ->
  foreign owner
    (List.filter (fun r => negb (bool_decide (task_pk r = task_pk t))) rows)
  = foreign owner rows.
Proof.
  intros Hkey. induction rows as [|r rows IH]; [reflexivity|].
  assert (IH' := IH (fun r' Hr' => Hkey r' (or_intror Hr'))).
  unfold foreign in *. simpl.
  destruct (decide (task_pk r = task_pk t)) as [Heq|Hne].
  - rewrite (bool_decide_eq_true_2 _ Heq). simpl.
    rewrite (bool_decide_eq_true_2 _ (Hkey r (or_introl eq_refl) Heq)).
    simpl. exact IH'.
  - rewrite (bool_decide_eq_false_2 _ Hne). simpl.
    destruct (bool_decide (task_user_id r = owner)); simpl; congruence.
Qed.

(** With a primary key, a key names one row. *)
Lemma key_names_one_row (rows : list Task) (t r : Task) :
  NoDup (task_pk <$> rows) -> In t rows -> In r rows ->
  task_pk r = task_pk t -> r = t.
Proof.
  induction rows as [|x rows IH]; [intros _ []|].
  rewrite fmap_cons, NoDup_cons. intros [Hx Hnd] [->|Ht] [->|Hr] Hpk.
  - reflexivity.
  - exfalso. apply Hx. rewrite <- Hpk.
    apply list_elem_of_In, in_map, Hr.
  - exfalso. apply Hx. rewrite Hpk.
    apply list_elem_of_In, in_map, Ht.
  - exact (IH Hnd Ht Hr Hpk).
Qed.

Lemma key_owner (owner : pystr) (rows : list Task) (t : Task) :
  NoDup (task_pk <$> rows) -> In t rows -> task_user_id t = owner ->
  forall r, In r rows -> task_pk r = task_pk t -> task_user_id r = owner.
Proof.
  intros Hnd Ht Hu r Hr Hpk.
  rewrite (key_names_one_row rows t r Hnd Ht Hr Hpk). exact Hu.
Qed.

Lemma where_ilike_In `{P : Platform} (pattern : pystr) (rows found : list Task) :
  where_ilike pattern rows = inr found ->
  forall t, In t found -> In t rows.
Proof.
  revert found. induction rows as [|r rows IH]; simpl; intros found Hq t Ht.
  - injection Hq as <-. destruct Ht.
  - destruct (ilike (task_title r) pattern); try discriminate.
    + destruct (where_ilike pattern rows) as [e|l]; try discriminate.
      injection Hq as <-. destruct Ht as [->|Ht]; [now left|].
      right. exact (IH l eq_refl t Ht).
    + right. exact (IH found Hq t Ht).
Qed.

Lemma send_text_sendable (s : pystr) : sendable s = true -> send_text s = inr tt.
Proof.
  unfold sendable, send_text. intros Hs. apply andb_prop in Hs as [Hsur Hnul].
  apply negb_true_iff in Hsur, Hnul. rewrite Hsur, Hnul. reflexivity.
Qed.


Lemma sendable_app (a b : pystr) :
  sendable (a ++ b) = sendable a && sendable b.
Proof.
  unfold sendable, has_surrogate, has_nul. rewrite !existsb_app.
  destruct (existsb is_surrogate a), (existsb is_surrogate b),
    (existsb (N.eqb 0) a), (existsb (N.eqb 0) b); reflexivity.
Qed.

Lemma has_surrogate_lower (s : pystr) :
  has_surrogate (ascii_lower s) = has_surrogate s.
Proof.
  unfold has_surrogate, ascii_lower.
  induction s as [|c s IH]; [reflexivity|].
  rewrite fmap_cons. cbn [existsb]. rewrite IH. f_equal.
  unfold is_surrogate, lower_char.
  destruct (N.leb_spec 65 c); destruct (N.leb_spec c 90); simpl; try reflexivity.
  destruct (N.leb_spec 55296 (c + 32)); destruct (N.leb_spec 55296 c);
    simpl; try reflexivity; lia.
Qed.

Lemma has_nul_lower (s : pystr) : has_nul (ascii_lower s) = has_nul s.
Proof.
  unfold has_nul, ascii_lower.
  induction s as [|c s IH]; [reflexivity|].
  rewrite fmap_cons. cbn [existsb]. rewrite IH. f_equal.
  unfold lower_char.
  destruct (N.leb_spec 65 c); destruct (N.leb_spec c 90); cbn [andb];
    try reflexivity.
  destruct (N.eqb_spec 0 (c + 32)); destruct (N.eqb_spec 0 c);
    try reflexivity; lia.
Qed.

Lemma sendable_lower (s : pystr) : sendable (ascii_lower s) = sendable s.
Proof. unfold sendable. rewrite has_surrogate_lower, has_nul_lower. reflexivity. Qed.

Lemma filter_filter_comm {A} (f g : A -> bool) (l : list A) :
  List.filter f (List.filter g l) = List.filter g (List.filter f l).
Proof.
  induction l as [|x l IH]; [reflexivity|]. simpl.
  destruct (g x) eqn:Hg, (f x) eqn:Hf; simpl; rewrite ?Hg, ?Hf, IH; reflexivity.
Qed.

(** ** The session primitives keep the guard *)

Lemma keyed_mono (seq seq' : Z) (rows : list Task) :
  seq <= seq' -> keyed seq rows -> keyed seq' rows.
Proof.
  intros Hle [Hnd Hlt]. split; [exact Hnd|].
  eapply Forall_impl; [exact Hlt|]. simpl. intros t Ht. lia.
Qed.

Lemma keyed_append (seq : Z) (rows : list Task) (t : Task) :
  keyed seq rows -> task_pk t = seq -> keyed (seq + 1) (rows ++ [t]).
Proof.
  intros [Hnd Hlt] Hpk. split.
  - rewrite fmap_app. apply NoDup_app. split; [exact Hnd|]. split.
    + intros k Hk Hk'. apply list_elem_of_In in Hk.
      apply in_map_iff in Hk as (r & <- & Hr).
      rewrite Forall_forall in Hlt. apply list_elem_of_In in Hr.
      specialize (Hlt r Hr). simpl in Hk'.
      apply list_elem_of_singleton in Hk'. lia.
    + simpl. apply NoDup_singleton.
  - apply Forall_app. split.
    + eapply Forall_impl; [exact Hlt|]. simpl. intros r Hr. lia.
    + constructor; [lia|constructor].
Qed.

Lemma keyed_store (seq : Z) (rows : list Task) (t : Task) :
  keyed seq rows ->
  keyed seq ((fun r => if decide (task_pk r = task_pk t) then t else r) <$> rows).
Proof.
  intros [Hnd Hlt].
  assert (Hpk : task_pk <$> ((fun r => if decide (task_pk r = task_pk t) then t else r) <$> rows)
                = task_pk <$> rows).
  { rewrite <- list_fmap_compose. apply list_fmap_ext. intros i r _. simpl.
    destruct (decide (task_pk r = task_pk t)); congruence. }
  split; [rewrite Hpk; exact Hnd|].
  apply Forall_fmap. eapply Forall_impl; [exact Hlt|]. simpl. intros r Hr.
  destruct (decide (task_pk r = task_pk t)) as [E|_]; [rewrite <- E|]; exact Hr.
Qed.

Lemma keyed_filter (seq : Z) (rows : list Task) (keep : Task -> bool) :
  keyed seq rows -> keyed seq (List.filter keep rows).
Proof.
  intros [Hnd Hlt]. split.
  - induction rows as [|r rows IH]; [exact Hnd|]. simpl.
    rewrite fmap_cons, NoDup_cons in Hnd. destruct Hnd as [Hr Hnd].
    apply Forall_cons in Hlt as [_ Hlt].
    destruct (keep r); [|exact (IH Hnd Hlt)].
    rewrite fmap_cons, NoDup_cons. split; [|exact (IH Hnd Hlt)].
    intros Hin. apply Hr. apply list_elem_of_In in Hin.
    apply in_map_iff in Hin as (x & Hx & Hin).
    apply filter_In in Hin as [Hin _].
    apply list_elem_of_In. rewrite <- Hx. apply in_map. exact Hin.
  - rewrite Forall_forall in Hlt |- *. intros r Hr.
    apply list_elem_of_In, filter_In in Hr as [Hr _].
    apply Hlt, list_elem_of_In, Hr.
Qed.

Lemma guarded_commit (owner : pystr) (others : list Task) (s : Session) :
  guarded owner others s -> guarded owner others (fst (commit s)).
Proof.
  intros [[Hw _] [Hfw _]]. repeat split; simpl; assumption || apply Hw.
Qed.

Lemma guarded_rollback (owner : pystr) (others : list Task) (s : Session) :
  guarded owner others s -> guarded owner others (fst (rollback s)).
Proof.
  intros [[_ Hc] [_ Hfc]]. repeat split; simpl; assumption || apply Hc.
Qed.

Lemma guarded_add (owner : pystr) (others : list Task) (s : Session)
    (mk : Z -> Task) :
  guarded owner others s ->
  (forall i, task_pk (mk i) = i) -> (forall i, task_user_id (mk i) = owner) ->
  guarded owner others (fst (add_new_task mk s)).
Proof.
  intros Hg Hpk Hu. unfold add_new_task. cbv zeta.
  destruct (send_texts _); [exact Hg|].
  destruct Hg as [[Hw Hc] [Hfw Hfc]]. split; [split|split]; simpl.
  - apply keyed_append; [exact Hw|apply Hpk].
  - apply (keyed_mono (task_seq s)); [lia|exact Hc].
  - rewrite foreign_app, (foreign_own owner _ (Hu _)), app_nil_r. exact Hfw.
  - exact Hfc.
Qed.

Lemma guarded_store (owner : pystr) (others : list Task) (s : Session)
    (t0 t : Task) :
  guarded owner others s ->
  In t0 (tasks (working s)) -> task_user_id t0 = owner ->
  task_pk t = task_pk t0 -> task_user_id t = owner ->
  guarded owner others (fst (store_task t s)) /\
  In t (tasks (working (fst (store_task t s)))).
Proof.
  intros [[Hw Hc] [Hfw Hfc]] Hin Hu0 Hpk Hu. split; [split; [split|split]|]; simpl.
  - apply keyed_store, Hw.
  - exact Hc.
  - rewrite foreign_store; [exact Hfw| |exact Hu].
    rewrite Hpk. apply (key_owner owner _ t0); [apply Hw|exact Hin|exact Hu0].
  - exact Hfc.
  - apply in_map_iff. exists t0. split; [|exact Hin].
    rewrite decide_True by congruence. reflexivity.
Qed.

Lemma guarded_delete (owner : pystr) (others : list Task) (s : Session)
    (t : Task) :
  guarded owner others s ->
  In t (tasks (working s)) -> task_user_id t = owner ->
  guarded owner others (fst (delete_row t s)).
Proof.
  intros [[Hw Hc] [Hfw Hfc]] Hin Hu. split; [split|split]; simpl.
  - apply keyed_filter, Hw.
  - exact Hc.
  - rewrite foreign_delete; [exact Hfw|].
    apply (key_owner owner _ t); [apply Hw|exact Hin|exact Hu].
  - exact Hfc.
Qed.

(** Reading a row back after it was stored gives the stored row. *)
Lemma refresh_stored (s : Session) (t : Task) :
  NoDup (task_pk <$> tasks (working s)) ->
  In t (tasks (working s)) -> refresh t s = (s, inr t).
Proof.
  intros Hnd Hin. unfold refresh.
  destruct (List.filter _ _) as [|r l] eqn:Hf.
  - exfalso. assert (Hin' : In t []); [|destruct Hin'].
    rewrite <- Hf. apply filter_In. split; [exact Hin|].
    apply bool_decide_eq_true. reflexivity.
  - assert (Hr : In r (r :: l)) by now left.
    rewrite <- Hf in Hr. apply filter_In in Hr as [Hr Hpk].
    apply bool_decide_eq_true in Hpk.
    rewrite (key_names_one_row _ t r Hnd Hin Hr Hpk). reflexivity.
Qed.

Lemma add_new_task_sent (mk : Z -> Task) (s : Session) :
  send_texts (texts_of (mk (task_seq s))) = inr tt ->
  add_new_task mk s
  = (mkSession (committed s)
       (with_tasks (fun ts => ts ++ [mk (task_seq s)]) (working s))
       (task_seq s + 1),
     inr (mk (task_seq s))).
Proof. intros Hsend. unfold add_new_task. cbv zeta. rewrite Hsend. reflexivity. Qed.


Lemma send_texts_unit (texts : list pystr) (u : unit) :
  send_texts texts = inr u -> send_texts texts = inr tt.
Proof. destruct u. auto. Qed.

(** Reading a new row back gives the new row. *)
Lemma refresh_added (s : Session) (mk : Z -> Task) :
  keyed (task_seq s) (tasks (working s)) ->
  (forall i, task_pk (mk i) = i) ->
  send_texts (texts_of (mk (task_seq s))) = inr tt ->
  refresh (mk (task_seq s)) (fst (commit (fst (add_new_task mk s))))
  = (fst (commit (fst (add_new_task mk s))), inr (mk (task_seq s))).
Proof.
  intros Hk Hpk Hsend. rewrite (add_new_task_sent mk s Hsend).
  apply refresh_stored; simpl.
  - apply (keyed_append (task_seq s) _ (mk (task_seq s)) Hk (Hpk _)).
  - apply in_or_app. right. now left.
Qed.

(** ** The lookups only see the caller's rows *)

Lemma find_by_id_spec `{P : Platform} (owner : pystr) (tid : option pystr)
    (s : Session) :
  exists found, find_by_id owner tid s = (s, inr found) /\
    forall t, found = Some t ->
              In t (tasks (working s)) /\ task_user_id t = owner.
Proof.
  unfold find_by_id.
  assert (Hnone : exists found : option Task,
             @ret (option Task) None s = (s, inr found) /\
             forall t, found = Some t ->
                       In t (tasks (working s)) /\ task_user_id t = owner).
  { exists None. split; [reflexivity|discriminate]. }
  destruct tid as [id_text|]; [|exact Hnone].
  destruct (truthy id_text); [|exact Hnone].
  destruct (int_of_str id_text) as [i|]; [|exact Hnone].
  unfold select_by_id. eexists. split; [reflexivity|].
  intros t Ht. apply head_Some in Ht as [l Hl].
  assert (Hin : In t (t :: l)) by now left.
  rewrite <- Hl in Hin. apply filter_In in Hin as [Hin _].
  apply tasks_of_In in Hin. exact Hin.
Qed.

Lemma lookup_by_title_In `{P : Platform} (owner pattern : pystr)
    (rows found : list Task) :
  lookup_by_title owner pattern rows = inr found ->
  forall t, In t found -> In t rows /\ task_user_id t = owner.
Proof.
  unfold lookup_by_title. destruct (send_text pattern); [discriminate|].
  destruct owner_first.
  - intros Hq t Ht. apply tasks_of_In. exact (where_ilike_In _ _ _ Hq t Ht).
  - destruct (where_ilike pattern rows) as [e|l] eqn:Hq; [discriminate|].
    intros [= <-] t Ht. apply tasks_of_In in Ht as [Ht Hu].
    split; [|exact Hu]. exact (where_ilike_In _ _ _ Hq t Ht).
Qed.

Lemma select_by_title_spec `{P : Platform} (owner pattern : pystr) (s : Session) :
  fst (select_by_title owner pattern s) = s /\
  forall found, snd (select_by_title owner pattern s) = inr found ->
    forall t, In t found -> In t (tasks (working s)) /\ task_user_id t = owner.
Proof.
  unfold select_by_title. simpl. split; [reflexivity|].
  intros found Hq t Ht. exact (lookup_by_title_In _ _ _ _ Hq t Ht).
Qed.

Lemma resolve_spec `{P : Platform} (owner : pystr) (tid title : option pystr)
    (s : Session) :
  fst (resolve owner tid title s) = s /\
  resolution_within owner (tasks (working s)) (snd (resolve owner tid title s)).
Proof.
  unfold resolve, bind.
  destruct (find_by_id_spec owner tid s) as (found & -> & Hfound).
  destruct found as [t|].
  - simpl. split; [reflexivity|]. apply Hfound. reflexivity.
  - destruct title as [fragment|]; [|simpl; auto].
    destruct (truthy fragment); [|simpl; auto].
    destruct (select_by_title_spec owner (lit "%" ++ fragment ++ lit "%") s)
      as [Hs Hq].
    destruct (select_by_title owner (lit "%" ++ fragment ++ lit "%") s)
      as [s1 [e|found]]; simpl in *; subst s1; [auto|].
    specialize (Hq found eq_refl).
    destruct found as [|t [|t' rest]]; simpl; split; auto.
    apply Hq. now left.
Qed.

(** ** Each tool keeps the guard and shows only the caller's tasks *)

Lemma candidates_within (owner : pystr) (rows ts : list Task) :
  (forall t, In t ts -> In t rows /\ task_user_id t = owner) ->
  shows_only owner rows (ResMultipleMatches (candidate_of <$> ts)).
Proof.
  intros Hts. simpl. apply Forall_fmap, Forall_forall. intros t Ht.
  apply list_elem_of_In in Ht. destruct (Hts t Ht) as [Hin Hu].
  exists t. auto.
Qed.

Lemma list_tasks_guarded (owner status : pystr) (others : list Task)
    (s : Session) :
  guarded owner others s ->
  guarded owner others (fst (list_tasks owner status s)) /\
  forall r, snd (list_tasks owner status s) = inr r ->
            shows_only owner (tasks (working s)) r.
Proof.
  intros Hg. split; [exact Hg|].
  unfold list_tasks. simpl. intros r Hr. injection Hr as <-. simpl.
  apply Forall_forall. intros t Ht. apply list_elem_of_In in Ht.
  assert (Hsort : forall (l : list Task) before x,
             In x (sort_by before l) -> In x l).
  { clear. intros l before x. induction l as [|y l IH]; simpl; [auto|].
    assert (Hins : forall m, In x (insert_by before y m) -> x = y \/ In x m).
    { clear. induction m as [|z m IHm]; simpl.
      - intros [->|[]]. now left.
      - destruct (before y z); simpl; intros [->|Hx]; auto.
        destruct (IHm Hx); auto. }
    intros Hx. destruct (Hins _ Hx) as [->|Hx']; auto. }
  apply Hsort in Ht. apply tasks_of_In.
  destruct (decide (status = lit "completed"));
    [|destruct (decide (status = lit "incomplete"))].
  - apply filter_In in Ht as [Ht _]. exact Ht.
  - apply filter_In in Ht as [Ht _]. exact Ht.
  - exact Ht.
Qed.

(** How the session primitives run inside a sequence. *)
Lemma run_bind {A B} (m : M A) (k : A -> M B) (s : Session) :
  bind m k s = match m s with
               | (s', inr a) => k a s'
               | (s', inl e) => (s', inl e)
               end.
Proof. reflexivity. Qed.

Lemma run_store {B} (t : Task) (k : unit -> M B) (s : Session) :
  bind (store_task t) k s = k tt (fst (store_task t s)).
Proof. reflexivity. Qed.

Lemma run_commit {B} (k : unit -> M B) (s : Session) :
  bind commit k s = k tt (fst (commit s)).
Proof. reflexivity. Qed.

Lemma run_rollback {B} (k : unit -> M B) (s : Session) :
  bind rollback k s = k tt (fst (rollback s)).
Proof. reflexivity. Qed.

Lemma run_delete {B} (t : Task) (k : unit -> M B) (s : Session) :
  bind (delete_row t) k s = k tt (fst (delete_row t s)).
Proof. reflexivity. Qed.

Lemma run_add {B} (mk : Z -> Task) (k : Task -> M B) (s : Session) :
  bind (add_new_task mk) k s
  = match send_texts (texts_of (mk (task_seq s))) with
    | inl e => (s, inl e)
    | inr _ => k (mk (task_seq s)) (fst (add_new_task mk s))
    end.
Proof.
  unfold bind, add_new_task. cbv zeta.
  destruct (send_texts _); reflexivity.
Qed.

Lemma run_commit_sending {B} (texts : list pystr) (k : unit -> M B) (s : Session) :
  bind (commit_sending texts) k s
  = match send_texts texts with
    | inl e => (fst (rollback s), inl e)
    | inr _ => k tt (fst (commit s))
    end.
Proof.
  unfold bind, commit_sending. destruct (send_texts texts) as [e|[]]; reflexivity.
Qed.

Lemma run_refresh {B} (t : Task) (k : Task -> M B) (s : Session) :
  NoDup (task_pk <$> tasks (working s)) -> In t (tasks (working s)) ->
  bind (refresh t) k s = k t s.
Proof. intros Hnd Hin. rewrite run_bind, refresh_stored by assumption. reflexivity. Qed.

Lemma run_resolve `{P : Platform} {B} (owner : pystr) (tid title : option pystr)
    (k : Resolution -> M B) (s : Session) :
  exists r, resolution_within owner (tasks (working s)) r /\
    bind (resolve owner tid title) k s
    = match r with inr x => k x s | inl e => (s, inl e) end.
Proof.
  destruct (resolve_spec owner tid title s) as [Hs Hres].
  rewrite run_bind.
  destruct (resolve owner tid title s) as [s1 r]. simpl in Hs, Hres. subst s1.
  exists r. split; [exact Hres|]. destruct r; reflexivity.
Qed.

(** A tool keeps the guard and shows only the caller's tasks. *)
Lemma complete_task_guarded `{P : Platform} (owner : pystr) (others : list Task)
    (tid title : option pystr) (now : Z) (s s' : Session)
    (r : exn + ToolResult) :
  guarded owner others s ->
  complete_task owner tid title now s = (s', r) ->
  guarded owner others s' /\
  forall res, r = inr res -> shows_only owner (tasks (working s)) res.
Proof.
  intros Hg. unfold complete_task.
  destruct (negb (truthy_opt tid) && negb (truthy_opt title)).
  { intros [= <- <-]. split; [exact Hg|]. intros res [= <-]. exact I. }
  destruct (run_resolve owner tid title
              (fun r => match r with
                        | Resolved task =>
                            (store_task (set_completed task now) ;;;
                             commit ;;;
                             task0 <- refresh (set_completed task now) ;;
                             ret (ResTask task0))%py
                        | NotFound => ret (ResError "Task not found for this user" None)
                        | MultipleMatches tasks =>
                            ret (ResMultipleMatches (candidate_of <$> tasks))
                        end) s) as (res & Hres & ->).
  destruct res as [e|[t| |ts]]; simpl in Hres.
  - intros [= <- <-]. split; [exact Hg|]. discriminate.
  - destruct Hres as [Hin Hu].
    destruct (guarded_store owner others s t (set_completed t now) Hg Hin Hu
                eq_refl Hu) as [Hg1 Hin1].
    assert (Hg2 := guarded_commit _ _ _ Hg1).
    rewrite run_store, run_commit, run_refresh; [| apply Hg2 | exact Hin1].
    intros [= <- <-]. split; [exact Hg2|]. intros res [= <-]. exact Hu.
  - intros [= <- <-]. split; [exact Hg|]. intros res [= <-]. exact I.
  - intros [= <- <-]. split; [exact Hg|]. intros res [= <-].
    apply candidates_within, Hres.
Qed.

Lemma run_ret {A B} (a : A) (k : A -> M B) (s : Session) :
  bind (ret a) k s = k a s.
Proof. reflexivity. Qed.

Lemma run_assoc {A B C} (m : M A) (f : A -> M B) (k : B -> M C) (s : Session) :
  bind (bind m f) k s = bind m (fun a => bind (f a) k) s.
Proof. unfold bind. destruct (m s) as [s' [e|a]]; reflexivity. Qed.

(** Replaces the lookup at the head of the goal by what it found. *)
Ltac run_resolution x Hres :=
  match goal with
  | |- context [bind (resolve ?o ?i ?t) ?k ?s] =>
      destruct (run_resolve o i t k s) as (x & Hres & ->)
  end.

Ltac returned Hg :=
  intros [= <- <-]; split; [exact Hg|]; intros ? [= <-].

Lemma delete_task_guarded `{P : Platform} (owner : pystr) (others : list Task)
    (tid title : option pystr) (s s' : Session) (r : exn + ToolResult) :
  guarded owner others s ->
  delete_task owner tid title s = (s', r) ->
  guarded owner others s' /\
  forall res, r = inr res -> shows_only owner (tasks (working s)) res.
Proof.
  intros Hg. unfold delete_task.
  destruct (negb (truthy_opt tid) && negb (truthy_opt title)).
  { returned Hg. exact I. }
  run_resolution x Hres.
  destruct x as [e|[t| |ts]]; simpl in Hres.
  - intros [= <- <-]. split; [exact Hg|]. discriminate.
  - destruct Hres as [Hin Hu].
    assert (Hg1 := guarded_delete owner others s t Hg Hin Hu).
    assert (Hg2 := guarded_commit _ _ _ Hg1).
    rewrite run_delete, run_commit.
    returned Hg2. exists t. auto.
  - returned Hg. exact I.
  - returned Hg. apply candidates_within, Hres.
Qed.

Lemma update_task_guarded `{P : Platform} (owner : pystr) (others : list Task)
    (tid old_title title description : option pystr) (now : Z)
    (s s' : Session) (r : exn + ToolResult) :
  guarded owner others s ->
  update_task owner tid old_title title description now s = (s', r) ->
  guarded owner others s' /\
  forall res, r = inr res -> shows_only owner (tasks (working s)) res.
Proof.
  intros Hg. unfold update_task.
  destruct (negb (truthy_opt tid) && negb (truthy_opt old_title)).
  { returned Hg. exact I. }
  destruct (is_None title && is_None description).
  { returned Hg. exact I. }
  run_resolution x Hres.
  destruct x as [e|[t| |ts]]; simpl in Hres.
  - intros [= <- <-]. split; [exact Hg|]. discriminate.
  - destruct Hres as [Hin Hu].
    (* the row after the title step, and the guard there *)
    assert (Htitle : forall (s1 : Session) (t1 : Task) (k : ToolResult + Task -> M ToolResult),
      guarded owner others s1 -> In t1 (tasks (working s1)) ->
      task_user_id t1 = owner ->
      (forall s2 t2, guarded owner others s2 -> In t2 (tasks (working s2)) ->
                     task_user_id t2 = owner ->
                     forall s3 r3, k (inr t2) s2 = (s3, r3) ->
                     guarded owner others s3 /\
                     forall res, r3 = inr res -> shows_only owner (tasks (working s)) res) ->
      (forall e s2, guarded owner others s2 ->
                    forall s3 r3, k (inl (ResError e None)) s2 = (s3, r3) ->
                    guarded owner others s3 /\
                    forall res, r3 = inr res -> shows_only owner (tasks (working s)) res) ->
      forall (step : M (ToolResult + Task)),
      (step = ret (inr t1) \/
       (exists e, step = ret (inl (ResError e None))) \/
       (exists t2, task_pk t2 = task_pk t1 /\ task_user_id t2 = owner /\
                   step = (store_task t2 ;;; ret (inr t2))%py)) ->
      forall s3 r3, bind step k s1 = (s3, r3) ->
      guarded owner others s3 /\
      forall res, r3 = inr res -> shows_only owner (tasks (working s)) res).
    { intros s1 t1 k Hg1 Hin1 Hu1 Hok Herr step
             [->|[(e & ->)|(t2 & Hpk & Hu2 & ->)]] s3 r3.
      - rewrite run_ret. apply Hok; assumption.
      - rewrite run_ret. apply Herr; assumption.
      - rewrite run_assoc, run_store, run_ret.
        destruct (guarded_store owner others s1 t1 t2 Hg1 Hin1 Hu1 Hpk Hu2)
          as [Hg2 Hin2].
        apply Hok; assumption. }
    apply (Htitle s t _ Hg Hin Hu).
    + intros s2 t2 Hg2 Hin2 Hu2. apply (Htitle s2 t2 _ Hg2 Hin2 Hu2).
      * intros s4 t4 Hg4 Hin4 Hu4 s5 r5.
        destruct (guarded_store owner others s4 t4 (set_updated_at t4 now)
                    Hg4 Hin4 Hu4 eq_refl Hu4) as [Hg5 Hin5].
        assert (Hg6 := guarded_commit _ _ _ Hg5).
        rewrite run_store, run_commit_sending.
        destruct (send_texts _).
        { assert (Hgr := guarded_rollback _ _ _ Hg5).
          intros [= <- <-]. split; [exact Hgr|]. discriminate. }
        rewrite run_refresh; [| apply Hg6 | exact Hin5].
        returned Hg6. exact Hu4.
      * intros e s4 Hg4 s5 r5. returned Hg4. exact I.
      * destruct description as [d|]; [|now left].
        destruct (1000 <? length d)%nat; [right; left; eauto|].
        right; right. eexists. split; [|split; [|reflexivity]]; [reflexivity|exact Hu2].
    + intros e s2 Hg2 s3 r3. returned Hg2. exact I.
    + destruct title as [ti|]; [|now left].
      destruct (negb (truthy ti) || (255 <? length ti)%nat); [right; left; eauto|].
      right; right. eexists. split; [|split; [|reflexivity]]; [reflexivity|exact Hu].
  - returned Hg. exact I.
  - returned Hg. apply candidates_within, Hres.
Qed.

Lemma run_try {A} (m : M A) (h : exn -> M A) (s : Session) :
  try_except m h s = match m s with
                     | (s', inl e) => h e s'
                     | (s', inr a) => (s', inr a)
                     end.
Proof. reflexivity. Qed.

Lemma add_task_guarded `{P : Platform} (owner title : pystr) (others : list Task)
    (description : option pystr) (now : Z) (s s' : Session)
    (r : exn + ToolResult) :
  guarded owner others s ->
  add_task owner title description now s = (s', r) ->
  guarded owner others s' /\
  forall res, r = inr res -> shows_only owner (tasks (working s)) res.
Proof.
  intros Hg. unfold add_task. rewrite run_try.
  set (title' := if truthy title then utf8_roundtrip (strip title) else title).
  set (description' := match description with
                       | Some d => if truthy d then Some (utf8_roundtrip (strip d)) else Some d
                       | None => None
                       end).
  destruct (negb (truthy title') || (length title' =? 0)%nat).
  { returned Hg. exact I. }
  destruct (255 <? length title')%nat.
  { returned Hg. exact I. }
  destruct (truthy_opt description' && (1000 <? length (default [] description'))%nat).
  { returned Hg. exact I. }
  rewrite run_bind.
  destruct (select_by_title_spec owner (str_lower title') s) as [Hs Hq].
  destruct (select_by_title owner (str_lower title') s) as [s1 [e|found]];
    simpl in Hs, Hq; subst s1.
  - rewrite run_rollback.
    assert (Hg1 := guarded_rollback _ _ _ Hg).
    returned Hg1. exact I.
  - specialize (Hq found eq_refl).
    destruct found as [|existing rest]; cbn [head].
    + set (mk := fun i => mkTask i owner title'
                   (if truthy_opt description' then description' else None)
                   false now now).
      assert (Hg1 := guarded_add owner others s mk Hg
                       (fun i => eq_refl) (fun i => eq_refl)).
      assert (Hg2 := guarded_commit _ _ _ Hg1).
      rewrite run_add.
      destruct (send_texts (texts_of (mk (task_seq s)))) as [e|u] eqn:Hsend.
      { rewrite run_rollback.
        assert (Hgr := guarded_rollback _ _ _ Hg).
        returned Hgr. exact I. }
      apply send_texts_unit in Hsend.
      rewrite (add_new_task_sent mk s Hsend) in Hg2 |- *.
      rewrite run_commit, run_refresh.
      * simpl. returned Hg2. reflexivity.
      * apply Hg2.
      * simpl. apply in_or_app. right. now left.
    + simpl. returned Hg.
      destruct (Hq existing (or_introl eq_refl)) as [Hin Hu].
      exists existing. auto.
Qed.

Lemma list_tasks_run (owner status : pystr) (others : list Task)
    (s s' : Session) (r : exn + ToolResult) :
  guarded owner others s ->
  list_tasks owner status s = (s', r) ->
  guarded owner others s' /\
  forall res, r = inr res -> shows_only owner (tasks (working s)) res.
Proof.
  intros Hg Hrun.
  destruct (list_tasks_guarded owner status others s Hg) as [Hg' Hshow].
  rewrite Hrun in Hg', Hshow. auto.
Qed.

(** ** The dispatcher *)

(** Whatever the body of the [try] does, and whichever exception it ends
    with, the two handlers turn it into a result. *)
Lemma handlers_total (body : M ToolResult) (s : Session) :
  exists res, snd (try_except body error_result_of s) = inr res.
Proof.
  rewrite run_try. destruct (body s) as [s1 [e|res]].
  - destruct e; eexists; reflexivity.
  - eexists; reflexivity.
Qed.

Lemma execute_tool_returns `{P : Platform} (tool_name : string)
    (parameters : gmap string pystr) (now : Z) (s : Session) :
  exists res, snd (execute_tool tool_name parameters now s) = inr res.
Proof. unfold execute_tool. apply handlers_total. Qed.

Lemma execute_tool_unknown `{P : Platform} (tool_name : string)
    (parameters : gmap string pystr) (now : Z) (s : Session) :
  ~ In tool_name known_tools ->
  execute_tool tool_name parameters now s
  = (s, inr (ResError ("Unknown tool: " ++ tool_name)%string None)).
Proof.
  intros Hnot. unfold execute_tool. rewrite run_try.
  repeat (destruct (decide _) as [->|_];
          [exfalso; apply Hnot; unfold known_tools; simpl; tauto|]).
  reflexivity.
Qed.

Lemma status_known (r : ToolResult) : In (status r) statuses.
Proof. destruct r; simpl; tauto. Qed.

Lemma execute_tool_guarded `{P : Platform} (owner : pystr) (others : list Task)
    (tool_name : string) (parameters : gmap string pystr) (now : Z)
    (s s' : Session) (r : exn + ToolResult) :
  parameters !! "user_id" = Some owner ->
  guarded owner others s ->
  execute_tool tool_name parameters now s = (s', r) ->
  guarded owner others s' /\
  forall res, r = inr res -> shows_only owner (tasks (working s)) res.
Proof.
  intros Hu Hg. unfold execute_tool. rewrite run_try.
  assert (Hwrap : forall (s1 : Session) (r1 : exn + ToolResult),
    (guarded owner others s1 /\
     forall res, r1 = inr res -> shows_only owner (tasks (working s)) res) ->
    match r1 with
    | inl e => error_result_of e s1
    | inr a => (s1, inr a)
    end = (s', r) ->
    guarded owner others s' /\
    forall res, r = inr res -> shows_only owner (tasks (working s)) res).
  { intros s1 r1 [Hg1 Hshow]. destruct r1 as [e|a].
    - destruct e; returned Hg1; exact I.
    - returned Hg1. apply Hshow. reflexivity. }
  unfold item. rewrite Hu.
  repeat (destruct (decide _) as [_|_]); rewrite ?run_ret.
  - destruct (parameters !! "title") as [title|].
    + rewrite run_ret.
      destruct (add_task owner title (parameters !! "description") now s)
        as [s1 r1] eqn:Hrun.
      apply Hwrap. exact (add_task_guarded _ _ _ _ _ _ _ _ Hg Hrun).
    + apply (Hwrap s (inl (KeyError "title"))). split; [exact Hg|discriminate].
  - destruct (list_tasks owner (default (lit "all") (parameters !! "status")) s)
      as [s1 r1] eqn:Hrun.
    apply Hwrap. exact (list_tasks_run _ _ _ _ _ _ Hg Hrun).
  - destruct (complete_task owner (parameters !! "task_id") (parameters !! "title") now s)
      as [s1 r1] eqn:Hrun.
    apply Hwrap. exact (complete_task_guarded _ _ _ _ _ _ _ _ Hg Hrun).
  - destruct (delete_task owner (parameters !! "task_id") (parameters !! "title") s)
      as [s1 r1] eqn:Hrun.
    apply Hwrap. exact (delete_task_guarded _ _ _ _ _ _ _ Hg Hrun).
  - destruct (update_task owner (parameters !! "task_id") (parameters !! "old_title")
                (parameters !! "title") (parameters !! "description") now s)
      as [s1 r1] eqn:Hrun.
    apply Hwrap. exact (update_task_guarded _ _ _ _ _ _ _ _ _ _ Hg Hrun).
  - apply (Hwrap s (inl (ValueError ("Unknown tool: " ++ tool_name)%string))).
    split; [exact Hg|discriminate].
Qed.

(** ** The loop over the model's tool calls *)

Lemma overwrite_user_id (user_id : pystr) (p p' : gmap string pystr) :
  delete "user_id" p = delete "user_id" p' ->
  <["user_id" := user_id]> p = <["user_id" := user_id]> p'.
Proof.
  intros Hd.
  rewrite <- (insert_delete_eq p), <- (insert_delete_eq p'), Hd. reflexivity.
Qed.

Lemma run_tool_calls_same `{P : Platform} (user_id : pystr) (now : Z)
    (calls calls' : list ToolCall) :
  Forall2 same_but_user_id calls calls' ->
  run_tool_calls user_id calls now = run_tool_calls user_id calls' now.
Proof.
  induction 1 as [|c c' calls calls' [Hname Hparams] _ IH]; [reflexivity|].
  simpl. rewrite Hname, (overwrite_user_id user_id _ _ Hparams), IH.
  reflexivity.
Qed.

Lemma run_tool_calls_records `{P : Platform} (user_id : pystr) (now : Z)
    (calls : list ToolCall) (s : Session) :
  exists results,
    snd (run_tool_calls user_id calls now s) = inr results /\
    call_name <$> results = tc_name <$> calls /\
    Forall (fun c => call_parameters c !! "user_id" = Some user_id) results.
Proof.
  revert s. induction calls as [|c calls IH]; intros s.
  - exists []. repeat split. constructor.
  - simpl. rewrite run_bind.
    destruct (execute_tool_returns (tc_name c)
                (<["user_id" := user_id]> (tc_parameters c)) now s) as [res Hres].
    destruct (execute_tool (tc_name c)
                (<["user_id" := user_id]> (tc_parameters c)) now s) as [s1 r1].
    simpl in Hres. subst r1.
    destruct (IH s1) as (results & Hresults & Hnames & Hids).
    rewrite run_bind.
    destruct (run_tool_calls user_id calls now s1) as [s2 r2].
    simpl in Hresults. subst r2. simpl.
    eexists. split; [reflexivity|]. split.
    + rewrite !fmap_cons. simpl. rewrite Hnames. reflexivity.
    + constructor; [apply lookup_insert_eq|exact Hids].
Qed.

Lemma run_tool_calls_guarded `{P : Platform} (user_id : pystr) (others : list Task)
    (now : Z) (calls : list ToolCall) (s : Session) :
  guarded user_id others s ->
  guarded user_id others (fst (run_tool_calls user_id calls now s)).
Proof.
  revert s. induction calls as [|c calls IH]; intros s Hg; [exact Hg|].
  simpl. rewrite run_bind.
  destruct (execute_tool (tc_name c)
              (<["user_id" := user_id]> (tc_parameters c)) now s)
    as [s1 r1] eqn:Hrun.
  destruct (execute_tool_guarded user_id others _ _ now s s1 _
              (lookup_insert_eq _ _ _) Hg Hrun) as [Hg1 _].
  destruct r1 as [e|result]; [exact Hg1|].
  specialize (IH s1 Hg1). rewrite run_bind.
  destruct (run_tool_calls user_id calls now s1) as [s2 [e|results]];
    exact IH.
Qed.

Lemma guarded_start (owner : pystr) (s : Session) :
  well_keyed s -> clean_for owner s ->
  guarded owner (foreign owner (tasks (working s))) s.
Proof. intros Hk Hc. split; [exact Hk|]. split; [reflexivity|]. symmetry. exact Hc. Qed.

Lemma guarded_isolated (owner : pystr) (s s' : Session) :
  clean_for owner s ->
  guarded owner (foreign owner (tasks (working s))) s' ->
  isolated owner s s' /\ well_keyed s' /\ clean_for owner s'.
Proof.
  unfold clean_for, isolated. intros Hc (Hk & Hw & Hd).
  rewrite Hw, Hd, Hc. auto.
Qed.

(** A row of another owner is a row that is not the caller's. *)
Lemma tasks_of_foreign (owner other : pystr) (rows : list Task) :
  other <> owner -> tasks_of other (foreign owner rows) = tasks_of other rows.
Proof.
  intros Hne. induction rows as [|r rows IH]; [reflexivity|].
  unfold tasks_of, foreign in *. simpl.
  destruct (decide (task_user_id r = owner)) as [Ho|Ho].
  - rewrite (bool_decide_eq_true_2 _ Ho). simpl.
    rewrite bool_decide_eq_false_2 by congruence. exact IH.
  - rewrite (bool_decide_eq_false_2 _ Ho). simpl.
    destruct (bool_decide (task_user_id r = other)); simpl; congruence.
Qed.

Lemma isolated_other_owner (owner other : pystr) (s s' : Session) :
  other <> owner -> isolated owner s s' ->
  tasks_of other (tasks (working s')) = tasks_of other (tasks (working s)) /\
  tasks_of other (tasks (committed s')) = tasks_of other (tasks (committed s)).
Proof.
  intros Hne [Hw Hd].
  rewrite <- (tasks_of_foreign owner other (tasks (working s'))) by exact Hne.
  rewrite <- (tasks_of_foreign owner other (tasks (committed s'))) by exact Hne.
  rewrite Hw, Hd, !tasks_of_foreign by exact Hne. auto.
Qed.

(** ** Owner isolation *)

Lemma tool_guarded `{P : Platform} (owner : pystr) (others : list Task)
    (tool : M ToolResult) (s : Session) :
  invoked_for owner tool -> guarded owner others s ->
  guarded owner others (fst (tool s)) /\
  forall res, snd (tool s) = inr res -> shows_only owner (tasks (working s)) res.
Proof.
  intros Htool Hg. destruct (tool s) as [s' r] eqn:Hrun. simpl.
  destruct Htool.
  - exact (add_task_guarded _ _ _ _ _ _ _ _ Hg Hrun).
  - exact (list_tasks_run _ _ _ _ _ _ Hg Hrun).
  - exact (complete_task_guarded _ _ _ _ _ _ _ _ Hg Hrun).
  - exact (delete_task_guarded _ _ _ _ _ _ _ Hg Hrun).
  - exact (update_task_guarded _ _ _ _ _ _ _ _ _ _ Hg Hrun).
Qed.

(** ** The identity the tools run under *)

Lemma execute_tool_identity `{P : Platform} (user_id : pystr) (call : ToolCall)
    (now : Z) (s : Session) :
  let parameters := <["user_id" := user_id]> (tc_parameters call) in
  (exists tool, invoked_for user_id tool /\
     execute_tool (tc_name call) parameters now s
     = try_except tool error_result_of s) \/
  (exists error,
     execute_tool (tc_name call) parameters now s = (s, inr (ResError error None))).
Proof.
  intros parameters. unfold execute_tool.
  assert (Hu : parameters !! "user_id" = Some user_id) by apply lookup_insert_eq.
  unfold item. rewrite Hu.
  repeat (destruct (decide _) as [_|_]).
  - destruct (parameters !! "title") as [title|] eqn:Ht.
    + left. eexists. split; [apply invoked_add|]. reflexivity.
    + right. eexists. reflexivity.
  - left. eexists. split; [apply invoked_list|]. reflexivity.
  - left. eexists. split; [apply invoked_complete|]. reflexivity.
  - left. eexists. split; [apply invoked_delete|]. reflexivity.
  - left. eexists. split; [apply invoked_update|]. reflexivity.
  - right. eexists. reflexivity.
Qed.

(** What a computation in sequence returned, taken apart. *)
Lemma bind_returns {A B} (m : M A) (k : A -> M B) (s s' : Session) (b : B) :
  bind m k s = (s', inr b) ->
  exists s1 a, m s = (s1, inr a) /\ k a s1 = (s', inr b).
Proof.
  rewrite run_bind. destruct (m s) as [s1 [e|a]]; [discriminate|].
  intros Hk. exists s1, a. auto.
Qed.

(** A turn that answers ran its tool calls under the identity of the
    token. *)
Lemma chat_endpoint_records `{P : Platform} `{L : LanguageModel}
    (token_user_id user_id : pystr) (request : ChatRequest) (env : TurnEnv)
    (s s' : Session) (response : ChatResponse) :
  chat_endpoint token_user_id user_id request env s = (s', inr response) ->
  token_user_id = user_id /\
  Forall (fun c => call_parameters c !! "user_id" = Some token_user_id)
         (resp_tool_calls response).
Proof.
  unfold chat_endpoint.
  destruct (decide (token_user_id <> user_id)) as [|Hsame]; [discriminate|].
  assert (Heq : token_user_id = user_id).
  { destruct (decide (token_user_id = user_id)); [assumption|contradiction]. }
  subst user_id. clear Hsame. intros Hrun. split; [reflexivity|].
  rewrite run_try in Hrun.
  match type of Hrun with
  | context [match ?body with _ => _ end] =>
      destruct body as [s1 [e|a]] eqn:Hbody
  end; [destruct e; discriminate|].
  injection Hrun as <- <-.
  apply bind_returns in Hbody as (s2 & conversation & _ & Hbody).
  apply bind_returns in Hbody as (s3 & history & _ & Hbody). cbv zeta in Hbody.
  apply bind_returns in Hbody as (s4 & cohere_response & _ & Hbody).
  apply bind_returns in Hbody as (s5 & outcome & Houtcome & Hbody).
  apply bind_returns in Hbody as (s6 & stored & _ & Hbody).
  injection Hbody as _ <-. simpl.
  destruct (response_tool_calls cohere_response) as [|c calls].
  - injection Houtcome as _ <-. constructor.
  - apply bind_returns in Houtcome as (s7 & results & Hresults & Houtcome).
    apply bind_returns in Houtcome as (s8 & final & _ & Houtcome).
    injection Houtcome as _ <-. simpl.
    destruct (run_tool_calls_records token_user_id (utcnow env) (c :: calls) s4)
      as (results' & Hrun & _ & Hids).
    rewrite Hresults in Hrun. injection Hrun as <-. exact Hids.
Qed.

(** ** Validation in [add_task] *)

Lemma title_normalized (title : pystr) :
  (if truthy title then utf8_roundtrip (strip title) else title) = normalized title.
Proof. destruct title; reflexivity. Qed.

Lemma title_check (t : pystr) :
  negb (truthy t) || (length t =? 0)%nat = bool_decide (t = []).
Proof. destruct t; reflexivity. Qed.

Lemma description_check (description : option pystr) :
  let description' :=
    match description with
    | Some d => if truthy d then Some (utf8_roundtrip (strip d)) else Some d
    | None => None
    end in
  truthy_opt description' && (1000 <? length (default [] description'))%nat
  = (1000 <? normalized_length description)%nat
  /\ (if truthy_opt description' then description' else None)
     = stored_description description.
Proof.
  destruct description as [[|c d]|]; cbn zeta.
  - split; reflexivity.
  - change (if truthy (c :: d) then Some (utf8_roundtrip (strip (c :: d))) else Some (c :: d))
      with (Some (normalized (c :: d))).
    unfold normalized_length, stored_description. cbn [truthy_opt default].
    destruct (normalized (c :: d)); split; reflexivity.
  - split; reflexivity.
Qed.

(** [add_task], branch by branch. *)
Lemma add_task_run `{P : Platform} (owner title : pystr) (description : option pystr)
    (now : Z) (s : Session) :
  add_task owner title description now s =
  if bool_decide (normalized title = []) then
    (s, inr (ResError "Title is required" None))
  else if (255 <? length (normalized title))%nat then
    (s, inr (ResError "Title must be 255 characters or less" None))
  else if (1000 <? normalized_length description)%nat then
    (s, inr (ResError "Description must be 1000 characters or less" None))
  else
    match lookup_by_title owner (str_lower (normalized title))
                          (tasks (working s)) with
    | inl e =>
        (fst (rollback s),
         inr (ResError ("Failed to add task: " ++ str_exn e)%string
                       (Some (repr_exn e))))
    | inr (existing :: _) =>
        (s, inr (ResWarning (task_pk existing) (existing_of existing)))
    | inr [] =>
        let mk := fun i => mkTask i owner (normalized title)
                             (stored_description description) false now now in
        match send_texts (texts_of (mk (task_seq s))) with
        | inl e =>
            (fst (rollback s),
             inr (ResError ("Failed to add task: " ++ str_exn e)%string
                           (Some (repr_exn e))))
        | inr _ =>
            let s' := fst (commit (fst (add_new_task mk s))) in
            match refresh (mk (task_seq s)) s' with
            | (_, inr t) => (s', inr (ResTask t))
            | (_, inl e) =>
                (fst (rollback s'),
                 inr (ResError ("Failed to add task: " ++ str_exn e)%string
                               (Some (repr_exn e))))
            end
        end
    end.
Proof.
  unfold add_task. rewrite run_try, title_normalized.
  destruct (description_check description) as [-> ->].
  rewrite title_check.
  destruct (bool_decide (normalized title = [])); [reflexivity|].
  destruct (255 <? length (normalized title))%nat; [reflexivity|].
  destruct (1000 <? normalized_length description)%nat; [reflexivity|].
  rewrite run_bind. unfold select_by_title.
  destruct (lookup_by_title _ _ _) as [e|[|existing rest]]; try reflexivity.
  cbn [head]. rewrite run_add. cbn zeta.
  destruct (send_texts _); [reflexivity|].
  rewrite run_commit, run_bind.
  unfold refresh.
  destruct (List.filter _ _); reflexivity.
Qed.



Lemma where_ilike_returned `{P : Platform} (pattern : pystr)
    (rows found : list Task) :
  where_ilike pattern rows = inr found ->
  found = List.filter (fun t => like_true (ilike (task_title t) pattern)) rows.
Proof.
  revert found. induction rows as [|r rows IH]; simpl; intros found.
  - intros [= <-]. reflexivity.
  - destruct (ilike (task_title r) pattern); simpl; try discriminate.
    + destruct (where_ilike pattern rows) as [e|l]; [discriminate|].
      intros [= <-]. rewrite (IH l eq_refl). reflexivity.
    + apply IH.
Qed.


Lemma lookup_by_title_returned `{P : Platform} (owner pattern : pystr)
    (rows found : list Task) :
  lookup_by_title owner pattern rows = inr found ->
  found = title_matches owner pattern rows.
Proof.
  unfold lookup_by_title, title_matches.
  destruct (send_text pattern); [discriminate|].
  destruct owner_first.
  - apply where_ilike_returned.
  - destruct (where_ilike pattern rows) as [e|l] eqn:Hq; [discriminate|].
    intros [= <-]. rewrite (where_ilike_returned _ _ _ Hq). unfold tasks_of.
    apply filter_filter_comm.
Qed.





(** ** What every step of the tools keeps *)

Section Keeps.

Variable J : Session -> Prop.
Hypothesis J_commit : forall s, J s -> J (fst (commit s)).
Hypothesis J_rollback : forall s, J s -> J (fst (rollback s)).
Hypothesis J_store : forall t s, J s -> J (fst (store_task t s)).
Hypothesis J_delete : forall t s, J s -> J (fst (delete_row t s)).
Hypothesis J_add : forall mk s, J s -> J (fst (add_new_task mk s)).

Lemma keeps_ret {A} (a : A) : keeps J (ret a).
Proof. intros s Hs. exact Hs. Qed.

Lemma keeps_raise {A} (e : exn) : keeps J (@raise A e).
Proof. intros s Hs. exact Hs. Qed.

Lemma keeps_lift {A} (r : exn + A) : keeps J (lift r).
Proof. intros s Hs. exact Hs. Qed.

Lemma keeps_bind {A B} (m : M A) (k : A -> M B) :
  keeps J m -> (forall a, keeps J (k a)) -> keeps J (bind m k).
Proof.
  intros Hm Hk s Hs. specialize (Hm s Hs). rewrite run_bind.
  destruct (m s) as [s1 [e|a]]; simpl in Hm; [exact Hm|].
  apply Hk, Hm.
Qed.

Lemma keeps_try {A} (m : M A) (h : exn -> M A) :
  keeps J m -> (forall e, keeps J (h e)) -> keeps J (try_except m h).
Proof.
  intros Hm Hh s Hs. specialize (Hm s Hs). rewrite run_try.
  destruct (m s) as [s1 [e|a]]; simpl in Hm; [|exact Hm].
  apply Hh, Hm.
Qed.

Lemma keeps_commit : keeps J commit.
Proof. exact J_commit. Qed.

Lemma keeps_rollback : keeps J rollback.
Proof. exact J_rollback. Qed.

Lemma keeps_store (t : Task) : keeps J (store_task t).
Proof. exact (J_store t). Qed.

Lemma keeps_delete (t : Task) : keeps J (delete_row t).
Proof. exact (J_delete t). Qed.

Lemma keeps_add (mk : Z -> Task) : keeps J (add_new_task mk).
Proof. exact (J_add mk). Qed.

Lemma keeps_commit_sending (texts : list pystr) : keeps J (commit_sending texts).
Proof.
  intros s Hs. unfold commit_sending.
  destruct (send_texts texts); [apply J_rollback|apply J_commit]; exact Hs.
Qed.

Lemma keeps_refresh (t : Task) : keeps J (refresh t).
Proof. intros s Hs. unfold refresh. destruct (List.filter _ _); exact Hs. Qed.

Lemma keeps_select_by_title `{P : Platform} (user_id pattern : pystr) :
  keeps J (select_by_title user_id pattern).
Proof. intros s Hs. exact Hs. Qed.

Lemma keeps_select_by_id (i : Z) (user_id : pystr) :
  keeps J (select_by_id i user_id).
Proof. intros s Hs. exact Hs. Qed.

Lemma keeps_item (parameters : gmap string pystr) (key : string) :
  keeps J (item parameters key).
Proof. intros s Hs. unfold item. destruct (parameters !! key); exact Hs. Qed.

Ltac keeps_step :=
  first
    [ apply keeps_ret | apply keeps_raise | apply keeps_lift
    | apply keeps_commit | apply keeps_commit_sending | apply keeps_rollback
    | apply keeps_store
    | apply keeps_delete | apply keeps_add | apply keeps_refresh
    | apply keeps_select_by_title | apply keeps_select_by_id
    | apply keeps_item
    | apply keeps_bind; [|intros ?]
    | apply keeps_try; [|intros ?]
    | match goal with
      | |- keeps _ (match ?x with _ => _ end) => destruct x
      | |- keeps _ (if ?b then _ else _) => destruct b
      end ].

Lemma keeps_resolve `{P : Platform} (user_id : pystr) (task_id title : option pystr) :
  keeps J (resolve user_id task_id title).
Proof. unfold resolve, find_by_id. repeat keeps_step. Qed.

Lemma keeps_add_task `{P : Platform} (user_id title : pystr)
    (description : option pystr) (now : Z) :
  keeps J (add_task user_id title description now).
Proof. unfold add_task. cbv zeta. repeat keeps_step. Qed.

Lemma keeps_list_tasks (user_id status : pystr) :
  keeps J (list_tasks user_id status).
Proof. intros s Hs. exact Hs. Qed.

Lemma keeps_complete_task `{P : Platform} (user_id : pystr)
    (task_id title : option pystr) (now : Z) :
  keeps J (complete_task user_id task_id title now).
Proof.
  unfold complete_task. cbv zeta.
  repeat first [apply keeps_resolve | keeps_step].
Qed.

Lemma keeps_delete_task `{P : Platform} (user_id : pystr)
    (task_id title : option pystr) :
  keeps J (delete_task user_id task_id title).
Proof.
  unfold delete_task. repeat first [apply keeps_resolve | keeps_step].
Qed.

Lemma keeps_update_task `{P : Platform} (user_id : pystr)
    (task_id old_title title description : option pystr) (now : Z) :
  keeps J (update_task user_id task_id old_title title description now).
Proof.
  unfold update_task. cbv zeta.
  repeat first [apply keeps_resolve | keeps_step].
Qed.

Lemma keeps_execute_tool `{P : Platform} (tool_name : string)
    (parameters : gmap string pystr) (now : Z) :
  keeps J (execute_tool tool_name parameters now).
Proof.
  unfold execute_tool, error_result_of.
  repeat first
    [ apply keeps_add_task | apply keeps_list_tasks | apply keeps_complete_task
    | apply keeps_delete_task | apply keeps_update_task | keeps_step ].
Qed.

Lemma keeps_run_tool_calls `{P : Platform} (user_id : pystr) (calls : list ToolCall)
    (now : Z) :
  keeps J (run_tool_calls user_id calls now).
Proof.
  induction calls as [|c calls IH]; simpl; [apply keeps_ret|].
  apply keeps_bind; [apply keeps_execute_tool|]. intros result.
  apply keeps_bind; [exact IH|]. intros results. apply keeps_ret.
Qed.

Lemma raises_within_bind {A B} (m : M A) (k : A -> M B) :
  keeps J m -> (forall a, raises_within J (k a)) -> raises_within J (bind m k).
Proof.
  intros Hm Hk s Hs s' e. specialize (Hm s Hs). rewrite run_bind.
  destruct (m s) as [s1 [e1|a]]; simpl in Hm.
  - intros [= <- _]. exact Hm.
  - apply Hk, Hm.
Qed.

End Keeps.

(** ** A turn that fails *)

Lemma keeps_messages_tool_calls `{P : Platform} (ms : list Message) (user_id : pystr)
    (calls : list ToolCall) (now : Z) :
  keeps (messages_are ms) (run_tool_calls user_id calls now).
Proof.
  apply keeps_run_tool_calls; intros; unfold messages_are, add_new_task in *;
    cbv zeta; try destruct (send_texts _); simpl; tauto.
Qed.

Lemma keeps_messages_conversation `{P : Platform} (ms : list Message)
    (user_id : pystr) (request : ChatRequest) (env : TurnEnv) :
  keeps (messages_are ms) (get_or_create_conversation user_id request env).
Proof.
  intros s [Hw Hd]. unfold get_or_create_conversation.
  destruct (truthy_opt (req_conversation_id request)).
  - destruct (uuid_of_str _); [|split; assumption].
    destruct (List.filter _ _); split; assumption.
  - split; simpl; assumption.
Qed.

(** Step 6 raises when the driver refuses one of the two texts, and then
    the session is rolled back. *)
Lemma store_messages_refused (conversation : Conversation) (request : ChatRequest)
    (reply : pystr) (tool_results : list ToolCallRecord) (env : TurnEnv)
    (s : Session) (e : exn) :
  send_texts [req_message request; reply] = inl e ->
  store_messages conversation request reply tool_results env s
  = (fst (rollback s), inl e).
Proof.
  intros Hsend. unfold store_messages. cbv zeta.
  unfold bind, on_working, commit_sending. rewrite Hsend. reflexivity.
Qed.

Lemma store_messages_sent (conversation : Conversation) (request : ChatRequest)
    (reply : pystr) (tool_results : list ToolCallRecord) (env : TurnEnv)
    (s : Session) :
  send_texts [req_message request; reply] = inr tt ->
  exists s',
    store_messages conversation request reply tool_results env s
    = (s', inr (mkMessage (assistant_message_uuid env) (conv_id conversation)
                  "assistant" reply
                  (match tool_results with [] => None | _ :: _ => Some tool_results end)
                  (utcnow env))) /\
    committed s' = working s' /\
    tasks (working s') = tasks (working s) /\
    messages (working s')
    = messages (working s) ++
      [ mkMessage (user_message_uuid env) (conv_id conversation) "user"
                  (req_message request) None (utcnow env);
        mkMessage (assistant_message_uuid env) (conv_id conversation)
                  "assistant" reply
                  (match tool_results with [] => None | _ :: _ => Some tool_results end)
                  (utcnow env) ] /\
    conversations (working s')
    = (fun c => if decide (conv_id c = conv_id conversation)
                then mkConversation (conv_id c) (conv_user_id c)
                                    (conv_created_at c) (utcnow env)
                else c) <$> conversations (working s).
Proof.
  intros Hsend. unfold store_messages. cbv zeta.
  unfold bind, on_working, commit_sending. rewrite Hsend.
  eexists. split; [reflexivity|]. simpl. rewrite <- app_assoc. auto.
Qed.

Lemma store_messages_raises (conversation : Conversation) (request : ChatRequest)
    (reply : pystr) (tool_results : list ToolCallRecord) (env : TurnEnv)
    (s s' : Session) (e : exn) :
  store_messages conversation request reply tool_results env s = (s', inl e) ->
  s' = fst (rollback s) /\ send_texts [req_message request; reply] = inl e.
Proof.
  destruct (send_texts [req_message request; reply]) as [e'|[]] eqn:Hsend.
  - rewrite (store_messages_refused _ _ _ _ _ _ _ Hsend). intros [= <- <-]. auto.
  - destruct (store_messages_sent conversation request reply tool_results env s Hsend)
      as (s1 & -> & _). discriminate.
Qed.

Lemma store_messages_returned (conversation : Conversation) (request : ChatRequest)
    (reply : pystr) (tool_results : list ToolCallRecord) (env : TurnEnv)
    (s s' : Session) (stored : Message) :
  store_messages conversation request reply tool_results env s = (s', inr stored) ->
  stored = mkMessage (assistant_message_uuid env) (conv_id conversation)
             "assistant" reply
             (match tool_results with [] => None | _ :: _ => Some tool_results end)
             (utcnow env) /\
  committed s' = working s' /\
  tasks (working s') = tasks (working s) /\
  messages (working s')
  = messages (working s) ++
    [ mkMessage (user_message_uuid env) (conv_id conversation) "user"
                (req_message request) None (utcnow env); stored ] /\
  conversations (working s')
  = (fun c => if decide (conv_id c = conv_id conversation)
              then mkConversation (conv_id c) (conv_user_id c)
                                  (conv_created_at c) (utcnow env)
              else c) <$> conversations (working s).
Proof.
  destruct (send_texts [req_message request; reply]) as [e'|[]] eqn:Hsend.
  - rewrite (store_messages_refused _ _ _ _ _ _ _ Hsend). discriminate.
  - destruct (store_messages_sent conversation request reply tool_results env s Hsend)
      as (s1 & -> & Hrest).
    intros [= <- <-]. split; [reflexivity|]. exact Hrest.
Qed.

Lemma chat_body_raises_within `{P : Platform} `{L : LanguageModel} (ms : list Message)
    (user_id : pystr) (request : ChatRequest) (env : TurnEnv) :
  raises_within (messages_are ms)
    (conversation <- get_or_create_conversation user_id request env ;;
     messages <- fetch_history (conv_id conversation) ;;
     let chat_history := format_messages_for_cohere messages in
     cohere_response <- lift (chat_with_tools (req_message request) chat_history) ;;
     outcome <-
       match response_tool_calls cohere_response with
       | [] => ret (cohere_response, [])
       | _ :: _ =>
           (tool_results <- run_tool_calls user_id
                              (response_tool_calls cohere_response) (utcnow env) ;;
            final_response <- lift (chat_with_results (req_message request)
                                                      tool_results) ;;
            ret (final_response, tool_results))
       end ;;
     let cohere_response := fst outcome in
     let tool_results := snd outcome in
     assistant_message <- store_messages conversation request
                            (response_text cohere_response) tool_results env ;;
     ret (mkChatResponse (response_text cohere_response) tool_results
                         (conv_id conversation) (msg_id assistant_message)))%py.
Proof.
  apply raises_within_bind; [apply keeps_messages_conversation|].
  intros conversation.
  apply raises_within_bind; [intros s Hs; exact Hs|]. intros history. cbv zeta.
  apply raises_within_bind; [intros s Hs; exact Hs|]. intros response.
  apply raises_within_bind.
  - destruct (response_tool_calls response) as [|c calls] eqn:Hcalls.
    + intros s Hs. exact Hs.
    + intros s Hs. rewrite run_bind.
      assert (Hk := keeps_messages_tool_calls ms user_id (c :: calls)
                      (utcnow env) s Hs).
      destruct (run_tool_calls user_id (c :: calls) (utcnow env) s)
        as [s1 [e|results]]; simpl in Hk; [exact Hk|].
      rewrite run_bind. unfold lift.
      destruct (chat_with_results _ _); exact Hk.
  - intros outcome s Hs s' e. rewrite run_bind.
    destruct (store_messages conversation request
                (response_text (fst outcome)) (snd outcome) env s)
      as [s1 [e1|stored]] eqn:Hstore; [|discriminate].
    apply store_messages_raises in Hstore as [-> _].
    intros [= <- _]. destruct Hs as [_ Hd]. split; exact Hd.
Qed.

Lemma chat_endpoint_raises `{P : Platform} `{L : LanguageModel} (ms : list Message)
    (token_user_id user_id : pystr) (request : ChatRequest) (env : TurnEnv)
    (s s' : Session) (e : exn) :
  messages_are ms s ->
  chat_endpoint token_user_id user_id request env s = (s', inl e) ->
  messages_are ms s' /\ exists code detail, e = HTTPException code detail.
Proof.
  intros Hs. unfold chat_endpoint.
  destruct (decide (token_user_id <> user_id)).
  { intros [= <- <-]. split; [exact Hs|]. eauto. }
  rewrite run_try.
  assert (Hbody := chat_body_raises_within ms user_id request env s Hs).
  match goal with
  | |- context [match ?body with _ => _ end] =>
      destruct body as [s1 [e1|response]]
  end; [|discriminate].
  specialize (Hbody s1 e1 eq_refl).
  destruct e1; intros [= <- <-]; split; eauto.
Qed.

(** ** What the tools answer, in terms of the lookup *)

Lemma working_store (s : Session) (t0 t : Task) :
  keyed (task_seq s) (tasks (working s)) ->
  In t0 (tasks (working s)) -> task_pk t = task_pk t0 ->
  keyed (task_seq (fst (store_task t s))) (tasks (working (fst (store_task t s)))) /\
  In t (tasks (working (fst (store_task t s)))).
Proof.
  intros Hk Hin Hpk. split; simpl.
  - apply keyed_store, Hk.
  - apply in_map_iff. exists t0. split; [|exact Hin].
    rewrite decide_True by congruence. reflexivity.
Qed.

Lemma resolve_run `{P : Platform} (owner : pystr) (tid title : option pystr)
    (s : Session) :
  resolve owner tid title s = (s, snd (resolve owner tid title s)).
Proof.
  destruct (resolve_spec owner tid title s) as [Hs _].
  destruct (resolve owner tid title s) as [s1 r]. simpl in *. congruence.
Qed.

Lemma complete_task_answer `{P : Platform} (owner : pystr)
    (tid title : option pystr) (now : Z) (s : Session) :
  keyed (task_seq s) (tasks (working s)) ->
  snd (complete_task owner tid title now s) =
  if negb (truthy_opt tid) && negb (truthy_opt title) then
    inr (ResError "Must provide either task_id or title" None)
  else
    match snd (resolve owner tid title s) with
    | inr (Resolved t) => inr (ResTask (set_completed t now))
    | r => unresolved_answer r
    end.
Proof.
  intros Hk. unfold complete_task.
  destruct (negb (truthy_opt tid) && negb (truthy_opt title)); [reflexivity|].
  rewrite run_bind, resolve_run.
  destruct (resolve_spec owner tid title s) as [_ Hres].
  destruct (snd (resolve owner tid title s)) as [e|[t| |ts]]; try reflexivity.
  destruct Hres as [Hin _].
  destruct (working_store s t (set_completed t now) Hk Hin eq_refl) as [Hk1 Hin1].
  rewrite run_store, run_commit, run_refresh; [reflexivity|apply Hk1|exact Hin1].
Qed.

Lemma delete_task_answer `{P : Platform} (owner : pystr)
    (tid title : option pystr) (s : Session) :
  snd (delete_task owner tid title s) =
  if negb (truthy_opt tid) && negb (truthy_opt title) then
    inr (ResError "Must provide either task_id or title" None)
  else
    match snd (resolve owner tid title s) with
    | inr (Resolved t) => inr (ResDeleted (task_pk t))
    | r => unresolved_answer r
    end.
Proof.
  unfold delete_task.
  destruct (negb (truthy_opt tid) && negb (truthy_opt title)); [reflexivity|].
  rewrite run_bind, resolve_run.
  destruct (snd (resolve owner tid title s)) as [e|[t| |ts]]; reflexivity.
Qed.

Lemma update_task_answer `{P : Platform} (owner : pystr)
    (tid old_title title description : option pystr) (now : Z) (s : Session) :
  keyed (task_seq s) (tasks (working s)) ->
  snd (update_task owner tid old_title title description now s) =
  if negb (truthy_opt tid) && negb (truthy_opt old_title) then
    inr (ResError "Must provide either task_id or old_title" None)
  else if is_None title && is_None description then
    inr (ResError "At least one field (title or description) must be provided" None)
  else
    match snd (resolve owner tid old_title s) with
    | inr (Resolved t) =>
        match update_fields t title description with
        | inl (error, _) => inr (ResError error None)
        | inr t' =>
            match send_texts (assigned_texts title description) with
            | inl e => inl e
            | inr _ => inr (ResTask (set_updated_at t' now))
            end
        end
    | r => unresolved_answer r
    end.
Proof.
  intros Hk. unfold update_task.
  destruct (negb (truthy_opt tid) && negb (truthy_opt old_title)); [reflexivity|].
  destruct (is_None title && is_None description); [reflexivity|].
  rewrite run_bind, resolve_run.
  destruct (resolve_spec owner tid old_title s) as [_ Hres].
  destruct (snd (resolve owner tid old_title s)) as [e|[t| |ts]]; try reflexivity.
  destruct Hres as [Hin _].
  generalize (assigned_texts title description). intros texts.
  assert (Hlast : forall s1 t1, keyed (task_seq s1) (tasks (working s1)) ->
            In t1 (tasks (working s1)) ->
            snd ((store_task (set_updated_at t1 now) ;;;
                  commit_sending texts ;;;
                  task <- refresh (set_updated_at t1 now) ;;
                  ret (ResTask task))%py s1)
            = match send_texts texts with
              | inl e => inl e
              | inr _ => inr (ResTask (set_updated_at t1 now))
              end).
  { intros s1 t1 Hk1 Hin1.
    destruct (working_store s1 t1 (set_updated_at t1 now) Hk1 Hin1 eq_refl)
      as [Hk2 Hin2].
    rewrite run_store, run_commit_sending.
    destruct (send_texts texts); [reflexivity|].
    rewrite run_refresh; [reflexivity|apply Hk2|exact Hin2]. }
  assert (Hdesc : forall s1 t1, keyed (task_seq s1) (tasks (working s1)) ->
            In t1 (tasks (working s1)) ->
            snd ((after_description <-
                    match description with
                    | Some new_description =>
                        if (1000 <? length new_description)%nat then
                          ret (inl (ResError "Description must be 1000 characters or less" None))
                        else
                          let task :=
                            set_description t1
                              (if truthy new_description
                               then Some (strip new_description) else None) in
                          (store_task task ;;; ret (inr task))
                    | None => ret (inr t1)
                    end ;;
                  match after_description with
                  | inl error_result => ret error_result
                  | inr task =>
                      let task := set_updated_at task now in
                      (store_task task ;;;
                       commit_sending texts ;;;
                       task <- refresh task ;;
                       ret (ResTask task))
                  end)%py s1)
            = match description with
              | Some d =>
                  if (1000 <? length d)%nat then
                    inr (ResError "Description must be 1000 characters or less" None)
                  else
                    match send_texts texts with
                    | inl e => inl e
                    | inr _ =>
                        inr (ResTask (set_updated_at
                               (set_description t1 (if truthy d then Some (strip d) else None))
                               now))
                    end
              | None =>
                  match send_texts texts with
                  | inl e => inl e
                  | inr _ => inr (ResTask (set_updated_at t1 now))
                  end
              end).
  { intros s1 t1 Hk1 Hin1. destruct description as [d|].
    - destruct (1000 <? length d)%nat; [reflexivity|]. cbv zeta.
      rewrite run_assoc, run_store, run_ret.
      destruct (working_store s1 t1
                  (set_description t1 (if truthy d then Some (strip d) else None))
                  Hk1 Hin1 eq_refl) as [Hk2 Hin2].
      apply (Hlast _ _ Hk2 Hin2).
    - rewrite run_ret. apply (Hlast _ _ Hk1 Hin1). }
  unfold update_fields. destruct title as [new_title|].
  - destruct (negb (truthy new_title) || (255 <? length new_title)%nat);
      [reflexivity|]. cbv zeta.
    rewrite run_assoc, run_store, run_ret.
    destruct (working_store s t (set_title t (strip new_title)) Hk Hin eq_refl)
      as [Hk2 Hin2].
    specialize (Hdesc _ _ Hk2 Hin2).
    cbv beta iota zeta in Hdesc |- *. rewrite Hdesc.
    destruct description as [d|]; [|reflexivity].
    destruct (1000 <? length d)%nat; reflexivity.
  - rewrite run_ret. specialize (Hdesc _ _ Hk Hin).
    cbv beta iota zeta in Hdesc |- *. rewrite Hdesc.
    destruct description as [d|]; [|reflexivity].
    destruct (1000 <? length d)%nat; reflexivity.
Qed.

(** ** The answers depend on the caller's rows only *)

(** Where the database tests the owner first, the lookup by title depends
    on the rows of the owner only. *)
Lemma lookup_by_title_own `{P : Platform} (owner pattern : pystr)
    (rows1 rows2 : list Task) :
  owner_first = true ->
  tasks_of owner rows1 = tasks_of owner rows2 ->
  lookup_by_title owner pattern rows1 = lookup_by_title owner pattern rows2.
Proof.
  intros Hfirst Hview. unfold lookup_by_title. rewrite Hfirst, Hview. reflexivity.
Qed.

Lemma resolve_reads `{P : Platform} (owner : pystr) (tid title : option pystr)
    (s1 s2 : Session) :
  owner_first = true ->
  tasks_of owner (tasks (working s1)) = tasks_of owner (tasks (working s2)) ->
  snd (resolve owner tid title s1) = snd (resolve owner tid title s2).
Proof.
  intros Hfirst Hview. unfold resolve, find_by_id, select_by_id, select_by_title.
  rewrite !run_bind.
  assert (Hnone : forall s : Session,
    snd (let (s', r) := @ret (option Task) None s in
         match r with
         | inl e => (s', inl e)
         | inr task =>
             match task, title with
             | Some t, _ => ret (Resolved t)
             | None, Some fragment =>
                 if truthy fragment then
                   (tasks <- (fun s0 : Session =>
                                (s0, lookup_by_title owner
                                       (lit "%" ++ fragment ++ lit "%")
                                       (tasks (working s0)))) ;;
                    match tasks with
                    | [] => ret NotFound
                    | [t] => ret (Resolved t)
                    | t :: _ :: _ => ret (MultipleMatches tasks)
                    end)%py
                 else ret NotFound
             | None, None => ret NotFound
             end s'
         end)
    = match title with
      | Some fragment =>
          if truthy fragment then
            match lookup_by_title owner (lit "%" ++ fragment ++ lit "%")
                                  (tasks (working s)) with
            | inl e => inl e
            | inr [] => inr NotFound
            | inr [t] => inr (Resolved t)
            | inr ts => inr (MultipleMatches ts)
            end
          else inr NotFound
      | None => inr NotFound
      end).
  { intros s. simpl. destruct title as [fragment|]; [|reflexivity].
    destruct (truthy fragment); [|reflexivity].
    rewrite run_bind.
    destruct (lookup_by_title _ _ _) as [e|[|t [|t' rest]]]; reflexivity. }
  assert (Hsame :
    match title with
    | Some fragment =>
        if truthy fragment then
          match lookup_by_title owner (lit "%" ++ fragment ++ lit "%")
                                (tasks (working s1)) with
          | inl e => inl e
          | inr [] => inr NotFound
          | inr [t] => inr (Resolved t)
          | inr ts => inr (MultipleMatches ts)
          end
        else inr NotFound
    | None => inr NotFound
    end
    = match title with
      | Some fragment =>
          if truthy fragment then
            match lookup_by_title owner (lit "%" ++ fragment ++ lit "%")
                                  (tasks (working s2)) with
            | inl e => inl e
            | inr [] => inr NotFound
            | inr [t] => inr (Resolved t)
            | inr ts => inr (MultipleMatches ts)
            end
          else inr NotFound
      | None => inr NotFound
      end).
  { destruct title as [fragment|]; [|reflexivity].
    destruct (truthy fragment); [|reflexivity].
    rewrite (lookup_by_title_own owner _ _ _ Hfirst Hview). reflexivity. }
  destruct tid as [id_text|]; [|rewrite !Hnone; exact Hsame].
  destruct (truthy id_text); [|rewrite !Hnone; exact Hsame].
  destruct (int_of_str id_text) as [i|]; [|rewrite !Hnone; exact Hsame].
  rewrite Hview.
  destruct (head _) as [t|]; [reflexivity|].
  specialize (Hnone s1) as H1. specialize (Hnone s2) as H2.
  simpl in H1, H2 |- *. rewrite H1, H2. exact Hsame.
Qed.

Lemma tool_reads_own_rows `{P : Platform} (owner : pystr) (tool : M ToolResult)
    (s1 s2 : Session) :
  invoked_for owner tool ->
  owner_first = true ->
  keyed (task_seq s1) (tasks (working s1)) ->
  keyed (task_seq s2) (tasks (working s2)) ->
  same_view owner s1 s2 ->
  snd (tool s1) = snd (tool s2).
Proof.
  intros Htool Hfirst Hk1 Hk2 [Hview Hseq]. destruct Htool.
  - rewrite !add_task_run.
    rewrite (lookup_by_title_own owner _ _ _ Hfirst Hview).
    destruct (bool_decide _); [reflexivity|].
    destruct (255 <? _)%nat; [reflexivity|].
    destruct (1000 <? _)%nat; [reflexivity|].
    destruct (lookup_by_title _ _ _) as [e|[|existing rest]]; try reflexivity.
    cbv zeta. cbn [texts_of task_title task_description].
    destruct (send_texts _) as [e|u] eqn:Hsend; [reflexivity|].
    apply send_texts_unit in Hsend.
    assert (Hr1 := refresh_added s1
                     (fun i => mkTask i owner (normalized title)
                                 (stored_description description) false now now)
                     Hk1 (fun i => eq_refl) Hsend).
    assert (Hr2 := refresh_added s2
                     (fun i => mkTask i owner (normalized title)
                                 (stored_description description) false now now)
                     Hk2 (fun i => eq_refl) Hsend).
    cbv beta iota zeta in Hr1, Hr2 |- *. rewrite Hr1, Hr2.
    simpl. rewrite Hseq. reflexivity.
  - unfold list_tasks. simpl. rewrite Hview. reflexivity.
  - rewrite !complete_task_answer by assumption.
    rewrite (resolve_reads owner task_id title s1 s2 Hfirst Hview). reflexivity.
  - rewrite !delete_task_answer.
    rewrite (resolve_reads owner task_id title s1 s2 Hfirst Hview). reflexivity.
  - rewrite !update_task_answer by assumption.
    rewrite (resolve_reads owner task_id old_title s1 s2 Hfirst Hview). reflexivity.
Qed.

(** ** Where an error result leaves the session *)

Lemma complete_task_error_state `{P : Platform} (owner : pystr)
    (tid title : option pystr) (now : Z) (s : Session) (error : string)
    (details : option string) :
  snd (complete_task owner tid title now s) = inr (ResError error details) ->
  fst (complete_task owner tid title now s) = s.
Proof.
  unfold complete_task.
  destruct (negb (truthy_opt tid) && negb (truthy_opt title)); [reflexivity|].
  rewrite run_bind, resolve_run.
  destruct (snd (resolve owner tid title s)) as [e|[t| |ts]]; try reflexivity.
  rewrite run_store, run_commit, run_bind.
  destruct (refresh _ _) as [s2 [e|t2]]; discriminate.
Qed.

Lemma delete_task_error_state `{P : Platform} (owner : pystr)
    (tid title : option pystr) (s : Session) (error : string)
    (details : option string) :
  snd (delete_task owner tid title s) = inr (ResError error details) ->
  fst (delete_task owner tid title s) = s.
Proof.
  unfold delete_task.
  destruct (negb (truthy_opt tid) && negb (truthy_opt title)); [reflexivity|].
  rewrite run_bind, resolve_run.
  destruct (snd (resolve owner tid title s)) as [e|[t| |ts]]; try reflexivity.
  discriminate.
Qed.

(** [add_task] on an error: the session as it was, or rolled back. *)
Lemma add_task_error_state `{P : Platform} (owner title : pystr)
    (description : option pystr) (now : Z) (s : Session) (error : string)
    (details : option string) :
  snd (add_task owner title description now s) = inr (ResError error details) ->
  fst (add_task owner title description now s) = s \/
  (working (fst (add_task owner title description now s))
   = committed (fst (add_task owner title description now s)) /\
   details <> None).
Proof.
  rewrite add_task_run.
  destruct (bool_decide _); [left; reflexivity|].
  destruct (255 <? _)%nat; [left; reflexivity|].
  destruct (1000 <? _)%nat; [left; reflexivity|].
  destruct (lookup_by_title _ _ _) as [e|[|existing rest]].
  - intros [= _ <-]. right. split; [reflexivity|discriminate].
  - cbv zeta. destruct (send_texts _).
    { intros [= _ <-]. right. split; [reflexivity|discriminate]. }
    destruct (refresh _ _) as [s2 [e|t]]; [|discriminate].
    intros [= _ <-]. right. split; [reflexivity|discriminate].
  - left. reflexivity.
Qed.

(** [update_task] on an error: the session as it was, unless the error is
    the one about the description and a new title had been assigned; then
    the session holds the row with the new title, uncommitted. *)
Lemma update_task_error_state `{P : Platform} (owner : pystr)
    (tid old_title title description : option pystr) (now : Z) (s : Session)
    (error : string) (details : option string) :
  snd (update_task owner tid old_title title description now s)
  = inr (ResError error details) ->
  fst (update_task owner tid old_title title description now s) = s \/
  exists t new_title,
    snd (resolve owner tid old_title s) = inr (Resolved t) /\
    title = Some new_title /\
    update_fields t title description
    = inl ("Description must be 1000 characters or less", true) /\
    fst (update_task owner tid old_title title description now s)
    = fst (store_task (set_title t (strip new_title)) s).
Proof.
  unfold update_task.
  destruct (negb (truthy_opt tid) && negb (truthy_opt old_title));
    [left; reflexivity|].
  destruct (is_None title && is_None description); [left; reflexivity|].
  rewrite run_bind, resolve_run.
  destruct (snd (resolve owner tid old_title s)) as [e|[t| |ts]];
    try (left; reflexivity).
  generalize (assigned_texts title description). intros texts.
  assert (Hlast : forall s1 t1 (r : ToolResult),
            snd ((store_task (set_updated_at t1 now) ;;;
                  commit_sending texts ;;;
                  task <- refresh (set_updated_at t1 now) ;;
                  ret (ResTask task))%py s1) = inr r ->
            exists t2, r = ResTask t2).
  { intros s1 t1 r. rewrite run_store, run_commit_sending.
    destruct (send_texts texts); [discriminate|]. rewrite run_bind.
    destruct (refresh _ _) as [s2 [e|t2]]; [discriminate|].
    intros [= <-]. eauto. }
  unfold update_fields. destruct title as [new_title|].
  - destruct (negb (truthy new_title) || (255 <? length new_title)%nat);
      [left; reflexivity|].
    cbv zeta. rewrite run_assoc, run_store, run_ret. cbv beta iota.
    destruct description as [d|].
    + destruct (1000 <? length d)%nat.
      * intros _. right. exists t, new_title. auto.
      * cbv zeta. rewrite run_assoc, run_store, run_ret. cbv beta iota zeta.
        intros Herr. apply Hlast in Herr as [t2 Ht2]. discriminate Ht2.
    + rewrite run_ret. cbv beta iota zeta.
      intros Herr. apply Hlast in Herr as [t2 Ht2]. discriminate Ht2.
  - rewrite run_ret. cbv beta iota.
    destruct description as [d|].
    + destruct (1000 <? length d)%nat; [left; reflexivity|].
      cbv zeta. rewrite run_assoc, run_store, run_ret. cbv beta iota zeta.
      intros Herr. apply Hlast in Herr as [t2 Ht2]. discriminate Ht2.
    + rewrite run_ret. cbv beta iota zeta.
      intros Herr. apply Hlast in Herr as [t2 Ht2]. discriminate Ht2.
Qed.

(** At the moment a tool returns an error result, the database is what it
    was before the call. *)
Lemma error_result_keeps_database `{P : Platform} (owner : pystr)
    (tool : M ToolResult) (s : Session) (error : string)
    (details : option string) :
  invoked_for owner tool ->
  keyed (task_seq s) (tasks (working s)) ->
  snd (tool s) = inr (ResError error details) ->
  committed (fst (tool s)) = committed s.
Proof.
  intros Htool Hk Herr. destruct Htool.
  - revert Herr. rewrite add_task_run.
    destruct (bool_decide _); [reflexivity|].
    destruct (255 <? _)%nat; [reflexivity|].
    destruct (1000 <? _)%nat; [reflexivity|].
    destruct (lookup_by_title _ _ _) as [e|[|existing rest]]; try reflexivity.
    cbv zeta. cbn [texts_of task_title task_description].
    destruct (send_texts _) as [e|u] eqn:Hsend; [reflexivity|].
    apply send_texts_unit in Hsend.
    assert (Hr := refresh_added s
                    (fun i => mkTask i owner (normalized title)
                                (stored_description description) false now now)
                    Hk (fun i => eq_refl) Hsend).
    cbv beta iota zeta in Hr |- *. rewrite Hr. discriminate.
  - discriminate Herr.
  - rewrite (complete_task_error_state _ _ _ _ _ _ _ Herr). reflexivity.
  - rewrite (delete_task_error_state _ _ _ _ _ _ Herr). reflexivity.
  - destruct (update_task_error_state _ _ _ _ _ _ _ _ _ Herr)
      as [->|(t & new_title & _ & _ & _ & ->)]; reflexivity.
Qed.

(** ** Text without wildcards on [ascii_postgres]

    For a fragment or title without [%], [_] and backslash, the database's
    match is the literal one. *)

Lemma plain_char_lower (c : N) :
  negb ((c =? 37) || (c =? 95) || (c =? 92))%N = true ->
  negb ((lower_char c =? 37) || (lower_char c =? 95) || (lower_char c =? 92))%N
  = true.
Proof.
  unfold lower_char.
  destruct (N.leb_spec 65 c); destruct (N.leb_spec c 90); simpl; auto.
  intros _.
  destruct (N.eqb_spec (c + 32) 37); [lia|].
  destruct (N.eqb_spec (c + 32) 95); [lia|].
  destruct (N.eqb_spec (c + 32) 92); [lia|]. reflexivity.
Qed.

Lemma plain_text_lower (s : pystr) :
  plain_text s = true -> plain_text (ascii_lower s) = true.
Proof.
  unfold plain_text, ascii_lower. induction s as [|c s IH]; [reflexivity|].
  rewrite fmap_cons. simpl. intros Hs. apply andb_prop in Hs as [Hc Hs].
  rewrite (plain_char_lower c Hc), (IH Hs). reflexivity.
Qed.

Lemma lower_char_idem (c : N) : lower_char (lower_char c) = lower_char c.
Proof.
  unfold lower_char.
  destruct (N.leb_spec 65 c); destruct (N.leb_spec c 90); simpl;
    try (destruct (N.leb_spec 65 c); destruct (N.leb_spec c 90); simpl;
         reflexivity || lia).
  destruct (N.leb_spec 65 (c + 32)); destruct (N.leb_spec (c + 32) 90); simpl;
    reflexivity || lia.
Qed.

Lemma ascii_lower_idem (s : pystr) : ascii_lower (ascii_lower s) = ascii_lower s.
Proof.
  unfold ascii_lower. rewrite <- list_fmap_compose.
  apply list_fmap_ext. intros i c _. apply lower_char_idem.
Qed.

Lemma like_match_any (t : pystr) : like_match [37%N] t = LikeTrue.
Proof. induction t as [|x t IH]; [reflexivity|]. simpl. exact IH. Qed.

Lemma like_match_percent (q t : pystr) :
  like_match (37%N :: q) t =
  match like_match q t with
  | LikeFalse =>
      match t with
      | [] => LikeFalse
      | _ :: t' => like_match (37%N :: q) t'
      end
  | o => o
  end.
Proof. destruct t; reflexivity. Qed.

Lemma like_match_plain_prefix (p t : pystr) :
  plain_text p = true ->
  like_match (p ++ [37%N]) t = if starts_with p t then LikeTrue else LikeFalse.
Proof.
  revert t. induction p as [|c p IH]; intros t Hp.
  - apply like_match_any.
  - simpl in Hp. apply andb_prop in Hp as [Hc Hp].
    apply negb_true_iff, orb_false_elim in Hc as [Hc H92].
    apply orb_false_elim in Hc as [H37 H95].
    simpl. rewrite H37. destruct t as [|x t]; [reflexivity|].
    rewrite H95, H92, (N.eqb_sym x c).
    destruct (c =? x)%N; [apply IH, Hp|reflexivity].
Qed.

Lemma like_match_plain_infix (p t : pystr) :
  plain_text p = true ->
  like_match (37%N :: p ++ [37%N]) t
  = if occurs_in p t then LikeTrue else LikeFalse.
Proof.
  intros Hp. induction t as [|x t IH].
  - rewrite like_match_percent, like_match_plain_prefix by exact Hp.
    simpl. rewrite orb_false_r. destruct (starts_with p []); reflexivity.
  - rewrite like_match_percent, like_match_plain_prefix by exact Hp.
    simpl occurs_in. destruct (starts_with p (x :: t)); [reflexivity|].
    simpl. exact IH.
Qed.

Lemma like_match_plain_exact (p t : pystr) :
  plain_text p = true ->
  like_match p t = if bool_decide (t = p) then LikeTrue else LikeFalse.
Proof.
  revert t. induction p as [|c p IH]; intros t Hp.
  - destruct t; reflexivity.
  - simpl in Hp. apply andb_prop in Hp as [Hc Hp].
    apply negb_true_iff, orb_false_elim in Hc as [Hc H92].
    apply orb_false_elim in Hc as [H37 H95].
    simpl. rewrite H37. destruct t as [|x t]; [reflexivity|].
    rewrite H95, H92. destruct (N.eqb_spec x c) as [->|Hne].
    + rewrite (IH t Hp). repeat case_bool_decide; congruence.
    + rewrite bool_decide_eq_false_2; [reflexivity|congruence].
Qed.

Lemma where_ilike_cons `{P : Platform} (pattern : pystr) (r : Task)
    (rows : list Task) :
  where_ilike pattern (r :: rows) =
  match ilike (task_title r) pattern with
  | LikeError => inl (DatabaseError "LIKE pattern must not end with escape character")
  | LikeFalse => where_ilike pattern rows
  | LikeTrue =>
      match where_ilike pattern rows with
      | inr found => inr (r :: found)
      | inl e => inl e
      end
  end.
Proof. reflexivity. Qed.

Lemma lower_fragment_pattern (fragment : pystr) :
  ascii_lower (lit "%" ++ fragment ++ lit "%")
  = 37%N :: ascii_lower fragment ++ [37%N].
Proof. unfold ascii_lower. rewrite !fmap_app. reflexivity. Qed.

Lemma where_ilike_plain_fragment (fragment : pystr) (rows : list Task) :
  plain_text fragment = true ->
  where_ilike (P := ascii_postgres) (lit "%" ++ fragment ++ lit "%") rows
  = inr (List.filter (fun t => contains_fragment fragment (task_title t)) rows).
Proof.
  intros Hp. induction rows as [|r rows IH]; [reflexivity|].
  rewrite where_ilike_cons, IH. cbn [List.filter].
  change (ilike (task_title r) (lit "%" ++ fragment ++ lit "%"))
    with (like_match (ascii_lower (lit "%" ++ fragment ++ lit "%"))
                     (ascii_lower (task_title r))).
  rewrite lower_fragment_pattern.
  rewrite like_match_plain_infix by (apply plain_text_lower, Hp).
  unfold contains_fragment.
  destruct (occurs_in (ascii_lower fragment) (ascii_lower (task_title r)));
    reflexivity.
Qed.

Lemma where_ilike_plain_title (title : pystr) (rows : list Task) :
  plain_text title = true ->
  where_ilike (P := ascii_postgres) (ascii_lower title) rows
  = inr (List.filter
           (fun t => bool_decide (ascii_lower (task_title t) = ascii_lower title))
           rows).
Proof.
  intros Hp. induction rows as [|r rows IH]; [reflexivity|].
  rewrite where_ilike_cons, IH. cbn [List.filter].
  change (ilike (task_title r) (ascii_lower title))
    with (like_match (ascii_lower (ascii_lower title))
                     (ascii_lower (task_title r))).
  rewrite ascii_lower_idem.
  rewrite like_match_plain_exact by (apply plain_text_lower, Hp).
  destruct (bool_decide (ascii_lower (task_title r) = ascii_lower title));
    reflexivity.
Qed.

(** On [ascii_postgres], a fragment without wildcards that the driver sends
    finds the rows of the owner whose title contains it. *)
Lemma lookup_plain_fragment (owner fragment : pystr) (rows : list Task) :
  plain_text fragment = true -> sendable fragment = true ->
  lookup_by_title (P := ascii_postgres) owner (lit "%" ++ fragment ++ lit "%") rows
  = inr (substring_matches owner fragment rows).
Proof.
  intros Hp Hs. unfold lookup_by_title.
  rewrite send_text_sendable
    by (rewrite !sendable_app, Hs; reflexivity).
  cbn [owner_first ascii_postgres].
  rewrite where_ilike_plain_fragment by exact Hp.
  unfold substring_matches, tasks_of. rewrite filter_filter_comm. reflexivity.
Qed.

Lemma lookup_plain_title (owner title : pystr) (rows : list Task) :
  plain_text title = true -> sendable title = true ->
  lookup_by_title (P := ascii_postgres) owner (ascii_lower title) rows
  = inr (same_title_rows owner title rows).
Proof.
  intros Hp Hs. unfold lookup_by_title.
  rewrite send_text_sendable by (rewrite sendable_lower; exact Hs).
  cbn [owner_first ascii_postgres].
  rewrite where_ilike_plain_title by exact Hp.
  unfold same_title_rows, tasks_of. rewrite filter_filter_comm. reflexivity.
Qed.

Lemma resolve_plain_fragment (owner fragment : pystr) (tid : option pystr)
    (s : Session) :
  find_by_id (P := ascii_postgres) owner tid s = (s, inr None) ->
  plain_text fragment = true -> sendable fragment = true ->
  truthy fragment = true ->
  snd (resolve (P := ascii_postgres) owner tid (Some fragment) s) =
  match substring_matches owner fragment (tasks (working s)) with
  | [] => inr NotFound
  | [t] => inr (Resolved t)
  | found => inr (MultipleMatches found)
  end.
Proof.
  intros Hid Hp Hs Ht. unfold resolve. rewrite run_bind, Hid, Ht, run_bind.
  unfold select_by_title. rewrite lookup_plain_fragment by assumption.
  destruct (substring_matches _ _ _) as [|t [|t' rest]]; reflexivity.
Qed.

(** On fragments without wildcards, which the driver sends, the three
    tools do what C6 says: none of the owner's titles contains the
    fragment, not found; one does, that task is operated on; several do,
    all of them are listed. *)
Lemma plain_fragment_trichotomy (owner fragment : pystr) (tid : option pystr)
    (now : Z) (s : Session) :
  find_by_id (P := ascii_postgres) owner tid s = (s, inr None) ->
  plain_text fragment = true -> sendable fragment = true ->
  truthy fragment = true ->
  keyed (task_seq s) (tasks (working s)) ->
  let found := substring_matches owner fragment (tasks (working s)) in
  snd (complete_task (P := ascii_postgres) owner tid (Some fragment) now s) =
    match found with
    | [] => inr (ResError "Task not found for this user" None)
    | [t] => inr (ResTask (set_completed t now))
    | _ => inr (ResMultipleMatches (candidate_of <$> found))
    end /\
  snd (delete_task (P := ascii_postgres) owner tid (Some fragment) s) =
    match found with
    | [] => inr (ResError "Task not found for this user" None)
    | [t] => inr (ResDeleted (task_pk t))
    | _ => inr (ResMultipleMatches (candidate_of <$> found))
    end /\
  forall title description,
    is_None title && is_None description = false ->
    snd (update_task (P := ascii_postgres) owner tid (Some fragment)
                     title description now s) =
    match found with
    | [] => inr (ResError "Task not found for this user" None)
    | [t] =>
        match update_fields t title description with
        | inl (error, _) => inr (ResError error None)
        | inr t' =>
            match send_texts (assigned_texts title description) with
            | inl e => inl e
            | inr _ => inr (ResTask (set_updated_at t' now))
            end
        end
    | _ => inr (ResMultipleMatches (candidate_of <$> found))
    end.
Proof.
  intros Hid Hp Hs Ht Hk found.
  assert (Hguard : forall o : option pystr,
            negb (truthy_opt o) && negb (truthy_opt (Some fragment)) = false).
  { intros o. simpl. rewrite Ht. apply andb_false_r. }
  assert (Hres := resolve_plain_fragment owner fragment tid s Hid Hp Hs Ht).
  fold found in Hres.
  split; [|split].
  - rewrite complete_task_answer, Hguard, Hres by exact Hk.
    destruct found as [|t [|t' rest]]; reflexivity.
  - rewrite delete_task_answer, Hguard, Hres.
    destruct found as [|t [|t' rest]]; reflexivity.
  - intros title description Hfields.
    rewrite update_task_answer, Hguard, Hfields, Hres by exact Hk.
    destruct found as [|t [|t' rest]]; reflexivity.
Qed.

(** On a title without wildcards, which the driver sends, [add_task] does
    what C7 says: when rows of the owner carry that title, up to case,
    nothing is inserted and the warning names the first of them. *)
Lemma plain_title_duplicate (owner title : pystr) (description : option pystr)
    (now : Z) (s : Session) (t : Task) (rest : list Task) :
  plain_text (normalized title) = true ->
  sendable (normalized title) = true ->
  normalized title <> [] ->
  (length (normalized title) <= 255)%nat ->
  (normalized_length description <= 1000)%nat ->
  same_title_rows owner (normalized title) (tasks (working s)) = t :: rest ->
  add_task (P := ascii_postgres) owner title description now s
  = (s, inr (ResWarning (task_pk t) (existing_of t))).
Proof.
  intros Hp Hs Hne Hlen Hdesc Hsame. rewrite add_task_run.
  rewrite bool_decide_eq_false_2 by exact Hne.
  destruct (Nat.ltb_spec 255 (length (normalized title))); [lia|].
  destruct (Nat.ltb_spec 1000 (normalized_length description)); [lia|].
  change (str_lower (normalized title)) with (ascii_lower (normalized title)).
  rewrite lookup_plain_title by assumption.
  rewrite Hsame. reflexivity.
Qed.

(** ** What a failed turn leaves in the database *)

(** The chat turn, step by step. *)
Lemma chat_endpoint_run `{P : Platform} `{L : LanguageModel}
    (token_user_id user_id : pystr) (request : ChatRequest) (env : TurnEnv)
    (s : Session) :
  chat_endpoint token_user_id user_id request env s =
  if decide (token_user_id <> user_id) then
    (s, inl (HTTPException 403 "Access denied: user_id mismatch"))
  else
    match get_or_create_conversation user_id request env s with
    | (s1, inl e) => (s1, inl (turn_error e))
    | (s1, inr conversation) =>
        match chat_with_tools (req_message request)
                              (history_of (conv_id conversation) s1) with
        | inl e => (s1, inl (turn_error e))
        | inr first =>
            match response_tool_calls first with
            | [] => answer_with conversation request first [] env s1
            | _ :: _ =>
                match run_tool_calls user_id (response_tool_calls first)
                                     (utcnow env) s1 with
                | (s2, inl e) => (s2, inl (turn_error e))
                | (s2, inr results) =>
                    match chat_with_results (req_message request) results with
                    | inl e => (s2, inl (turn_error e))
                    | inr final =>
                        answer_with conversation request final results env s2
                    end
                end
            end
        end
    end.
Proof.
  unfold chat_endpoint.
  destruct (decide (token_user_id <> user_id)); [reflexivity|].
  rewrite run_try, run_bind.
  destruct (get_or_create_conversation user_id request env s)
    as [s1 [e|conversation]].
  { destruct e; reflexivity. }
  rewrite run_bind. unfold fetch_history at 1. cbv beta iota zeta.
  rewrite run_bind. unfold lift at 1.
  change (format_messages_for_cohere
            (take 50
               (sort_by (fun x y => (msg_created_at x <=? msg_created_at y)%Z)
                  (List.filter
                     (fun m => bool_decide (msg_conversation_id m = conv_id conversation))
                     (messages (working s1))))))
    with (history_of (conv_id conversation) s1).
  destruct (chat_with_tools (req_message request)
              (history_of (conv_id conversation) s1)) as [e|first].
  { destruct e; reflexivity. }
  destruct (response_tool_calls first) as [|c calls].
  - rewrite run_ret. cbv beta iota zeta. cbn [fst snd].
    rewrite run_bind. unfold answer_with.
    destruct (store_messages conversation request (response_text first) [] env s1)
      as [s3 [e|stored]]; [destruct e; reflexivity|reflexivity].
  - rewrite run_assoc, run_bind.
    destruct (run_tool_calls user_id (c :: calls) (utcnow env) s1)
      as [s2 [e|results]].
    { destruct e; reflexivity. }
    rewrite run_assoc, run_bind. unfold lift at 1.
    destruct (chat_with_results (req_message request) results) as [e|final].
    { destruct e; reflexivity. }
    rewrite run_ret. cbv beta iota zeta. cbn [fst snd].
    rewrite run_bind. unfold answer_with.
    destruct (store_messages conversation request (response_text final) results
                env s2)
      as [s3 [e|stored]]; [destruct e; reflexivity|reflexivity].
Qed.

Lemma answer_with_raises (conversation : Conversation) (request : ChatRequest)
    (final : CohereResponse) (tool_results : list ToolCallRecord) (env : TurnEnv)
    (s s' : Session) (e : exn) :
  answer_with conversation request final tool_results env s = (s', inl e) ->
  s' = fst (rollback s).
Proof.
  unfold answer_with.
  destruct (store_messages conversation request (response_text final)
              tool_results env s) as [s1 [e1|stored]] eqn:Hstore; [|discriminate].
  apply store_messages_raises in Hstore as [-> _]. intros [= <- _]. reflexivity.
Qed.

(** After a failed turn the database is the one it started from, or the
    one that step 1 left, or the one that the tool loop left. *)
Lemma failed_turn_session `{P : Platform} `{L : LanguageModel}
    (token_user_id user_id : pystr) (request : ChatRequest) (env : TurnEnv)
    (s s' : Session) (e : exn) :
  chat_endpoint token_user_id user_id request env s = (s', inl e) ->
  let s1 := fst (get_or_create_conversation user_id request env s) in
  committed s' = committed s \/ committed s' = committed s1 \/
  exists history response,
    chat_with_tools (req_message request) history = inr response /\
    committed s'
    = committed (fst (run_tool_calls user_id (response_tool_calls response)
                                     (utcnow env) s1)).
Proof.
  rewrite chat_endpoint_run.
  destruct (decide (token_user_id <> user_id)).
  { intros [= <- _]. left. reflexivity. }
  destruct (get_or_create_conversation user_id request env s)
    as [s1 [e1|conversation]]; cbn [fst].
  { intros [= <- _]. right. left. reflexivity. }
  destruct (chat_with_tools (req_message request)
              (history_of (conv_id conversation) s1)) as [e1|response] eqn:Hfirst.
  { intros [= <- _]. right. left. reflexivity. }
  destruct (response_tool_calls response) as [|c calls] eqn:Hcalls.
  { intros Hrun. apply answer_with_raises in Hrun as ->.
    right. left. reflexivity. }
  destruct (run_tool_calls user_id (c :: calls) (utcnow env) s1)
    as [s2 r2] eqn:Hloop.
  assert (Hthird : forall s3, committed s3 = committed s2 ->
            exists history response0,
              chat_with_tools (req_message request) history = inr response0 /\
              committed s3
              = committed (fst (run_tool_calls user_id
                                  (response_tool_calls response0) (utcnow env) s1))).
  { intros s3 Hs3. eexists. exists response. split; [exact Hfirst|].
    rewrite Hcalls, Hloop. exact Hs3. }
  destruct r2 as [e2|results].
  { intros [= <- _]. right. right. apply Hthird. reflexivity. }
  destruct (chat_with_results (req_message request) results) as [e2|final].
  { intros [= <- _]. right. right. apply Hthird. reflexivity. }
  intros Hrun. apply answer_with_raises in Hrun as ->.
  right. right. apply Hthird. reflexivity.
Qed.

(** The database after a failed turn, likewise. *)
Lemma failed_turn_database `{P : Platform} `{L : LanguageModel}
    (db : Tables) (seq : Z) (token_user_id user_id : pystr)
    (request : ChatRequest) (env : TurnEnv) (e : exn) :
  snd (serve_chat db seq token_user_id user_id request env) = inl e ->
  let s1 := after_step_1 db seq user_id request env in
  fst (serve_chat db seq token_user_id user_id request env) = db \/
  fst (serve_chat db seq token_user_id user_id request env) = committed s1 \/
  exists history response,
    chat_with_tools (req_message request) history = inr response /\
    fst (serve_chat db seq token_user_id user_id request env)
    = committed (fst (run_tool_calls user_id (response_tool_calls response)
                                     (utcnow env) s1)).
Proof.
  unfold serve_chat, after_step_1.
  destruct (chat_endpoint token_user_id user_id request env (mkSession db db seq))
    as [s' r] eqn:Hrun.
  simpl. intros ->.
  destruct (failed_turn_session _ _ _ _ _ _ _ Hrun)
    as [Hs|[Hs|(history & response & Hfirst & Hs)]].
  - left. exact Hs.
  - right. left. exact Hs.
  - right. right. exists history, response. auto.
Qed.

(** Step 1 leaves the conversations table as it was, or with the one new
    row. *)
Lemma step_1_conversations `{P : Platform} (db : Tables) (seq : Z)
    (user_id : pystr) (request : ChatRequest) (env : TurnEnv) :
  let added :=
    if truthy_opt (req_conversation_id request) then []
    else [mkConversation (conversation_uuid env) user_id
                         (utcnow env) (utcnow env)] in
  conversations_are (conversations db ++ added)
    (after_step_1 db seq user_id request env).
Proof.
  unfold after_step_1, get_or_create_conversation.
  destruct (truthy_opt (req_conversation_id request)); simpl.
  - rewrite app_nil_r. destruct (uuid_of_str _); [|split; reflexivity].
    destruct (List.filter _ _); split; reflexivity.
  - split; reflexivity.
Qed.

Lemma keeps_conversations_tool_calls `{P : Platform} (cs : list Conversation)
    (user_id : pystr) (calls : list ToolCall) (now : Z) :
  keeps (conversations_are cs) (run_tool_calls user_id calls now).
Proof.
  apply keeps_run_tool_calls; intros; unfold conversations_are, add_new_task in *;
    cbv zeta; try destruct (send_texts _); simpl; tauto.
Qed.

(** ** The history query *)

Lemma insert_by_length {A} (before : A -> A -> bool) (x : A) (l : list A) :
  length (insert_by before x l) = S (length l).
Proof.
  induction l as [|y l IH]; [reflexivity|]. simpl.
  destruct (before x y); simpl; [reflexivity|]. rewrite IH. reflexivity.
Qed.

Lemma sort_by_length {A} (before : A -> A -> bool) (l : list A) :
  length (sort_by before l) = length l.
Proof.
  induction l as [|x l IH]; [reflexivity|]. simpl.
  rewrite insert_by_length, IH. reflexivity.
Qed.

(** Up to 50 messages, the history is the whole conversation, oldest
    first, which is then also its 50 most recent messages. *)
Lemma history_window_short (conversation_id : N) (s : Session) :
  let conversation :=
    List.filter (fun m => bool_decide (msg_conversation_id m = conversation_id))
                (messages (working s)) in
  (length conversation <= 50)%nat ->
  snd (fetch_history conversation_id s) = inr (most_recent 50 conversation).
Proof.
  intros conversation Hshort. unfold fetch_history, most_recent. simpl.
  fold conversation.
  rewrite sort_by_length.
  replace (length conversation - 50)%nat with 0%nat by lia.
  rewrite take_ge by (rewrite sort_by_length; exact Hshort).
  reflexivity.
Qed.

(** ** The sessions of the examples *)

Lemma two_owners_well_keyed : well_keyed two_owners.
Proof.
  assert (Hk : keyed 3 [row 1 u1 "buy milk"; row 2 u2 "pay rent"]).
  { split.
    - apply NoDup_cons. split; [|apply NoDup_singleton].
      intros Hin. apply list_elem_of_singleton in Hin. discriminate.
    - repeat constructor. }
  split; exact Hk.
Defined.

(** * The claims *)

(** ** C1 *)

(** What holds of owner isolation.  A tool operation invoked for [owner],
    on a session whose tasks table has a primary key and holds no
    uncommitted change to another owner's rows: every task in its result is
    a task of [owner], in particular [list_tasks] returns no task of another
    owner; no row of another owner is added, changed or removed, in the
    session's view or in the database; and the session is again such a
    session.  Where the database tests the owner of a row before it matches
    the title, the answer is the same on any other session that shows
    [owner] the same rows of its own. *)
Lemma tools_keep_to_own_rows `{P : Platform} (owner : pystr) (tool : M ToolResult)
    (s : Session) :
  invoked_for owner tool -> well_keyed s -> clean_for owner s ->
  (owner_first = true ->
   forall s2, keyed (task_seq s2) (tasks (working s2)) ->
              same_view owner s s2 -> snd (tool s) = snd (tool s2)) /\
  (forall res, snd (tool s) = inr res ->
               shows_only owner (tasks (working s)) res) /\
  (forall other status listed n,
     other <> owner -> tool = list_tasks owner status ->
     snd (tool s) = inr (ResTasks listed n) ->
     Forall (fun t => task_user_id t <> other) listed) /\
  isolated owner s (fst (tool s)) /\
  (forall other, other <> owner ->
     tasks_of other (tasks (working (fst (tool s))))
     = tasks_of other (tasks (working s)) /\
     tasks_of other (tasks (committed (fst (tool s))))
     = tasks_of other (tasks (committed s))) /\
  well_keyed (fst (tool s)) /\ clean_for owner (fst (tool s)).
Proof.
  intros Htool Hk Hc.
  destruct (tool_guarded owner _ tool s Htool (guarded_start owner s Hk Hc))
    as [Hg Hshow].
  destruct (guarded_isolated owner s _ Hc Hg) as (Hiso & Hk' & Hc').
  split.
  { intros Hfirst s2 Hk2 Hview.
    exact (tool_reads_own_rows owner tool s s2 Htool Hfirst (proj1 Hk) Hk2 Hview). }
  split; [exact Hshow|]. split.
  - intros other status listed n Hne _ Hres.
    specialize (Hshow _ Hres). simpl in Hshow.
    eapply Forall_impl; [exact Hshow|]. simpl. intros t [_ Hu]. congruence.
  - split; [exact Hiso|]. split; [|auto].
    intros other Hne. exact (isolated_other_owner owner other s _ Hne Hiso).
Qed.

(** [u1] deletes by the fragment ["%"], which matches every title there is:
    the task of [u2] stays. *)
Lemma delete_everything_spares_others :
  isolated u1 two_owners (fst (delete_task u1 None (Some (lit "%")) two_owners)) /\
  tasks_of u2 (tasks (committed (fst (delete_task u1 None (Some (lit "%")) two_owners))))
  = [row 2 u2 "pay rent"].
Proof.
  destruct (tools_keep_to_own_rows (P := ascii_postgres) u1
              (delete_task u1 None (Some (lit "%"))) two_owners
              (invoked_delete u1 None (Some (lit "%")))
              two_owners_well_keyed eq_refl)
    as (_ & _ & _ & Hiso & Hother & _).
  split; [exact Hiso|].
  destruct (Hother u2) as [_ Hd]; [discriminate|].
  rewrite Hd. reflexivity.
Qed.

(** C1.  Owner isolation, broken by the duplicate lookup of [add_task].
    [u1] has the task "buy milk" and adds a task whose title is [p] and a
    backslash.  The lookup sends the lower-cased title as an [ILIKE]
    pattern, together with the owner condition, and the database matches
    the pattern against the titles of all rows.  Where [u2] has the task
    "rent", the task is added; where [u2] has the task "pay rent", the
    database rejects the pattern on that row, and [u1] is answered "Failed
    to add task", by the tool and by the dispatcher alike, and nothing is
    added.  In both sessions [u1] has the same rows: what [u1] is answered
    is decided by a title of [u2]. *)
Theorem foreign_title_decides_answer :
  let title := lit "p" ++ [92%N] in
  let rent := fresh_session [row 1 u1 "buy milk"; row 2 u2 "rent"] 3 in
  same_view u1 two_owners rent /\
  tasks_of u2 (tasks (working two_owners)) = [row 2 u2 "pay rent"] /\
  tasks_of u2 (tasks (working rent)) = [row 2 u2 "rent"] /\
  snd (add_task u1 title None 5 rent)
  = inr (ResTask (mkTask 3 u1 title None false 5 5)) /\
  failed_to_add (snd (add_task u1 title None 5 two_owners)) /\
  failed_to_add
    (snd (execute_tool "add_task" {[ "user_id" := u1; "title" := title ]} 5
            two_owners)) /\
  tasks (committed (fst (add_task u1 title None 5 two_owners)))
  = tasks (committed two_owners).
Proof.
  cbv zeta. split; [split; reflexivity|]. split; [reflexivity|].
  split; [reflexivity|]. split; [vm_compute; reflexivity|].
  split; [|split; [|vm_compute; reflexivity]].
  - exists (DatabaseError "LIKE pattern must not end with escape character").
    vm_compute. reflexivity.
  - exists (DatabaseError "LIKE pattern must not end with escape character").
    vm_compute. reflexivity.
Qed.

(** ** C2 *)

(** C2.  Owner-id overwrite.  In the loop over the model's tool calls:
    the [user_id] parameter that reaches the dispatcher is the
    authenticated one, whatever the model wrote; each call either runs one
    of the five tools for the authenticated user or is answered with an
    error result that touches nothing; two lists of calls that differ only
    in the [user_id] the model wrote run identically; the loop returns one
    result per call, each recorded with the authenticated [user_id], and so
    does every turn that answers; and, on a session with a primary key and
    no uncommitted change to foreign rows, the loop leaves the rows of
    every other owner as they were. *)
Theorem user_id_overwrite `{P : Platform} (user_id : pystr) (now : Z)
    (calls : list ToolCall) (s : Session) :
  (forall call,
     (<["user_id" := user_id]> (tc_parameters call)) !! "user_id" = Some user_id) /\
  (forall call s1,
     (exists tool, invoked_for user_id tool /\
        execute_tool (tc_name call) (<["user_id" := user_id]> (tc_parameters call)) now s1
        = try_except tool error_result_of s1) \/
     (exists error,
        execute_tool (tc_name call) (<["user_id" := user_id]> (tc_parameters call)) now s1
        = (s1, inr (ResError error None)))) /\
  (forall calls', Forall2 same_but_user_id calls calls' ->
     run_tool_calls user_id calls now s = run_tool_calls user_id calls' now s) /\
  (exists results,
     snd (run_tool_calls user_id calls now s) = inr results /\
     call_name <$> results = tc_name <$> calls /\
     Forall (fun c => call_parameters c !! "user_id" = Some user_id) results) /\
  (forall (L : LanguageModel) token_user_id request env s' response,
     chat_endpoint token_user_id user_id request env s = (s', inr response) ->
     token_user_id = user_id /\
     Forall (fun c => call_parameters c !! "user_id" = Some token_user_id)
            (resp_tool_calls response)) /\
  (well_keyed s -> clean_for user_id s ->
   isolated user_id s (fst (run_tool_calls user_id calls now s)) /\
   forall other, other <> user_id ->
     tasks_of other (tasks (committed (fst (run_tool_calls user_id calls now s))))
     = tasks_of other (tasks (committed s))).
Proof.
  split; [intros call; apply lookup_insert_eq|].
  split; [intros call s1; apply execute_tool_identity|].
  split.
  { intros calls' Hsame. rewrite (run_tool_calls_same user_id now _ _ Hsame).
    reflexivity. }
  split; [apply run_tool_calls_records|].
  split.
  { intros L token_user_id request env s' response.
    apply chat_endpoint_records. }
  intros Hk Hc.
  assert (Hg := run_tool_calls_guarded user_id _ now calls s
                  (guarded_start user_id s Hk Hc)).
  destruct (guarded_isolated user_id s _ Hc Hg) as (Hiso & _ & _).
  split; [exact Hiso|].
  intros other Hne.
  exact (proj2 (isolated_other_owner user_id other s _ Hne Hiso)).
Qed.

(** The model writes the identity of [u2] into a delete-everything call of
    [u1]'s turn: the task of [u2] stays, the task of [u1] goes. *)
Lemma user_id_overwrite_witness :
  tasks (committed (fst (run_tool_calls u1 [forged_delete] 0 two_owners)))
  = [row 2 u2 "pay rent"] /\
  tasks_of u2 (tasks (committed (fst (run_tool_calls u1 [forged_delete] 0 two_owners))))
  = tasks_of u2 (tasks (committed two_owners)).
Proof.
  split; [vm_compute; reflexivity|].
  destruct (user_id_overwrite (P := ascii_postgres) u1 0 [forged_delete] two_owners)
    as (_ & _ & _ & _ & _ & Hrun).
  destruct (Hrun two_owners_well_keyed eq_refl) as (_ & Hother).
  apply Hother. discriminate.
Defined.

(** ** C3 *)

(** C3.  Atomicity of a failing [update_task].  Task 1 of [u1] is "buy
    milk"; the update carries the new title "buy bread" and a description of
    1001 characters.  The call answers with the description error, yet the
    session now holds the new title, and a [list_tasks] that follows in the
    same session shows it.  The database still holds the old title when the
    call returns, and takes the new one with the commit that ends the chat
    turn, in which the reported tool result is that same error. *)
Theorem update_task_partial_write :
  let run := update_task u1 (Some (lit "1")) None (Some (lit "buy bread"))
                         (Some long_description) 50 one_task in
  let turn := @serve_chat ascii_postgres (scripted_model [half_valid_update])
                (committed one_task) 2 u1 u1
                (mkChatRequest (lit "rename it") None) turn_env in
  snd run = inr (ResError "Description must be 1000 characters or less" None) /\
  task_title <$> tasks (working (fst run)) = [lit "buy bread"] /\
  snd (list_tasks u1 (lit "all") (fst run))
  = inr (ResTasks [mkTask 1 u1 (lit "buy bread") None false 0 0] 1) /\
  task_title <$> tasks (committed (fst run)) = [lit "buy milk"] /\
  match snd turn with
  | inr response => call_output <$> resp_tool_calls response
  | inl _ => []
  end = [ResError "Description must be 1000 characters or less" None] /\
  task_title <$> tasks (fst turn) = [lit "buy bread"].
Proof. vm_compute. repeat split; reflexivity. Qed.

(** ** C4 *)

(** C4, amended.  A chat turn that fails returns an error response (an
    [HTTPException]) and stores no message: the messages table of the
    database is what it was before the turn.  The conversations table is
    what it was, or has gained the one row that step 1 created for a turn
    without [conversation_id].  And the database as a whole is the one the
    turn started from, or the one that step 1 left, or the one that the
    loop over the tool calls left: what the tools committed stays.

    And each step before the messages are stored fails the turn when it
    fails.  A path that is not the caller's is refused with 403.  When
    step 1 raises (the conversation is not found, or its id is not a uuid),
    the turn raises the error response of that exception, and likewise when
    the first call of the model raises; in both cases the database is the
    one step 1 left.  The loop over the tool calls returns, whatever the
    tools do; and when the model's second call then raises, the turn raises
    the error response of that exception and the database is the one the
    loop left. *)
Theorem failed_turn_stores_no_message `{P : Platform} `{L : LanguageModel}
    (db : Tables) (seq : Z) (token_user_id user_id : pystr)
    (request : ChatRequest) (env : TurnEnv) :
  let turn := serve_chat db seq token_user_id user_id request env in
  let s1 := after_step_1 db seq user_id request env in
  (forall e, snd turn = inl e ->
     (exists code detail, e = HTTPException code detail) /\
     messages (fst turn) = messages db /\
     (conversations (fst turn) = conversations db \/
      truthy_opt (req_conversation_id request) = false /\
      conversations (fst turn)
      = conversations db ++ [mkConversation (conversation_uuid env) user_id
                                            (utcnow env) (utcnow env)]) /\
     (fst turn = db \/ fst turn = committed s1 \/
      exists history response,
        chat_with_tools (req_message request) history = inr response /\
        fst turn
        = committed (fst (run_tool_calls user_id (response_tool_calls response)
                                         (utcnow env) s1)))) /\
  (token_user_id <> user_id ->
   turn = (db, inl (HTTPException 403 "Access denied: user_id mismatch"))) /\
  (token_user_id = user_id ->
   match snd (get_or_create_conversation user_id request env
                (mkSession db db seq)) with
   | inl e => turn = (committed s1, inl (turn_error e))
   | inr conversation =>
       match chat_with_tools (req_message request)
                             (history_of (conv_id conversation) s1) with
       | inl e => turn = (committed s1, inl (turn_error e))
       | inr first =>
           response_tool_calls first <> [] ->
           exists s2 results,
             run_tool_calls user_id (response_tool_calls first) (utcnow env) s1
             = (s2, inr results) /\
             forall e, chat_with_results (req_message request) results = inl e ->
                       turn = (committed s2, inl (turn_error e))
       end
   end).
Proof.
  intros turn s1. split; [|split].
  - intros e Hfail.
    assert (Hdb := failed_turn_database db seq token_user_id user_id request env e
                     Hfail).
    split; [|split; [|split; [|exact Hdb]]].
    + revert Hfail. unfold turn, serve_chat.
      destruct (chat_endpoint token_user_id user_id request env (mkSession db db seq))
        as [s' r] eqn:Hrun.
      simpl. intros ->.
      assert (Hstart : messages_are (messages db) (mkSession db db seq))
        by (split; reflexivity).
      exact (proj2 (chat_endpoint_raises (messages db) _ _ _ _ _ _ _ Hstart Hrun)).
    + revert Hfail. unfold turn, serve_chat.
      destruct (chat_endpoint token_user_id user_id request env (mkSession db db seq))
        as [s' r] eqn:Hrun.
      simpl. intros ->.
      assert (Hstart : messages_are (messages db) (mkSession db db seq))
        by (split; reflexivity).
      exact (proj2 (proj1 (chat_endpoint_raises (messages db) _ _ _ _ _ _ _
                             Hstart Hrun))).
    + assert (Hstep := step_1_conversations db seq user_id request env).
      cbv zeta in Hdb, Hstep. fold turn in Hdb.
      assert (Hcases : forall cs,
                cs = conversations db ++
                     (if truthy_opt (req_conversation_id request) then []
                      else [mkConversation (conversation_uuid env) user_id
                                           (utcnow env) (utcnow env)]) ->
                cs = conversations db \/
                truthy_opt (req_conversation_id request) = false /\
                cs = conversations db ++
                     [mkConversation (conversation_uuid env) user_id
                                     (utcnow env) (utcnow env)]).
      { intros cs ->. destruct (truthy_opt (req_conversation_id request)).
        - left. apply app_nil_r.
        - right. auto. }
      destruct Hdb as [->|[->|(history & response & _ & ->)]].
      * left. reflexivity.
      * apply Hcases. exact (proj2 Hstep).
      * apply Hcases.
        exact (proj2 (keeps_conversations_tool_calls _ user_id
                        (response_tool_calls response) (utcnow env) _ Hstep)).
  - intros Hne. unfold turn, serve_chat. rewrite chat_endpoint_run.
    rewrite decide_True by exact Hne. reflexivity.
  - intros Hsame. unfold turn, s1, serve_chat, after_step_1.
    rewrite chat_endpoint_run.
    rewrite decide_False by (intros Hne; apply Hne; exact Hsame).
    destruct (get_or_create_conversation user_id request env (mkSession db db seq))
      as [s1' [e|conversation]]; cbn [fst snd]; [reflexivity|].
    destruct (chat_with_tools (req_message request)
                (history_of (conv_id conversation) s1')) as [e|first];
      [reflexivity|].
    intros Hcalls.
    destruct (response_tool_calls first) as [|c calls]; [contradiction|].
    destruct (run_tool_calls_records user_id (utcnow env) (c :: calls) s1')
      as (results & Hresults & _).
    destruct (run_tool_calls user_id (c :: calls) (utcnow env) s1') as [s2 r2].
    cbn [snd] in Hresults. subst r2.
    exists s2, results. split; [reflexivity|].
    intros e He. rewrite He. reflexivity.
Qed.

Lemma failed_turn_stores_no_message_witness :
  messages (fst (@serve_chat ascii_postgres unreachable_model
                   (mkTables [] [] []) 1 u1 u1
                   (mkChatRequest (lit "hello") None) turn_env)) = [] /\
  snd (@serve_chat ascii_postgres unreachable_model
         (mkTables [] [] []) 1 u1 u1
         (mkChatRequest (lit "hello") None) turn_env)
  = inl (HTTPException 500 "Failed to process chat message: timed out").
Proof.
  destruct (failed_turn_stores_no_message
              (P := ascii_postgres) (L := unreachable_model)
              (mkTables [] [] []) 1 u1 u1
              (mkChatRequest (lit "hello") None) turn_env)
    as (Hfails & _ & Hsteps).
  split.
  - exact (proj1 (proj2 (Hfails _ eq_refl))).
  - exact (f_equal snd (Hsteps eq_refl)).
Defined.

(** C4 as stated fails: the first turn of a session creates and commits its
    conversation before the model is called, and the row stays when the
    model cannot be reached. *)
Lemma failed_turn_leaves_conversation : ~ failed_turn_writes_nothing.
Proof.
  intros Hnothing.
  specialize (Hnothing ascii_postgres unreachable_model (mkTables [] [] []) 1
                u1 u1 (mkChatRequest (lit "hello") None) turn_env
                (HTTPException 500 "Failed to process chat message: timed out")
                eq_refl).
  vm_compute in Hnothing. discriminate Hnothing.
Qed.

(** The work of tool calls that ran stays as well, when the second model
    call fails. *)
Example failed_turn_keeps_tool_effects :
  let turn := @serve_chat ascii_postgres
                (model_lost_after_tools [mkToolCall "add_task" {[ "title" := lit "x" ]}])
                (mkTables [] [] []) 1 u1 u1
                (mkChatRequest (lit "add x") None) turn_env in
  snd turn = inl (HTTPException 500 "Failed to process chat message: timed out") /\
  tasks (fst turn) = [mkTask 1 u1 (lit "x") None false 100 100] /\
  messages (fst turn) = [].
Proof. vm_compute. auto. Qed.

(** ** C5 *)

(** C5.  History window.  Conversation 7 has 51 messages, created at times
    1 to 51.  The history that the turn loads is the messages of times 1 to
    50: the newest message is left out and the oldest is in, whereas the 50
    most recent are those of times 2 to 51.  A model that echoes its
    history answers the next turn with the texts of messages 1 to 50. *)
Theorem history_window_is_oldest :
  length (messages (working long_conversation)) = 51%nat /\
  snd (fetch_history 7 long_conversation)
  = inr (numbered_message <$> seq 1 50) /\
  most_recent 50 (messages (working long_conversation))
  = numbered_message <$> seq 2 50 /\
  ~ In (numbered_message 51) (numbered_message <$> seq 1 50) /\
  match snd (@serve_chat ascii_postgres echo_model (committed long_conversation)
               1 u1 u1 (mkChatRequest (lit "and then?") (Some conversation_7))
               turn_env) with
  | inr response => resp_message response
  | inl _ => []
  end = N.of_nat <$> seq 1 50.
Proof.
  split; [reflexivity|]. split; [vm_compute; reflexivity|].
  split; [vm_compute; reflexivity|]. split; [|vm_compute; reflexivity].
  intros Hin. apply in_map_iff in Hin as (i & Hi & Hin).
  apply in_seq in Hin. injection Hi as Hi _. apply Nat2N.inj in Hi. lia.
Qed.

(** ** C6 *)

(** C6.  Resolution by title fragment.  [u1] has the one task "buy milk".
    No title of [u1] contains "_" or "%" or "b%k", so the substring match
    finds nothing; yet [complete_task] with "_" completes the task,
    [delete_task] with "%" deletes it, and [update_task] with "b%k" renames
    it. *)
Theorem wildcard_fragment_resolves :
  substring_matches u1 (lit "_") (tasks (working one_task)) = [] /\
  snd (complete_task u1 None (Some (lit "_")) 5 one_task)
  = inr (ResTask (mkTask 1 u1 (lit "buy milk") None true 0 5)) /\
  substring_matches u1 (lit "%") (tasks (working one_task)) = [] /\
  delete_task u1 None (Some (lit "%")) one_task
  = (fresh_session [] 2, inr (ResDeleted 1)) /\
  substring_matches u1 (lit "b%k") (tasks (working one_task)) = [] /\
  snd (update_task u1 None (Some (lit "b%k")) (Some (lit "sold")) None 5 one_task)
  = inr (ResTask (mkTask 1 u1 (lit "sold") None false 0 5)).
Proof. vm_compute. repeat split; reflexivity. Qed.

(** ** C7 *)

(** C7.  Duplicate guard of add.  [u1] has "abc" (task 1) and "a%" (task
    2).  Adding "A%" is adding the title of task 2 again, and the warning
    names task 1, "abc".  And where [u1] has the one task "a\b", adding
    "a\b" again finds no duplicate and inserts a second row. *)
Theorem duplicate_guard_misses :
  same_title_rows u1 (lit "A%") (tasks (working abc_and_pattern))
  = [row 2 u1 "a%"] /\
  add_task u1 (lit "A%") None 5 abc_and_pattern
  = (abc_and_pattern, inr (ResWarning 1 (existing_of (row 1 u1 "abc")))) /\
  same_title_rows u1 (lit "a\b") (tasks (working backslash_title))
  = [row 1 u1 "a\b"] /\
  snd (add_task u1 (lit "a\b") None 5 backslash_title)
  = inr (ResTask (mkTask 2 u1 (lit "a\b") None false 5 5)) /\
  tasks (committed (fst (add_task u1 (lit "a\b") None 5 backslash_title)))
  = [row 1 u1 "a\b"; mkTask 2 u1 (lit "a\b") None false 5 5].
Proof. vm_compute. repeat split; reflexivity. Qed.

(** ** C8 *)



(** The lengths are those after trimming: a description of 1000 characters
    and a trailing blank, 1001 as supplied, is accepted, and so is a title
    of 255 characters and a trailing blank. *)
Example padded_texts_accepted :
  let padded_title := title_255 ++ lit " " in
  let padded_description := repeat 120%N 1000 ++ lit " " in
  length padded_title = 256%nat /\
  length padded_description = 1001%nat /\
  snd (add_task (P := ascii_postgres) u1 padded_title (Some padded_description)
                5 two_owners)
  = inr (ResTask (mkTask 3 u1 title_255 (Some (repeat 120%N 1000)) false 5 5)).
Proof. vm_compute. auto. Qed.

(** A title of 255 characters that holds the code point 0 passes the
    validation and is refused by the driver: nothing is added. *)
Example unsendable_title_refused :
  let title := repeat 97%N 254 ++ [0%N] in
  length (normalized title) = 255%nat /\
  fst (add_task (P := ascii_postgres) u1 title None 5 two_owners) = two_owners /\
  failed_to_add (snd (add_task (P := ascii_postgres) u1 title None 5 two_owners)) /\
  failed_to_add
    (snd (execute_tool (P := ascii_postgres) "add_task"
            {[ "user_id" := u1; "title" := title ]} 5 two_owners)).
Proof.
  cbv zeta. split; [vm_compute; reflexivity|]. split; [vm_compute; reflexivity|].
  split;
    exists (ValueError "A string literal cannot contain NUL (0x00) characters.");
    vm_compute; reflexivity.
Qed.

(** ** C9 *)

(** C9.  Dispatcher totality.  For every tool name and every parameter
    dictionary [execute_tool] returns a result, never an exception; the
    result has one of the four statuses; and a name outside the five known
    ones gives the error result "Unknown tool: <name>" and leaves the
    session as it was. *)
Theorem execute_tool_total `{P : Platform} (tool_name : string)
    (parameters : gmap string pystr) (now : Z) (s : Session) :
  (exists res, snd (execute_tool tool_name parameters now s) = inr res /\
               In (status res) statuses) /\
  (~ In tool_name known_tools ->
   execute_tool tool_name parameters now s
   = (s, inr (ResError ("Unknown tool: " ++ tool_name)%string None))).
Proof.
  split.
  - destruct (execute_tool_returns tool_name parameters now s) as [res Hres].
    exists res. split; [exact Hres|apply status_known].
  - apply execute_tool_unknown.
Qed.

Lemma execute_tool_total_witness :
  snd (execute_tool "drop_tasks" ∅ 0 two_owners)
  = inr (ResError "Unknown tool: drop_tasks" None).
Proof.
  destruct (execute_tool_total (P := ascii_postgres) "drop_tasks" ∅ 0 two_owners)
    as [_ Hunknown].
  rewrite Hunknown; [reflexivity|].
  unfold known_tools. simpl. intros [H|[H|[H|[H|[H|[]]]]]]; discriminate H.
Defined.

(** ** C10 *)

(** C10.  Wildcards in title matching.  On the platform [ascii_postgres],
    where [%] and [_] in a pattern are wildcards: there are two titles that
    differ even without regard to case, one stored and one supplied, for
    which [add_task] reports a duplicate; and there is a fragment that the
    title of a task does not contain, with which [complete_task],
    [delete_task] and [update_task] each resolve that task. *)
Theorem like_wildcards_leak :
  (exists stored supplied : string,
     ascii_lower (lit stored) <> ascii_lower (lit supplied) /\
     add_task u1 (lit supplied) None 0 (fresh_session [row 1 u1 stored] 2)
     = (fresh_session [row 1 u1 stored] 2,
        inr (ResWarning 1 (existing_of (row 1 u1 stored))))) /\
  (exists (title fragment : string),
     let s := fresh_session [row 1 u1 title] 2 in
     contains_fragment (lit fragment) (lit title) = false /\
     snd (complete_task u1 None (Some (lit fragment)) 9 s)
     = inr (ResTask (set_completed (row 1 u1 title) 9)) /\
     snd (delete_task u1 None (Some (lit fragment)) s) = inr (ResDeleted 1) /\
     snd (update_task u1 None (Some (lit fragment)) None (Some (lit "note")) 9 s)
     = inr (ResTask (set_updated_at
                       (set_description (row 1 u1 title) (Some (lit "note"))) 9))).
Proof.
  split.
  - exists "buy milk", "b_y m%". split; [discriminate|]. vm_compute. reflexivity.
  - exists "buy milk", "m_lk". vm_compute. repeat split; reflexivity.
Qed.

(** * Further properties *)

(** ** The sessions of the further runs *)

Lemma one_task_keyed : keyed (task_seq one_task) (tasks (working one_task)).
Proof. split; [apply NoDup_singleton|repeat constructor]. Defined.

(** ** Sorting, and what the two queries with [ORDER BY] return *)

Lemma insert_by_Permutation {A} (before : A -> A -> bool) (x : A) (l : list A) :
  insert_by before x l ≡ₚ x :: l.
Proof.
  induction l as [|y l IH]; [reflexivity|]. simpl.
  destruct (before x y); [reflexivity|].
  rewrite IH. apply Permutation_swap.
Qed.

Lemma sort_by_Permutation {A} (before : A -> A -> bool) (l : list A) :
  sort_by before l ≡ₚ l.
Proof.
  induction l as [|x l IH]; [reflexivity|]. simpl.
  rewrite insert_by_Permutation. fold (sort_by before l). rewrite IH. reflexivity.
Qed.

Section Sorting.

Context {A : Type} (before : A -> A -> bool).
Hypothesis before_total : forall x y, before x y = false -> before y x = true.
Hypothesis before_trans :
  forall x y z, before x y = true -> before y z = true -> before x z = true.

Lemma insert_by_sorted (x : A) (l : list A) :
  StronglySorted (fun a b => before a b = true) l ->
  StronglySorted (fun a b => before a b = true) (insert_by before x l).
Proof.
  induction 1 as [|y l Hl IH Hy]; simpl.
  - constructor; constructor.
  - destruct (before x y) eqn:Hxy.
    + constructor; [constructor; assumption|].
      constructor; [exact Hxy|].
      eapply Forall_impl; [exact Hy|]. simpl. intros z Hz.
      exact (before_trans x y z Hxy Hz).
    + constructor; [exact IH|].
      rewrite insert_by_Permutation. constructor; [|exact Hy].
      apply before_total, Hxy.
Qed.

Lemma sort_by_sorted (l : list A) :
  StronglySorted (fun a b => before a b = true) (sort_by before l).
Proof.
  induction l as [|x l IH]; [constructor|]. simpl.
  apply insert_by_sorted, IH.
Qed.

End Sorting.

Lemma strongly_sorted_impl {A} (R R' : A -> A -> Prop) (l : list A) :
  (forall x y, R x y -> R' x y) -> StronglySorted R l -> StronglySorted R' l.
Proof.
  intros HR. induction 1 as [|x l Hl IH Hx]; constructor; [exact IH|].
  eapply Forall_impl; [exact Hx|]. simpl. intros y. apply HR.
Qed.

Lemma newest_first_sorted (rows : list Task) :
  StronglySorted (fun x y => task_created_at y <= task_created_at x)
    (sort_by (fun x y => (task_created_at y <=? task_created_at x)%Z) rows).
Proof.
  eapply strongly_sorted_impl;
    [|apply (sort_by_sorted (fun x y : Task =>
                               (task_created_at y <=? task_created_at x)%Z))].
  - intros x y Hxy. apply Z.leb_le, Hxy.
  - intros x y Hxy. apply Z.leb_le. apply Z.leb_gt in Hxy. lia.
  - intros x y z Hxy Hyz. apply Z.leb_le. apply Z.leb_le in Hxy, Hyz. lia.
Qed.

Lemma list_tasks_rows (owner status : pystr) (s : Session) :
  list_tasks owner status s
  = (s, inr (let rows :=
               sort_by (fun x y => (task_created_at y <=? task_created_at x)%Z)
                 (List.filter (wanted status)
                              (tasks_of owner (tasks (working s)))) in
             ResTasks rows (length rows))).
Proof.
  unfold list_tasks, wanted. cbv zeta.
  destruct (decide (status = lit "completed")); [reflexivity|].
  destruct (decide (status = lit "incomplete")); [reflexivity|].
  rewrite (forallb_filter_id (fun _ : Task => true));
    [reflexivity|apply forallb_forall; reflexivity].
Qed.


(** X2.  The history that a turn loads is the first 50 messages of the
    conversation in ascending order of creation: with the messages it
    leaves out it makes up the conversation, sorted. *)
Theorem history_is_oldest_first (conversation_id : N) (s : Session) :
  let conversation :=
    List.filter (fun m => bool_decide (msg_conversation_id m = conversation_id))
                (messages (working s)) in
  exists history rest,
    fetch_history conversation_id s = (s, inr history) /\
    length history = Nat.min 50 (length conversation) /\
    history ++ rest ≡ₚ conversation /\
    StronglySorted (fun x y => msg_created_at x <= msg_created_at y)
                   (history ++ rest).
Proof.
  intros conversation. unfold fetch_history. fold conversation.
  set (ascending := sort_by (fun x y => (msg_created_at x <=? msg_created_at y)%Z)
                            conversation).
  exists (take 50 ascending), (drop 50 ascending).
  split; [reflexivity|]. split; [|split].
  - rewrite length_take. unfold ascending. rewrite sort_by_length. reflexivity.
  - rewrite take_drop. apply sort_by_Permutation.
  - rewrite take_drop.
    eapply strongly_sorted_impl;
      [|apply (sort_by_sorted (fun x y : Message =>
                                 (msg_created_at x <=? msg_created_at y)%Z))].
    + intros x y Hxy. apply Z.leb_le, Hxy.
    + intros x y Hxy. apply Z.leb_le. apply Z.leb_gt in Hxy. lia.
    + intros x y z Hxy Hyz. apply Z.leb_le. apply Z.leb_le in Hxy, Hyz. lia.
Qed.

(** ** The lookup, by id and by title *)


Lemma find_by_id_unusable `{P : Platform} (owner : pystr) (tid : option pystr)
    (s : Session) :
  (forall id_text i, tid = Some id_text -> truthy id_text = true ->
     int_of_str id_text = Some i ->
     Forall (fun t => task_pk t <> i) (tasks_of owner (tasks (working s)))) ->
  find_by_id owner tid s = (s, inr None).
Proof.
  intros Hno. unfold find_by_id. destruct tid as [id_text|]; [|reflexivity].
  destruct (truthy id_text) eqn:Ht; [|reflexivity].
  destruct (int_of_str id_text) as [i|] eqn:Hi; [|reflexivity].
  specialize (Hno id_text i eq_refl Ht Hi). unfold select_by_id.
  destruct (List.filter _ _) as [|t l] eqn:Hf; [reflexivity|].
  exfalso. assert (Hin : In t (t :: l)) by now left.
  rewrite <- Hf in Hin. apply filter_In in Hin as [Hin Hpk].
  apply bool_decide_eq_true in Hpk.
  rewrite Forall_forall in Hno. apply (Hno t); [apply list_elem_of_In, Hin|exact Hpk].
Qed.


Lemma resolve_not_by_id `{P : Platform} (owner : pystr) (tid title : option pystr)
    (s : Session) :
  find_by_id owner tid s = (s, inr None) ->
  resolve owner tid title s = resolve owner None title s.
Proof. intros Hf. unfold resolve. rewrite !run_bind, Hf. reflexivity. Qed.

Lemma head_filter_In {A} (keep : A -> bool) (l : list A) (x : A) :
  In x l -> keep x = true -> exists y, head (List.filter keep l) = Some y.
Proof.
  intros Hin Hk. destruct (List.filter keep l) as [|y l'] eqn:Hf.
  - exfalso. assert (Hx : In x []); [|destruct Hx].
    rewrite <- Hf. apply filter_In. auto.
  - exists y. reflexivity.
Qed.






(** ** The lookup as a function of the rows *)

Lemma resolve_rows `{P : Platform} (owner : pystr) (tid title : option pystr)
    (s : Session) :
  resolve owner tid title s = (s, resolution_of owner tid title (tasks (working s))).
Proof.
  unfold resolve, resolution_of, find_by_id, select_by_id, select_by_title.
  rewrite run_bind.
  assert (Htitle : forall s0 : Session,
    match title with
    | Some fragment =>
        if truthy fragment then
          (tasks <- (fun s1 : Session =>
                       (s1, lookup_by_title owner (lit "%" ++ fragment ++ lit "%")
                              (tasks (working s1)))) ;;
           match tasks with
           | [] => ret NotFound
           | [t] => ret (Resolved t)
           | _ :: _ :: _ => ret (MultipleMatches tasks)
           end)%py
        else ret NotFound
    | None => ret NotFound
    end s0
    = (s0, match title with
           | Some fragment =>
               if truthy fragment then
                 match lookup_by_title owner (lit "%" ++ fragment ++ lit "%")
                                       (tasks (working s0)) with
                 | inl e => inl e
                 | inr [] => inr NotFound
                 | inr [t] => inr (Resolved t)
                 | inr ts => inr (MultipleMatches ts)
                 end
               else inr NotFound
           | None => inr NotFound
           end)).
  { intros s0. destruct title as [fragment|]; [|reflexivity].
    destruct (truthy fragment); [|reflexivity].
    rewrite run_bind.
    destruct (lookup_by_title _ _ _) as [e|[|t [|t' rest]]]; reflexivity. }
  destruct tid as [id_text|]; [|exact (Htitle s)].
  destruct (truthy id_text); [|exact (Htitle s)].
  destruct (int_of_str id_text) as [i|]; [|exact (Htitle s)].
  destruct (head _) as [t|]; [reflexivity|exact (Htitle s)].
Qed.

Lemma filter_fmap_commute {A} (keep : A -> bool) (g : A -> A) (l : list A) :
  (forall x, keep (g x) = keep x) ->
  List.filter keep (g <$> l) = g <$> List.filter keep l.
Proof.
  intros Hk. induction l as [|x l IH]; [reflexivity|].
  rewrite fmap_cons. simpl. rewrite Hk, IH. destruct (keep x); reflexivity.
Qed.

Lemma where_ilike_fmap `{P : Platform} (pattern : pystr) (g : Task -> Task)
    (rows : list Task) :
  (forall r, task_title (g r) = task_title r) ->
  where_ilike pattern (g <$> rows)
  = match where_ilike pattern rows with
    | inr found => inr (g <$> found)
    | inl e => inl e
    end.
Proof.
  intros Ht. induction rows as [|r rows IH]; [reflexivity|].
  rewrite fmap_cons. simpl. rewrite Ht, IH.
  destruct (ilike (task_title r) pattern); try reflexivity.
  destruct (where_ilike pattern rows); reflexivity.
Qed.

Lemma tasks_of_fmap (owner : pystr) (g : Task -> Task) (rows : list Task) :
  (forall r, task_user_id (g r) = task_user_id r) ->
  tasks_of owner (g <$> rows) = g <$> tasks_of owner rows.
Proof.
  intros Hu. unfold tasks_of. apply filter_fmap_commute.
  intros x. rewrite Hu. reflexivity.
Qed.

Lemma lookup_by_title_fmap `{P : Platform} (owner pattern : pystr)
    (g : Task -> Task) (rows : list Task) :
  (forall r, task_user_id (g r) = task_user_id r) ->
  (forall r, task_title (g r) = task_title r) ->
  lookup_by_title owner pattern (g <$> rows)
  = match lookup_by_title owner pattern rows with
    | inr found => inr (g <$> found)
    | inl e => inl e
    end.
Proof.
  intros Hu Ht. unfold lookup_by_title.
  destruct (send_text pattern); [reflexivity|].
  destruct owner_first.
  - rewrite (tasks_of_fmap owner g rows Hu). apply where_ilike_fmap, Ht.
  - rewrite (where_ilike_fmap _ g _ Ht).
    destruct (where_ilike pattern rows) as [e|found]; [reflexivity|].
    rewrite (tasks_of_fmap owner g found Hu). reflexivity.
Qed.

Lemma resolution_of_fmap `{P : Platform} (owner : pystr)
    (tid title : option pystr) (g : Task -> Task) (rows : list Task) :
  (forall r, task_pk (g r) = task_pk r) ->
  (forall r, task_user_id (g r) = task_user_id r) ->
  (forall r, task_title (g r) = task_title r) ->
  resolution_of owner tid title (g <$> rows)
  = map_resolution g (resolution_of owner tid title rows).
Proof.
  intros Hpk Hu Ht. unfold resolution_of.
  rewrite (tasks_of_fmap owner g rows Hu).
  assert (Htitle :
    match title with
    | Some fragment =>
        if truthy fragment then
          match lookup_by_title owner (lit "%" ++ fragment ++ lit "%")
                                (g <$> rows) with
          | inl e => inl e
          | inr [] => inr NotFound
          | inr [t] => inr (Resolved t)
          | inr ts => inr (MultipleMatches ts)
          end
        else inr NotFound
    | None => inr NotFound
    end
    = map_resolution g
        match title with
        | Some fragment =>
            if truthy fragment then
              match lookup_by_title owner (lit "%" ++ fragment ++ lit "%")
                                    rows with
              | inl e => inl e
              | inr [] => inr NotFound
              | inr [t] => inr (Resolved t)
              | inr ts => inr (MultipleMatches ts)
              end
            else inr NotFound
        | None => inr NotFound
        end).
  { destruct title as [fragment|]; [|reflexivity].
    destruct (truthy fragment); [|reflexivity].
    rewrite (lookup_by_title_fmap _ _ g _ Hu Ht).
    destruct (lookup_by_title _ _ _) as [e|[|t [|t' rest]]]; reflexivity. }
  destruct tid as [id_text|]; [|exact Htitle].
  destruct (truthy id_text); [|exact Htitle].
  destruct (int_of_str id_text) as [i|]; [|exact Htitle].
  rewrite (filter_fmap_commute _ g (tasks_of owner rows))
    by (intros x; rewrite Hpk; reflexivity).
  destruct (List.filter _ (tasks_of owner rows)) as [|t l]; [exact Htitle|].
  reflexivity.
Qed.

(** A stored row takes the place of the row it was loaded from. *)
Lemma store_as_map (s : Session) (t0 t : Task) (g : Task -> Task) :
  NoDup (task_pk <$> tasks (working s)) -> In t0 (tasks (working s)) ->
  task_pk t = task_pk t0 -> g t0 = t ->
  (forall r, task_pk r <> task_pk t0 -> g r = r) ->
  tasks (working (fst (store_task t s))) = g <$> tasks (working s).
Proof.
  intros Hnd Hin Hpk Hg Hother. simpl. apply list_fmap_ext.
  intros i r Hr. apply list_elem_of_lookup_2, list_elem_of_In in Hr.
  destruct (decide (task_pk r = task_pk t)) as [E|E].
  - rewrite Hpk in E.
    rewrite (key_names_one_row _ t0 r Hnd Hin Hr E). symmetry. exact Hg.
  - symmetry. apply Hother. congruence.
Qed.

Lemma refresh_In (t r : Task) (s s' : Session) :
  refresh t s = (s', inr r) ->
  s' = s /\ In r (tasks (working s)) /\ task_pk r = task_pk t.
Proof.
  unfold refresh. destruct (List.filter _ _) as [|x l] eqn:Hf; [discriminate|].
  intros [= <- <-]. split; [reflexivity|].
  assert (Hin : In x (x :: l)) by now left.
  rewrite <- Hf in Hin. apply filter_In in Hin as [Hin Hpk].
  apply bool_decide_eq_true in Hpk. auto.
Qed.

Lemma complete_task_success `{P : Platform} (owner : pystr)
    (tid title : option pystr) (now : Z) (s s' : Session) (t1 : Task) :
  keyed (task_seq s) (tasks (working s)) ->
  complete_task owner tid title now s = (s', inr (ResTask t1)) ->
  exists t0,
    resolution_of owner tid title (tasks (working s)) = inr (Resolved t0) /\
    In t0 (tasks (working s)) /\ task_user_id t0 = owner /\
    t1 = set_completed t0 now /\
    s' = fst (commit (fst (store_task (set_completed t0 now) s))).
Proof.
  intros Hk. unfold complete_task.
  destruct (negb (truthy_opt tid) && negb (truthy_opt title)); [discriminate|].
  rewrite run_bind, resolve_rows.
  destruct (resolve_spec owner tid title s) as [_ Hres].
  rewrite resolve_rows in Hres. simpl in Hres.
  destruct (resolution_of owner tid title (tasks (working s)))
    as [e|[t| |ts]]; try discriminate.
  destruct Hres as [Hin Hu].
  destruct (working_store s t (set_completed t now) Hk Hin eq_refl) as [Hk1 Hin1].
  rewrite run_store, run_commit, run_refresh; [|apply Hk1|exact Hin1].
  intros [= <- <-]. exists t. auto.
Qed.

(** X5.  Completing is idempotent.  After [complete_task] succeeded, the
    same call succeeds again on the session it left, and returns the same
    task, still completed, with only [updated_at] moved on. *)
Theorem complete_task_idempotent `{P : Platform} (owner : pystr)
    (tid title : option pystr) (now now' : Z) (s s' : Session) (t : Task) :
  keyed (task_seq s) (tasks (working s)) ->
  complete_task owner tid title now s = (s', inr (ResTask t)) ->
  task_completed t = true /\
  snd (complete_task owner tid title now' s')
  = inr (ResTask (set_updated_at t now')).
Proof.
  intros Hk Hrun.
  destruct (complete_task_success owner tid title now s s' t Hk Hrun)
    as (t0 & Hres & Hin & Hu & -> & ->).
  split; [reflexivity|].
  set (g := fun r : Task =>
              if decide (task_pk r = task_pk t0) then set_completed r now else r).
  assert (Hrows : tasks (working (fst (commit (fst (store_task (set_completed t0 now) s)))))
                  = g <$> tasks (working s)).
  { apply (store_as_map s t0 (set_completed t0 now) g (proj1 Hk) Hin eq_refl).
    - unfold g. rewrite decide_True by reflexivity. reflexivity.
    - intros r Hne. unfold g. rewrite decide_False by exact Hne. reflexivity. }
  assert (Hk' : keyed (task_seq (fst (commit (fst (store_task (set_completed t0 now) s)))))
                  (tasks (working (fst (commit (fst (store_task (set_completed t0 now) s))))))).
  { apply (working_store s t0 (set_completed t0 now) Hk Hin eq_refl). }
  rewrite (complete_task_answer owner tid title now' _ Hk').
  assert (Hfirst : negb (truthy_opt tid) && negb (truthy_opt title) = false).
  { revert Hrun. unfold complete_task.
    destruct (negb (truthy_opt tid) && negb (truthy_opt title));
      [discriminate|reflexivity]. }
  rewrite Hfirst, resolve_rows. cbn [snd]. rewrite Hrows.
  rewrite (resolution_of_fmap owner tid title g).
  - rewrite Hres. simpl. unfold g. rewrite decide_True by reflexivity.
    reflexivity.
  - intros r. unfold g. destruct (decide _); reflexivity.
  - intros r. unfold g. destruct (decide _); reflexivity.
  - intros r. unfold g. destruct (decide _); reflexivity.
Qed.

Lemma complete_task_idempotent_witness :
  snd (complete_task (P := ascii_postgres) u1 (Some (lit "1")) None 9
         (fst (complete_task (P := ascii_postgres) u1 (Some (lit "1")) None 5
                 one_task)))
  = inr (ResTask (mkTask 1 u1 (lit "buy milk") None true 0 9)).
Proof.
  apply (complete_task_idempotent (P := ascii_postgres) u1 (Some (lit "1")) None
           5 9 one_task _ (mkTask 1 u1 (lit "buy milk") None true 0 5)
           one_task_keyed).
  vm_compute. reflexivity.
Defined.

(** ** After a deletion *)

Lemma delete_task_success `{P : Platform} (owner : pystr)
    (tid title : option pystr) (s s' : Session) (i : Z) :
  delete_task owner tid title s = (s', inr (ResDeleted i)) ->
  exists t0,
    In t0 (tasks (working s)) /\ task_user_id t0 = owner /\ task_pk t0 = i /\
    s' = fst (commit (fst (delete_row t0 s))).
Proof.
  unfold delete_task.
  destruct (negb (truthy_opt tid) && negb (truthy_opt title)); [discriminate|].
  rewrite run_bind, resolve_rows.
  destruct (resolve_spec owner tid title s) as [_ Hres].
  rewrite resolve_rows in Hres. simpl in Hres.
  destruct (resolution_of owner tid title (tasks (working s)))
    as [e|[t| |ts]]; try discriminate.
  destruct Hres as [Hin Hu].
  rewrite run_delete, run_commit. intros [= <- <-]. exists t. auto.
Qed.

Lemma length_without_key (rows : list Task) (t : Task) :
  NoDup (task_pk <$> rows) -> In t rows ->
  (length (List.filter (fun r => negb (bool_decide (task_pk r = task_pk t))) rows)
   + 1 = length rows)%nat.
Proof.
  induction rows as [|x rows IH]; [intros _ []|].
  rewrite fmap_cons, NoDup_cons. intros [Hx Hnd] Hin. simpl.
  destruct (decide (task_pk x = task_pk t)) as [E|E].
  - rewrite (bool_decide_eq_true_2 _ E). simpl.
    rewrite (forallb_filter_id _ rows); [lia|].
    apply forallb_forall. intros r Hr. apply negb_true_iff, bool_decide_eq_false.
    intros Er. apply Hx. rewrite E, <- Er. apply list_elem_of_In, in_map, Hr.
  - rewrite (bool_decide_eq_false_2 _ E). simpl.
    destruct Hin as [->|Hin]; [contradiction|].
    rewrite <- (IH Hnd Hin). lia.
Qed.

(** X6.  After [delete_task] reported the deletion of task [i]: the task
    was one of the caller, the deletion is committed, no row of the
    database carries the id, every other row is still there, the table is
    one row shorter, and a [complete_task] or [delete_task] by that id
    answers "Task not found for this user". *)
Theorem deleted_task_is_gone `{P : Platform} (owner : pystr)
    (tid title : option pystr) (s s' : Session) (i : Z) :
  keyed (task_seq s) (tasks (working s)) ->
  delete_task owner tid title s = (s', inr (ResDeleted i)) ->
  (exists t, In t (tasks (working s)) /\ task_user_id t = owner /\ task_pk t = i) /\
  committed s' = working s' /\
  Forall (fun r => task_pk r <> i) (tasks (committed s')) /\
  (forall r, In r (tasks (working s)) -> task_pk r <> i ->
             In r (tasks (committed s'))) /\
  (length (tasks (committed s')) + 1 = length (tasks (working s)))%nat /\
  (forall id_text now, truthy id_text = true -> int_of_str id_text = Some i ->
     snd (complete_task owner (Some id_text) None now s')
     = inr (ResError "Task not found for this user" None) /\
     snd (delete_task owner (Some id_text) None s')
     = inr (ResError "Task not found for this user" None)).
Proof.
  intros Hk Hrun.
  destruct (delete_task_success owner tid title s s' i Hrun)
    as (t0 & Hin & Hu & Hpk & ->).
  split; [exists t0; auto|]. split; [reflexivity|].
  assert (Hgone : Forall (fun r => task_pk r <> i)
            (List.filter (fun r => negb (bool_decide (task_pk r = task_pk t0)))
                         (tasks (working s)))).
  { apply Forall_forall. intros r Hr.
    apply list_elem_of_In, filter_In in Hr as [_ Hr].
    apply negb_true_iff, bool_decide_eq_false in Hr. congruence. }
  split; [exact Hgone|]. split; [|split].
  - intros r Hr Hne. simpl. apply filter_In. split; [exact Hr|].
    apply negb_true_iff, bool_decide_eq_false. congruence.
  - simpl. apply length_without_key; [apply Hk|exact Hin].
  - intros id_text now Ht Hi.
    set (s1 := fst (commit (fst (delete_row t0 s)))).
    assert (Hres : resolve owner (Some id_text) None s1 = (s1, inr NotFound)).
    { rewrite (resolve_not_by_id owner (Some id_text) None s1).
      - apply resolve_rows.
      - apply find_by_id_unusable. intros id_text' i' [= <-] _ Hi'.
        rewrite Hi in Hi'. injection Hi' as <-.
        apply Forall_forall. intros r Hr.
        apply list_elem_of_In, tasks_of_In in Hr as [Hr _].
        rewrite Forall_forall in Hgone. apply Hgone, list_elem_of_In, Hr. }
    unfold complete_task, delete_task. cbn [truthy_opt]. rewrite Ht.
    cbn [negb andb]. rewrite !run_bind, Hres. split; reflexivity.
Qed.

Lemma deleted_task_is_gone_witness :
  Forall (fun r => task_pk r <> 1)
         (tasks (committed (fst (delete_task (P := ascii_postgres) u1
                                   (Some (lit "1")) None one_task)))) /\
  snd (complete_task (P := ascii_postgres) u1 (Some (lit "1")) None 9
         (fst (delete_task (P := ascii_postgres) u1 (Some (lit "1")) None one_task)))
  = inr (ResError "Task not found for this user" None).
Proof.
  destruct (deleted_task_is_gone (P := ascii_postgres) u1 (Some (lit "1")) None
              one_task
              (fst (delete_task (P := ascii_postgres) u1 (Some (lit "1")) None
                      one_task))
              1 one_task_keyed)
    as (_ & _ & Hgone & _ & _ & Hnext); [vm_compute; reflexivity|].
  split; [exact Hgone|].
  exact (proj1 (Hnext (lit "1") 9 eq_refl eq_refl)).
Defined.

(** ** After an addition *)

Lemma listed_Permutation (user_id status : pystr) (s : Session) :
  listed user_id status s
  ≡ₚ List.filter (wanted status) (tasks_of user_id (tasks (working s))).
Proof.
  unfold listed. rewrite list_tasks_rows. cbn [snd]. apply sort_by_Permutation.
Qed.

Lemma listed_In (user_id status : pystr) (s : Session) (t : Task) :
  In t (listed user_id status s) <->
  In t (tasks (working s)) /\ task_user_id t = user_id /\ wanted status t = true.
Proof.
  rewrite <- !list_elem_of_In, listed_Permutation, !list_elem_of_In.
  rewrite filter_In, tasks_of_In. tauto.
Qed.

Lemma add_task_success `{P : Platform} (owner title : pystr)
    (description : option pystr) (now : Z) (s s' : Session) (t : Task) :
  keyed (task_seq s) (tasks (working s)) ->
  add_task owner title description now s = (s', inr (ResTask t)) ->
  t = mkTask (task_seq s) owner (normalized title)
             (stored_description description) false now now /\
  working s' = with_tasks (fun ts => ts ++ [t]) (working s) /\
  committed s' = working s' /\
  task_seq s' = task_seq s + 1.
Proof.
  intros Hk. rewrite add_task_run.
  destruct (bool_decide _); [discriminate|].
  destruct (255 <? _)%nat; [discriminate|].
  destruct (1000 <? _)%nat; [discriminate|].
  destruct (lookup_by_title _ _ _) as [e|[|existing rest]]; try discriminate.
  cbv zeta. destruct (send_texts _) as [e|[]] eqn:Hsend; [discriminate|].
  assert (Hr := refresh_added s
                  (fun i => mkTask i owner (normalized title)
                              (stored_description description) false now now)
                  Hk (fun i => eq_refl) Hsend).
  cbv beta iota zeta in Hr |- *. rewrite Hr.
  intros [= <- <-]. rewrite (add_new_task_sent _ s Hsend). auto.
Qed.

(** X7.  A task that [add_task] reports as added is then listed for its
    owner under "all" and "incomplete" and not under "completed", is listed
    for nobody else, takes nothing off the list, and makes the "all" list
    one longer. *)
Theorem added_task_is_listed `{P : Platform} (owner title : pystr)
    (description : option pystr) (now : Z) (s s' : Session) (t : Task) :
  keyed (task_seq s) (tasks (working s)) ->
  add_task owner title description now s = (s', inr (ResTask t)) ->
  In t (listed owner (lit "all") s') /\
  In t (listed owner (lit "incomplete") s') /\
  (In t (listed owner (lit "completed") s') -> False) /\
  (forall other status, In t (listed other status s') -> other = owner) /\
  (forall status r, In r (listed owner status s) -> In r (listed owner status s')) /\
  length (listed owner (lit "all") s') = S (length (listed owner (lit "all") s)).
Proof.
  intros Hk Hrun.
  destruct (add_task_success owner title description now s s' t Hk Hrun)
    as (Ht & Hw & _ & _).
  assert (Hin : In t (tasks (working s'))).
  { rewrite Hw. simpl. apply in_or_app. right. now left. }
  assert (Hu : task_user_id t = owner) by (rewrite Ht; reflexivity).
  assert (Hc : task_completed t = false) by (rewrite Ht; reflexivity).
  split; [|split; [|split; [|split; [|split]]]].
  - apply listed_In. auto.
  - apply listed_In. split; [exact Hin|]. split; [exact Hu|].
    unfold wanted. simpl. rewrite Hc. reflexivity.
  - intros Hl. apply listed_In in Hl as (_ & _ & Hl).
    unfold wanted in Hl. simpl in Hl. rewrite Hc in Hl. discriminate Hl.
  - intros other status Hl. apply listed_In in Hl as (_ & Hl & _). congruence.
  - intros status r Hr. apply listed_In in Hr as (Hr & Hru & Hrw).
    apply listed_In. split; [|auto]. rewrite Hw. simpl.
    apply in_or_app. left. exact Hr.
  - rewrite !listed_Permutation, Hw. simpl. unfold tasks_of.
    rewrite !List.filter_app, !length_app. simpl.
    rewrite (bool_decide_eq_true_2 _ Hu). simpl. lia.
Qed.

Lemma added_task_is_listed_witness :
  In (mkTask 2 u1 (lit "walk dog") None false 5 5)
     (listed u1 (lit "incomplete")
        (fst (add_task (P := ascii_postgres) u1 (lit "walk dog") None 5 one_task))).
Proof.
  refine (proj1 (proj2 (added_task_is_listed (P := ascii_postgres) u1
                          (lit "walk dog") None 5 one_task _ _ one_task_keyed _))).
  vm_compute. reflexivity.
Defined.

(** ** The tools, branch by branch *)

Lemma store_store (t1 t2 : Task) (s : Session) :
  task_pk t2 = task_pk t1 ->
  fst (store_task t2 (fst (store_task t1 s))) = fst (store_task t2 s).
Proof.
  intros Hpk. unfold store_task, with_tasks. simpl. f_equal. f_equal.
  rewrite <- list_fmap_compose. apply list_fmap_ext. intros i r _. simpl.
  destruct (decide (task_pk r = task_pk t1)) as [E|E].
  - rewrite !decide_True by congruence. reflexivity.
  - reflexivity.
Qed.

Lemma last_steps (t0 t : Task) (s : Session) :
  keyed (task_seq s) (tasks (working s)) ->
  In t0 (tasks (working s)) -> task_pk t = task_pk t0 ->
  (store_task t ;;; commit ;;; task <- refresh t ;; ret (ResTask task))%py s
  = (fst (commit (fst (store_task t s))), inr (ResTask t)).
Proof.
  intros Hk Hin Hpk.
  destruct (working_store s t0 t Hk Hin Hpk) as [Hk1 Hin1].
  rewrite run_store, run_commit, run_refresh; [reflexivity|apply Hk1|exact Hin1].
Qed.

Lemma complete_task_run `{P : Platform} (owner : pystr)
    (tid title : option pystr) (now : Z) (s : Session) :
  keyed (task_seq s) (tasks (working s)) ->
  complete_task owner tid title now s =
  if negb (truthy_opt tid) && negb (truthy_opt title) then
    (s, inr (ResError "Must provide either task_id or title" None))
  else
    match resolution_of owner tid title (tasks (working s)) with
    | inr (Resolved t) =>
        (fst (commit (fst (store_task (set_completed t now) s))),
         inr (ResTask (set_completed t now)))
    | r => (s, unresolved_answer r)
    end.
Proof.
  intros Hk. unfold complete_task.
  destruct (negb (truthy_opt tid) && negb (truthy_opt title)); [reflexivity|].
  rewrite run_bind, resolve_rows.
  destruct (resolve_spec owner tid title s) as [_ Hres].
  rewrite resolve_rows in Hres. simpl in Hres.
  destruct (resolution_of owner tid title (tasks (working s)))
    as [e|[t| |ts]]; try reflexivity.
  destruct Hres as [Hin _].
  apply (last_steps t (set_completed t now) s Hk Hin eq_refl).
Qed.

Lemma delete_task_run `{P : Platform} (owner : pystr)
    (tid title : option pystr) (s : Session) :
  delete_task owner tid title s =
  if negb (truthy_opt tid) && negb (truthy_opt title) then
    (s, inr (ResError "Must provide either task_id or title" None))
  else
    match resolution_of owner tid title (tasks (working s)) with
    | inr (Resolved t) =>
        (fst (commit (fst (delete_row t s))), inr (ResDeleted (task_pk t)))
    | r => (s, unresolved_answer r)
    end.
Proof.
  unfold delete_task.
  destruct (negb (truthy_opt tid) && negb (truthy_opt title)); [reflexivity|].
  rewrite run_bind, resolve_rows.
  destruct (resolution_of owner tid title (tasks (working s)))
    as [e|[t| |ts]]; reflexivity.
Qed.

Lemma last_steps_sending (texts : list pystr) (t0 t : Task) (s : Session) :
  keyed (task_seq s) (tasks (working s)) ->
  In t0 (tasks (working s)) -> task_pk t = task_pk t0 ->
  (store_task t ;;; commit_sending texts ;;; task <- refresh t ;;
   ret (ResTask task))%py s
  = match send_texts texts with
    | inl e => (fst (rollback s), inl e)
    | inr _ => (fst (commit (fst (store_task t s))), inr (ResTask t))
    end.
Proof.
  intros Hk Hin Hpk.
  destruct (working_store s t0 t Hk Hin Hpk) as [Hk1 Hin1].
  rewrite run_store, run_commit_sending.
  destruct (send_texts texts); [reflexivity|].
  rewrite run_refresh; [reflexivity|apply Hk1|exact Hin1].
Qed.

Lemma update_task_run `{P : Platform} (owner : pystr)
    (tid old_title title description : option pystr) (now : Z) (s : Session) :
  keyed (task_seq s) (tasks (working s)) ->
  update_task owner tid old_title title description now s =
  if negb (truthy_opt tid) && negb (truthy_opt old_title) then
    (s, inr (ResError "Must provide either task_id or old_title" None))
  else if is_None title && is_None description then
    (s, inr (ResError "At least one field (title or description) must be provided"
                      None))
  else
    match resolution_of owner tid old_title (tasks (working s)) with
    | inr (Resolved t) =>
        match update_fields t title description with
        | inr t1 =>
            match send_texts (assigned_texts title description) with
            | inl e => (fst (rollback s), inl e)
            | inr _ =>
                (fst (commit (fst (store_task (set_updated_at t1 now) s))),
                 inr (ResTask (set_updated_at t1 now)))
            end
        | inl (error, assigned) =>
            (if assigned
             then fst (store_task (set_title t (strip (default [] title))) s)
             else s,
             inr (ResError error None))
        end
    | r => (s, unresolved_answer r)
    end.
Proof.
  intros Hk. unfold update_task.
  destruct (negb (truthy_opt tid) && negb (truthy_opt old_title)); [reflexivity|].
  destruct (is_None title && is_None description); [reflexivity|].
  rewrite run_bind, resolve_rows.
  destruct (resolve_spec owner tid old_title s) as [_ Hres].
  rewrite resolve_rows in Hres. simpl in Hres.
  destruct (resolution_of owner tid old_title (tasks (working s)))
    as [e|[t| |ts]]; try reflexivity.
  destruct Hres as [Hin _].
  generalize (assigned_texts title description). intros texts.
  assert (Hdesc : forall s1 t1, keyed (task_seq s1) (tasks (working s1)) ->
            In t1 (tasks (working s1)) ->
            (after_description <-
               match description with
               | Some new_description =>
                   if (1000 <? length new_description)%nat then
                     ret (inl (ResError "Description must be 1000 characters or less" None))
                   else
                     let task :=
                       set_description t1
                         (if truthy new_description
                          then Some (strip new_description) else None) in
                     (store_task task ;;; ret (inr task))
               | None => ret (inr t1)
               end ;;
             match after_description with
             | inl error_result => ret error_result
             | inr task =>
                 let task := set_updated_at task now in
                 (store_task task ;;;
                  commit_sending texts ;;;
                  task <- refresh task ;;
                  ret (ResTask task))
             end)%py s1
            = match description with
              | Some d =>
                  if (1000 <? length d)%nat then
                    (s1, inr (ResError "Description must be 1000 characters or less" None))
                  else
                    let t2 := set_updated_at
                                (set_description t1
                                   (if truthy d then Some (strip d) else None)) now in
                    match send_texts texts with
                    | inl e => (fst (rollback s1), inl e)
                    | inr _ => (fst (commit (fst (store_task t2 s1))), inr (ResTask t2))
                    end
              | None =>
                  match send_texts texts with
                  | inl e => (fst (rollback s1), inl e)
                  | inr _ =>
                      (fst (commit (fst (store_task (set_updated_at t1 now) s1))),
                       inr (ResTask (set_updated_at t1 now)))
                  end
              end).
  { intros s1 t1 Hk1 Hin1. destruct description as [d|].
    - destruct (1000 <? length d)%nat; [reflexivity|]. cbv zeta.
      rewrite run_assoc, run_store, run_ret.
      destruct (working_store s1 t1
                  (set_description t1 (if truthy d then Some (strip d) else None))
                  Hk1 Hin1 eq_refl) as [Hk2 Hin2].
      cbv beta iota zeta.
      rewrite (last_steps_sending texts
                 (set_description t1 (if truthy d then Some (strip d) else None))
                 (set_updated_at (set_description t1 (if truthy d then Some (strip d) else None)) now)
                 _ Hk2 Hin2 eq_refl).
      destruct (send_texts texts); [reflexivity|].
      rewrite store_store by reflexivity. reflexivity.
    - rewrite run_ret. cbv beta iota zeta.
      apply (last_steps_sending texts t1 (set_updated_at t1 now) s1 Hk1 Hin1 eq_refl). }
  unfold update_fields. destruct title as [new_title|].
  - destruct (negb (truthy new_title) || (255 <? length new_title)%nat);
      [reflexivity|]. cbv zeta.
    rewrite run_assoc, run_store, run_ret.
    destruct (working_store s t (set_title t (strip new_title)) Hk Hin eq_refl)
      as [Hk2 Hin2].
    specialize (Hdesc _ _ Hk2 Hin2).
    cbv beta iota zeta in Hdesc |- *. rewrite Hdesc.
    destruct description as [d|].
    + destruct (1000 <? length d)%nat; [reflexivity|].
      destruct (send_texts texts); [reflexivity|].
      rewrite store_store by reflexivity. reflexivity.
    + destruct (send_texts texts); [reflexivity|].
      rewrite store_store by reflexivity. reflexivity.
  - rewrite run_ret. specialize (Hdesc _ _ Hk Hin).
    cbv beta iota zeta in Hdesc |- *. rewrite Hdesc.
    destruct description as [d|]; [|reflexivity].
    destruct (1000 <? length d)%nat; reflexivity.
Qed.

(** ** What an update stores *)

(** X8.  What a successful [update_task] stores.  The returned task is a
    task of the caller with its id, completion flag and creation time as
    before; the title is the trimmed new title if one was given, the
    description is the trimmed new description if a non-empty one was
    given and is cleared by the empty string, a field that was not given
    is unchanged, and [updated_at] is the time of the call.  That row
    replaces the old one in the database and no other row changes. *)
Theorem update_task_changes_given_fields `{P : Platform} (owner : pystr)
    (tid old_title title description : option pystr) (now : Z)
    (s s' : Session) (t' : Task) :
  keyed (task_seq s) (tasks (working s)) ->
  update_task owner tid old_title title description now s = (s', inr (ResTask t')) ->
  exists t,
    In t (tasks (working s)) /\ task_user_id t = owner /\
    t' = mkTask (task_pk t) owner
           (match title with
            | Some new_title => strip new_title
            | None => task_title t
            end)
           (match description with
            | Some d => if truthy d then Some (strip d) else None
            | None => task_description t
            end)
           (task_completed t) (task_created_at t) now /\
    tasks (committed s')
    = (fun r => if decide (task_pk r = task_pk t) then t' else r)
        <$> tasks (working s) /\
    committed s' = working s'.
Proof.
  intros Hk. rewrite (update_task_run owner _ _ _ _ now s Hk).
  destruct (negb (truthy_opt tid) && negb (truthy_opt old_title)); [discriminate|].
  destruct (is_None title && is_None description); [discriminate|].
  destruct (resolve_spec owner tid old_title s) as [_ Hres].
  rewrite resolve_rows in Hres. simpl in Hres.
  destruct (resolution_of owner tid old_title (tasks (working s)))
    as [e|[t| |ts]]; try discriminate.
  destruct Hres as [Hin Hu].
  destruct (update_fields t title description) as [[error assigned]|t1] eqn:Hf;
    [discriminate|].
  destruct (send_texts _); [discriminate|].
  intros [= <- <-]. exists t. split; [exact Hin|]. split; [exact Hu|].
  assert (Ht1 : set_updated_at t1 now
                = mkTask (task_pk t) owner
                    (match title with
                     | Some new_title => strip new_title
                     | None => task_title t
                     end)
                    (match description with
                     | Some d => if truthy d then Some (strip d) else None
                     | None => task_description t
                     end)
                    (task_completed t) (task_created_at t) now).
  { revert Hf. unfold update_fields. rewrite <- Hu.
    destruct title as [new_title|], description as [d|];
      repeat match goal with
             | |- context [if ?b then _ else _] => destruct b
             end;
      intros [= <-]; reflexivity. }
  assert (Hpk : task_pk t1 = task_pk t) by exact (f_equal task_pk Ht1).
  split; [exact Ht1|]. split; [|reflexivity].
  rewrite Ht1. simpl. rewrite Hpk. reflexivity.
Qed.

Lemma update_task_changes_given_fields_witness :
  exists t,
    In t (tasks (working one_task)) /\ task_user_id t = u1 /\
    mkTask 1 u1 (lit "tea") None false 0 5
    = mkTask (task_pk t) u1 (strip (lit " tea ")) None
             (task_completed t) (task_created_at t) 5.
Proof.
  destruct (update_task_changes_given_fields (P := ascii_postgres) u1
              (Some (lit "1")) None (Some (lit " tea ")) (Some (lit "")) 5
              one_task
              (fst (update_task (P := ascii_postgres) u1 (Some (lit "1")) None
                      (Some (lit " tea ")) (Some (lit "")) 5 one_task))
              (mkTask 1 u1 (lit "tea") None false 0 5) one_task_keyed)
    as (t & Hin & Hu & Ht & _); [vm_compute; reflexivity|].
  exists t. auto.
Defined.





(** ** Answers that change nothing *)

Lemma resolution_multiple `{P : Platform} (owner : pystr)
    (tid title : option pystr) (rows ts : list Task) :
  resolution_of owner tid title rows = inr (MultipleMatches ts) ->
  exists fragment,
    title = Some fragment /\ truthy fragment = true /\
    resolution_of owner tid None rows = inr NotFound /\
    ts = title_matches owner (lit "%" ++ fragment ++ lit "%") rows /\
    (2 <= length ts)%nat.
Proof.
  unfold resolution_of.
  destruct (match tid with Some _ => _ | None => _ end) as [t|]; [discriminate|].
  destruct title as [fragment|]; [|discriminate].
  destruct (truthy fragment) eqn:Ht; [|discriminate].
  destruct (lookup_by_title _ _ _) as [e|[|t [|t' rest]]] eqn:Hq; try discriminate.
  intros [= <-]. exists fragment. split; [reflexivity|]. split; [exact Ht|].
  split; [reflexivity|]. split; [exact (lookup_by_title_returned _ _ _ _ Hq)|].
  simpl. lia.
Qed.

Lemma complete_task_multiple `{P : Platform} (owner : pystr)
    (task_id title : option pystr) (now : Z) (s s' : Session)
    (candidates : list Candidate) :
  complete_task owner task_id title now s
  = (s', inr (ResMultipleMatches candidates)) ->
  s' = s /\
  exists ts, resolution_of owner task_id title (tasks (working s))
             = inr (MultipleMatches ts) /\
             candidates = candidate_of <$> ts.
Proof.
  unfold complete_task.
  destruct (negb (truthy_opt task_id) && negb (truthy_opt title)); [discriminate|].
  rewrite run_bind, resolve_rows.
  destruct (resolution_of owner task_id title (tasks (working s)))
    as [e|[t| |ts]] eqn:Hres; try discriminate.
  - rewrite run_store, run_commit, run_bind.
    destruct (refresh _ _) as [s2 [e|t2]]; discriminate.
  - intros [= <- <-]. split; [reflexivity|]. exists ts. auto.
Qed.

Lemma delete_task_multiple `{P : Platform} (owner : pystr)
    (task_id title : option pystr) (s s' : Session)
    (candidates : list Candidate) :
  delete_task owner task_id title s
  = (s', inr (ResMultipleMatches candidates)) ->
  s' = s /\
  exists ts, resolution_of owner task_id title (tasks (working s))
             = inr (MultipleMatches ts) /\
             candidates = candidate_of <$> ts.
Proof.
  rewrite delete_task_run.
  destruct (negb (truthy_opt task_id) && negb (truthy_opt title)); [discriminate|].
  destruct (resolution_of owner task_id title (tasks (working s)))
    as [e|[t| |ts]] eqn:Hres; try discriminate.
  intros [= <- <-]. split; [reflexivity|]. exists ts. auto.
Qed.

Lemma update_task_multiple `{P : Platform} (owner : pystr)
    (task_id old_title title description : option pystr) (now : Z)
    (s s' : Session) (candidates : list Candidate) :
  update_task owner task_id old_title title description now s
  = (s', inr (ResMultipleMatches candidates)) ->
  s' = s /\
  exists ts, resolution_of owner task_id old_title (tasks (working s))
             = inr (MultipleMatches ts) /\
             candidates = candidate_of <$> ts.
Proof.
  unfold update_task.
  destruct (negb (truthy_opt task_id) && negb (truthy_opt old_title));
    [discriminate|].
  destruct (is_None title && is_None description); [discriminate|].
  rewrite run_bind, resolve_rows.
  destruct (resolution_of owner task_id old_title (tasks (working s)))
    as [e|[t| |ts]] eqn:Hres; try discriminate.
  - generalize (assigned_texts title description). intros texts.
    assert (Hlast : forall s1 t1 s2 r,
              (store_task (set_updated_at t1 now) ;;;
               commit_sending texts ;;;
               task <- refresh (set_updated_at t1 now) ;;
               ret (ResTask task))%py s1 = (s2, inr r) ->
              exists t2, r = ResTask t2).
    { intros s1 t1 s2 r. rewrite run_store, run_commit_sending.
      destruct (send_texts texts); [discriminate|]. rewrite run_bind.
      destruct (refresh _ _) as [s3 [e|t2]]; [discriminate|].
      intros [= _ <-]. eauto. }
    destruct title as [new_title|].
    + destruct (negb (truthy new_title) || (255 <? length new_title)%nat);
        [discriminate|].
      cbv zeta. rewrite run_assoc, run_store, run_ret. cbv beta iota.
      destruct description as [d|].
      * destruct (1000 <? length d)%nat; [discriminate|].
        cbv zeta. rewrite run_assoc, run_store, run_ret. cbv beta iota zeta.
        intros Hrun. apply Hlast in Hrun as [t2 Ht2]. discriminate Ht2.
      * rewrite run_ret. cbv beta iota zeta.
        intros Hrun. apply Hlast in Hrun as [t2 Ht2]. discriminate Ht2.
    + rewrite run_ret. cbv beta iota.
      destruct description as [d|].
      * destruct (1000 <? length d)%nat; [discriminate|].
        cbv zeta. rewrite run_assoc, run_store, run_ret. cbv beta iota zeta.
        intros Hrun. apply Hlast in Hrun as [t2 Ht2]. discriminate Ht2.
      * rewrite run_ret. cbv beta iota zeta.
        intros Hrun. apply Hlast in Hrun as [t2 Ht2]. discriminate Ht2.
  - intros [= <- <-]. split; [reflexivity|]. exists ts. auto.
Qed.

(** X10.  Only [complete_task], [delete_task] and [update_task] answer
    [multiple_matches].  They do so when they were given a title fragment
    and the id, if any, named no task of the caller; the session is then
    untouched, and the candidates are, in some order, the rows of the
    caller whose title the database matches against the supplied fragment
    between two [%], of which there are at least two. *)
Theorem ambiguous_lookup_changes_nothing `{P : Platform} (owner : pystr)
    (s s' : Session) (candidates : list Candidate) :
  (forall title description status now,
     add_task owner title description now s
     <> (s', inr (ResMultipleMatches candidates)) /\
     list_tasks owner status s <> (s', inr (ResMultipleMatches candidates))) /\
  (forall task_id title new_title description now,
     complete_task owner task_id title now s
     = (s', inr (ResMultipleMatches candidates)) \/
     delete_task owner task_id title s
     = (s', inr (ResMultipleMatches candidates)) \/
     update_task owner task_id title new_title description now s
     = (s', inr (ResMultipleMatches candidates)) ->
     s' = s /\
     (2 <= length candidates)%nat /\
     exists fragment,
       title = Some fragment /\ truthy fragment = true /\
       resolution_of owner task_id None (tasks (working s)) = inr NotFound /\
       candidates
       ≡ₚ candidate_of <$> title_matches owner (lit "%" ++ fragment ++ lit "%")
                                          (tasks (working s))).
Proof.
  split.
  - intros title description status now. split.
    + rewrite add_task_run.
      repeat match goal with
             | |- context [if ?b then _ else _] => destruct b; [discriminate|]
             end.
      destruct (lookup_by_title _ _ _) as [e|[|existing rest]]; try discriminate.
      cbv zeta. destruct (send_texts _); [discriminate|].
      destruct (refresh _ _) as [s2 [e|t]]; discriminate.
    + discriminate.
  - intros task_id title new_title description now Hrun.
    assert (Hfound : s' = s /\
              exists ts, resolution_of owner task_id title (tasks (working s))
                         = inr (MultipleMatches ts) /\
                         candidates = candidate_of <$> ts).
    { destruct Hrun as [Hrun|[Hrun|Hrun]].
      - exact (complete_task_multiple _ _ _ _ _ _ _ Hrun).
      - exact (delete_task_multiple _ _ _ _ _ _ Hrun).
      - exact (update_task_multiple _ _ _ _ _ _ _ _ _ Hrun). }
    destruct Hfound as (-> & ts & Hres & ->).
    destruct (resolution_multiple _ _ _ _ _ Hres)
      as (fragment & Htitle & Htruthy & Hid & -> & Hlen).
    split; [reflexivity|]. split; [rewrite length_fmap; exact Hlen|].
    exists fragment. auto.
Qed.

Lemma ambiguous_lookup_changes_nothing_witness :
  fst (complete_task (P := ascii_postgres) u1 None (Some (lit "buy")) 5
         two_purchases)
  = two_purchases /\
  [mkCandidate 1 (lit "buy milk") false; mkCandidate 2 (lit "buy bread") false]
  ≡ₚ candidate_of <$> title_matches (P := ascii_postgres) u1 (lit "%buy%")
                        (tasks (working two_purchases)).
Proof.
  destruct (proj2 (ambiguous_lookup_changes_nothing (P := ascii_postgres) u1
                     two_purchases
                     (fst (complete_task (P := ascii_postgres) u1 None
                             (Some (lit "buy")) 5 two_purchases))
                     [mkCandidate 1 (lit "buy milk") false;
                      mkCandidate 2 (lit "buy bread") false])
              None (Some (lit "buy")) None None 5)
    as (Hs & _ & fragment & Hfragment & _ & _ & Hcandidates).
  - left. vm_compute. reflexivity.
  - split; [exact Hs|]. injection Hfragment as <-. exact Hcandidates.
Defined.

(** ** Where an error answer leaves the session and the database *)

(** X11.  When a tool answers with an error, the database is what it was
    before the call, and the session is as it was, or rolled back (a
    failed lookup or insert of [add_task]), or holds the one uncommitted new title
    that [update_task] assigned before it refused the description. *)
Theorem error_answer_leaves_database `{P : Platform} (owner : pystr)
    (tool : M ToolResult) (s : Session) (error : string)
    (details : option string) :
  invoked_for owner tool ->
  keyed (task_seq s) (tasks (working s)) ->
  snd (tool s) = inr (ResError error details) ->
  committed (fst (tool s)) = committed s /\
  (fst (tool s) = s \/
   fst (tool s) = fst (rollback s) \/
   exists t new_title,
     In t (tasks (working s)) /\ task_user_id t = owner /\
     error = "Description must be 1000 characters or less" /\
     fst (tool s) = fst (store_task (set_title t (strip new_title)) s)).
Proof.
  intros Htool Hk. destruct Htool.
  - rewrite add_task_run.
    destruct (bool_decide _); [auto|].
    destruct (255 <? _)%nat; [auto|].
    destruct (1000 <? _)%nat; [auto|].
    destruct (lookup_by_title _ _ _) as [e|[|existing rest]]; [auto| |auto].
    cbv zeta. destruct (send_texts _) as [e|[]] eqn:Hsend; [auto|].
    assert (Hr := refresh_added s
                    (fun i => mkTask i owner (normalized title)
                                (stored_description description) false now now)
                    Hk (fun i => eq_refl) Hsend).
    cbv beta iota zeta in Hr |- *. rewrite Hr. discriminate.
  - discriminate.
  - rewrite (complete_task_run owner _ _ now s Hk).
    destruct (negb (truthy_opt task_id) && negb (truthy_opt title)); [auto|].
    destruct (resolution_of owner task_id title (tasks (working s)))
      as [e|[t| |ts]]; try discriminate; auto.
  - rewrite delete_task_run.
    destruct (negb (truthy_opt task_id) && negb (truthy_opt title)); [auto|].
    destruct (resolution_of owner task_id title (tasks (working s)))
      as [e|[t| |ts]]; try discriminate; auto.
  - rewrite (update_task_run owner _ _ _ _ now s Hk).
    destruct (negb (truthy_opt task_id) && negb (truthy_opt old_title)); [auto|].
    destruct (is_None title && is_None description); [auto|].
    destruct (resolve_spec owner task_id old_title s) as [_ Hres].
    rewrite resolve_rows in Hres. simpl in Hres.
    destruct (resolution_of owner task_id old_title (tasks (working s)))
      as [e|[t| |ts]]; try discriminate; auto.
    destruct Hres as [Hin Hu].
    destruct (update_fields t title description) as [[msg assigned]|t1] eqn:Hf;
      [|destruct (send_texts _); discriminate].
    destruct assigned; [|auto].
    simpl. intros [= <- <-]. split; [reflexivity|].
    right. right. exists t, (default [] title).
    split; [exact Hin|]. split; [exact Hu|]. split; [|reflexivity].
    revert Hf. unfold update_fields.
    destruct title as [new_title|], description as [d|];
      repeat match goal with
             | |- context [if ?b then _ else _] => destruct b
             end;
      intros [= <-]; reflexivity.
Qed.

Lemma error_answer_leaves_database_witness :
  committed (fst (update_task (P := ascii_postgres) u1 (Some (lit "1")) None
                    (Some (lit "buy bread")) (Some long_description) 50 one_task))
  = committed one_task.
Proof.
  refine (proj1 (error_answer_leaves_database (P := ascii_postgres) u1
                   (update_task u1 (Some (lit "1")) None (Some (lit "buy bread"))
                                (Some long_description) 50)
                   one_task "Description must be 1000 characters or less" None
                   (invoked_update u1 _ _ _ _ 50) one_task_keyed _)).
  vm_compute. reflexivity.
Defined.

(** ** The tool schema and the dispatcher *)

Lemma where_ilike_raises `{P : Platform} (pattern : pystr) (rows : list Task)
    (e : exn) :
  where_ilike pattern rows = inl e -> exists msg, e = DatabaseError msg.
Proof.
  induction rows as [|r rows IH]; simpl; [discriminate|].
  destruct (ilike (task_title r) pattern).
  - destruct (where_ilike pattern rows) as [e'|found]; [|discriminate].
    intros [= <-]. apply IH. reflexivity.
  - exact IH.
  - intros [= <-]. eauto.
Qed.

Lemma send_text_raises (text : pystr) (e : exn) :
  send_text text = inl e -> tool_outcome (@inl exn ToolResult e).
Proof.
  unfold send_text. destruct (has_surrogate text).
  - intros [= <-]. simpl. discriminate.
  - destruct (has_nul text); [|discriminate]. intros [= <-]. simpl. discriminate.
Qed.

Lemma send_texts_raises (texts : list pystr) (e : exn) :
  send_texts texts = inl e -> tool_outcome (@inl exn ToolResult e).
Proof.
  induction texts as [|text texts IH]; simpl; [discriminate|].
  destruct (send_text text) as [e'|u] eqn:Hsend; [|exact IH].
  intros [= <-]. exact (send_text_raises _ _ Hsend).
Qed.

Lemma lookup_raises `{P : Platform} (owner pattern : pystr) (rows : list Task)
    (e : exn) :
  lookup_by_title owner pattern rows = inl e ->
  tool_outcome (@inl exn ToolResult e).
Proof.
  unfold lookup_by_title.
  destruct (send_text pattern) as [e'|u] eqn:Hsend.
  { intros [= <-]. exact (send_text_raises _ _ Hsend). }
  assert (Hdb : forall l, where_ilike pattern l = inl e ->
                          tool_outcome (@inl exn ToolResult e)).
  { intros l Hq. destruct (where_ilike_raises _ _ _ Hq) as [msg ->]. exact I. }
  destruct owner_first; [apply Hdb|].
  destruct (where_ilike pattern rows) as [e'|found] eqn:Hq; [|discriminate].
  intros [= <-]. exact (Hdb _ Hq).
Qed.

Lemma resolution_raises `{P : Platform} (owner : pystr)
    (tid title : option pystr) (rows : list Task) (e : exn) :
  resolution_of owner tid title rows = inl e ->
  tool_outcome (@inl exn ToolResult e).
Proof.
  unfold resolution_of.
  destruct (match tid with Some _ => _ | None => _ end) as [t|]; [discriminate|].
  destruct title as [fragment|]; [|discriminate].
  destruct (truthy fragment); [|discriminate].
  destruct (lookup_by_title _ _ _) as [e'|[|t [|t' rest]]] eqn:Hq; try discriminate.
  intros [= <-]. exact (lookup_raises _ _ _ _ Hq).
Qed.

Lemma stored_outcome (t : Task) (s : Session) :
  tool_outcome
    (snd ((store_task t ;;; commit ;;; task <- refresh t ;; ret (ResTask task))%py s)).
Proof.
  rewrite run_store, run_commit, run_bind. unfold refresh.
  destruct (List.filter _ _); exact I.
Qed.

Lemma sent_outcome (texts : list pystr) (t : Task) (s : Session) :
  tool_outcome
    (snd ((store_task t ;;; commit_sending texts ;;; task <- refresh t ;;
           ret (ResTask task))%py s)).
Proof.
  rewrite run_store, run_commit_sending.
  destruct (send_texts texts) as [e|u] eqn:Hsend.
  - exact (send_texts_raises _ _ Hsend).
  - rewrite run_bind. unfold refresh. destruct (List.filter _ _); exact I.
Qed.

Lemma tool_outcomes `{P : Platform} (owner : pystr) (tool : M ToolResult)
    (s : Session) :
  invoked_for owner tool -> tool_outcome (snd (tool s)).
Proof.
  intros Htool. destruct Htool.
  - rewrite add_task_run.
    repeat match goal with
           | |- context [if ?b then _ else _] => destruct b; [simpl; discriminate|]
           end.
    destruct (lookup_by_title _ _ _) as [e|[|existing rest]];
      [simpl; discriminate| |exact I].
    cbv zeta. destruct (send_texts _); [simpl; discriminate|].
    destruct (refresh _ _) as [s2 [e|t]]; [simpl; discriminate|exact I].
  - exact I.
  - unfold complete_task.
    destruct (negb (truthy_opt task_id) && negb (truthy_opt title));
      [simpl; discriminate|].
    rewrite run_bind, resolve_rows.
    destruct (resolution_of owner task_id title (tasks (working s)))
      as [e|[t| |ts]] eqn:Hres.
    + exact (resolution_raises _ _ _ _ _ Hres).
    + apply stored_outcome.
    + simpl. discriminate.
    + exact I.
  - rewrite delete_task_run.
    destruct (negb (truthy_opt task_id) && negb (truthy_opt title));
      [simpl; discriminate|].
    destruct (resolution_of owner task_id title (tasks (working s)))
      as [e|[t| |ts]] eqn:Hres.
    + exact (resolution_raises _ _ _ _ _ Hres).
    + exact I.
    + simpl. discriminate.
    + exact I.
  - unfold update_task.
    destruct (negb (truthy_opt task_id) && negb (truthy_opt old_title));
      [simpl; discriminate|].
    destruct (is_None title && is_None description); [simpl; discriminate|].
    rewrite run_bind, resolve_rows.
    destruct (resolution_of owner task_id old_title (tasks (working s)))
      as [e|[t| |ts]] eqn:Hres.
    + exact (resolution_raises _ _ _ _ _ Hres).
    + generalize (assigned_texts title description). intros texts.
      destruct title as [new_title|].
      * destruct (negb (truthy new_title) || (255 <? length new_title)%nat);
          [simpl; discriminate|].
        cbv zeta. rewrite run_assoc, run_store, run_ret. cbv beta iota.
        destruct description as [d|].
        -- destruct (1000 <? length d)%nat; [simpl; discriminate|].
           cbv zeta. rewrite run_assoc, run_store, run_ret. cbv beta iota zeta.
           apply sent_outcome.
        -- rewrite run_ret. cbv beta iota zeta. apply sent_outcome.
      * rewrite run_ret. cbv beta iota.
        destruct description as [d|].
        -- destruct (1000 <? length d)%nat; [simpl; discriminate|].
           cbv zeta. rewrite run_assoc, run_store, run_ret. cbv beta iota zeta.
           apply sent_outcome.
        -- rewrite run_ret. cbv beta iota zeta. apply sent_outcome.
    + simpl. discriminate.
    + exact I.
Qed.

(** Through the two handlers, a tool's outcome never reads "Unknown
    tool". *)
Lemma handled_outcome (tool : M ToolResult) (s : Session) (name : string) :
  tool_outcome (snd (tool s)) ->
  snd (try_except tool error_result_of s)
  <> inr (ResError ("Unknown tool: " ++ name)%string None).
Proof.
  rewrite run_try. destruct (tool s) as [s1 [e|res]]; simpl.
  - destruct e as [key|msg|msg|msg|code detail];
      try (intros He; try destruct He; discriminate).
    destruct msg as [|c msg]; intros He; [destruct He|].
    intros [= Hc' _]. exact (He Hc').
  - destruct res as [[|c error] details| | | | |]; try discriminate.
    intros Hc [= Hc' _]. apply Hc. exact Hc'.
Qed.

(** Settles the comparisons of the tool name with the five known names. *)
Ltac dispatch :=
  repeat match goal with
         | |- context [decide (?a = ?b)] =>
             let E := fresh "E" in
             destruct (decide (a = b)) as [E|E];
             [try discriminate E | try (exfalso; apply E; reflexivity)]
         end.

(** X12.  The dispatcher knows exactly the tools of the schema: a call is
    answered with "Unknown tool: <name>" if and only if [get_cohere_tools]
    lists no tool of that name. *)
Theorem schema_names_are_dispatched `{P : Platform} (name : string)
    (parameters : gmap string pystr) (now : Z) (s : Session) :
  In name (tool_name <$> get_cohere_tools) <->
  snd (execute_tool name parameters now s)
  <> inr (ResError ("Unknown tool: " ++ name)%string None).
Proof.
  split.
  - intros Hin. simpl in Hin. unfold execute_tool, item.
    destruct (parameters !! "user_id") as [user_id|];
      [|destruct Hin as [<-|[<-|[<-|[<-|[<-|[]]]]]]; dispatch; discriminate].
    destruct Hin as [<-|[<-|[<-|[<-|[<-|[]]]]]]; dispatch.
    + destruct (parameters !! "title") as [title|]; [|discriminate].
      apply (handled_outcome
               (add_task user_id title (parameters !! "description") now) s).
      apply (tool_outcomes user_id). constructor.
    + apply (handled_outcome
               (list_tasks user_id (default (lit "all") (parameters !! "status"))) s).
      apply (tool_outcomes user_id). constructor.
    + apply (handled_outcome
               (complete_task user_id (parameters !! "task_id")
                              (parameters !! "title") now) s).
      apply (tool_outcomes user_id). constructor.
    + apply (handled_outcome
               (delete_task user_id (parameters !! "task_id")
                            (parameters !! "title")) s).
      apply (tool_outcomes user_id). constructor.
    + apply (handled_outcome
               (update_task user_id (parameters !! "task_id")
                            (parameters !! "old_title") (parameters !! "title")
                            (parameters !! "description") now) s).
      apply (tool_outcomes user_id). constructor.
  - intros Hrun.
    destruct (decide (In name (tool_name <$> get_cohere_tools))) as [Hin|Hout];
      [exact Hin|].
    exfalso. apply Hrun.
    rewrite (execute_tool_unknown name parameters now s Hout). reflexivity.
Qed.

(** X13.  A parameter that the schema does not declare for a tool plays no
    part in the call: with or without it, [execute_tool] runs the same. *)
Theorem undeclared_parameter_is_ignored `{P : Platform} (tool : CohereTool)
    (key : string) (value : pystr) (parameters : gmap string pystr) (now : Z) :
  In tool get_cohere_tools ->
  (In key (param_key <$> parameter_definitions tool) -> False) ->
  execute_tool (tool_name tool) (<[key := value]> parameters) now
  = execute_tool (tool_name tool) parameters now.
Proof.
  intros Hin Hkey. simpl in Hin.
  destruct Hin as [<-|[<-|[<-|[<-|[<-|[]]]]]]; simpl in Hkey |- *;
    unfold execute_tool, item; dispatch;
    rewrite !lookup_insert_ne
      by (intros Heq; apply Hkey; rewrite Heq;
          repeat first [left; reflexivity | right]);
    reflexivity.
Qed.

Lemma undeclared_parameter_is_ignored_witness :
  execute_tool (P := ascii_postgres) "add_task"
    (<["priority" := lit "high"]> {[ "user_id" := u1; "title" := lit "x" ]}) 5
  = execute_tool (P := ascii_postgres) "add_task"
      {[ "user_id" := u1; "title" := lit "x" ]} 5.
Proof.
  apply (undeclared_parameter_is_ignored (P := ascii_postgres) add_task_schema
           "priority" (lit "high")).
  - left. reflexivity.
  - simpl. intros [H|[H|[H|[]]]]; discriminate H.
Defined.

(** X14.  The parameters that the schema marks as required are the ones
    the dispatcher demands.  With all of them present, the call runs the
    tool of that name under the two handlers, with the values of the
    parameters that the schema declares for it: [add_task] with the
    [user_id], the title and the description, if any; [list_tasks] with the
    [user_id] and the status, "all" when there is none; [complete_task] and
    [delete_task] with the [user_id] and the [task_id] and title, if any;
    [update_task] with the [user_id] and the [task_id], [old_title], title
    and description, if any.  With one of them missing the call is answered
    with "Tool execution failed: '<key>'" for a required key that is
    missing, and the session is untouched. *)
Theorem required_parameters_are_demanded `{P : Platform} (tool : CohereTool)
    (parameters : gmap string pystr) (now : Z) (s : Session) :
  In tool get_cohere_tools ->
  ((forall p, In p (parameter_definitions tool) -> param_required p = true ->
              is_Some (parameters !! param_key p)) ->
   exists user_id,
     parameters !! "user_id" = Some user_id /\
     execute_tool (tool_name tool) parameters now s
     = try_except
         (if decide (tool_name tool = "add_task") then
            add_task user_id (default [] (parameters !! "title"))
                     (parameters !! "description") now
          else if decide (tool_name tool = "list_tasks") then
            list_tasks user_id (default (lit "all") (parameters !! "status"))
          else if decide (tool_name tool = "complete_task") then
            complete_task user_id (parameters !! "task_id")
                          (parameters !! "title") now
          else if decide (tool_name tool = "delete_task") then
            delete_task user_id (parameters !! "task_id") (parameters !! "title")
          else
            update_task user_id (parameters !! "task_id")
                        (parameters !! "old_title") (parameters !! "title")
                        (parameters !! "description") now)
         error_result_of s) /\
  (forall p, In p (parameter_definitions tool) -> param_required p = true ->
     parameters !! param_key p = None ->
     exists key,
       In key (param_key <$> List.filter param_required (parameter_definitions tool)) /\
       parameters !! key = None /\
       execute_tool (tool_name tool) parameters now s
       = (s, inr (ResError ("Tool execution failed: '" ++ key ++ "'")%string None))).
Proof.
  intros Hin. simpl in Hin.
  assert (Hmissing : parameters !! "user_id" = None ->
            In tool get_cohere_tools ->
            execute_tool (tool_name tool) parameters now s
            = (s, inr (ResError "Tool execution failed: 'user_id'" None))).
  { intros Hu Hin'. simpl in Hin'.
    destruct Hin' as [<-|[<-|[<-|[<-|[<-|[]]]]]]; simpl;
      unfold execute_tool, item; dispatch; rewrite Hu; reflexivity. }
  split.
  - intros Hall.
    destruct (parameters !! "user_id") as [user_id|] eqn:Hu.
    + exists user_id. split; [reflexivity|].
      destruct Hin as [<-|[<-|[<-|[<-|[<-|[]]]]]]; simpl in Hall |- *;
        unfold execute_tool, item; dispatch; rewrite Hu; try reflexivity.
      destruct (Hall (mkParameterDefinition "title"
                        "Task title (1-255 characters)" "string" true))
        as [title Ht]; [tauto|reflexivity|]. simpl in Ht. rewrite Ht.
      reflexivity.
    + exfalso.
      assert (Hneed : is_Some (parameters !! "user_id")).
      { destruct Hin as [<-|[<-|[<-|[<-|[<-|[]]]]]];
          apply (Hall (mkParameterDefinition "user_id"
                         "UUID of the authenticated user" "string" true));
          simpl; tauto. }
      rewrite Hu in Hneed. destruct Hneed as [x Hx]. discriminate Hx.
  - intros p Hp Hreq Hnone.
    destruct (parameters !! "user_id") as [user_id|] eqn:Hu.
    + destruct Hin as [<-|[<-|[<-|[<-|[<-|[]]]]]]; simpl in Hp;
        repeat (destruct Hp as [<-|Hp]; try discriminate Hreq;
                try (simpl in Hnone; congruence));
        try destruct Hp.
      exists "title". simpl in Hnone. split; [simpl; tauto|].
      split; [exact Hnone|].
      unfold execute_tool, item. simpl. dispatch. rewrite Hu, Hnone. reflexivity.
    + exists "user_id". split.
      * destruct Hin as [<-|[<-|[<-|[<-|[<-|[]]]]]]; simpl; tauto.
      * split; [exact Hu|]. apply Hmissing; [reflexivity|]. simpl. exact Hin.
Qed.

Lemma required_parameters_are_demanded_witness :
  execute_tool (P := ascii_postgres) "add_task"
    {[ "user_id" := u1; "title" := lit "x" ]} 5 two_owners
  = try_except (add_task u1 (lit "x") None 5) error_result_of two_owners /\
  exists key,
    ({[ "user_id" := u1 ]} : gmap string pystr) !! key = None /\
    execute_tool (P := ascii_postgres) "add_task" {[ "user_id" := u1 ]} 5 two_owners
    = (two_owners,
       inr (ResError ("Tool execution failed: '" ++ key ++ "'")%string None)).
Proof.
  split.
  - destruct (proj1 (required_parameters_are_demanded (P := ascii_postgres)
                       add_task_schema {[ "user_id" := u1; "title" := lit "x" ]}
                       5 two_owners (or_introl eq_refl)))
      as (user_id & Hu & Hrun).
    + intros p [<-|[<-|[<-|[]]]] Hreq; try discriminate Hreq; eexists; reflexivity.
    + injection Hu as <-. exact Hrun.
  - destruct (proj2 (required_parameters_are_demanded (P := ascii_postgres)
                       add_task_schema {[ "user_id" := u1 ]} 5 two_owners
                       (or_introl eq_refl))
                (mkParameterDefinition "title" "Task title (1-255 characters)"
                   "string" true))
      as (key & _ & Hnone & Hrun).
    + simpl. tauto.
    + reflexivity.
    + reflexivity.
    + exists key. auto.
Defined.

(** ** The history handed to the model *)

Lemma format_messages_cons (m : Message) (a : list Message) :
  format_messages_for_cohere (m :: a)
  = if spoken m then
      mkHistoryTurn (if decide (msg_role m = "user") then "USER" else "CHATBOT")
                    (msg_content m) :: format_messages_for_cohere a
    else format_messages_for_cohere a.
Proof.
  unfold spoken. simpl.
  destruct (decide (msg_role m = "user")) as [Eu|Eu].
  - rewrite (bool_decide_eq_true_2 _ Eu). reflexivity.
  - rewrite (bool_decide_eq_false_2 _ Eu).
    destruct (decide (msg_role m = "assistant")) as [Ea|Ea].
    + rewrite (bool_decide_eq_true_2 _ Ea). reflexivity.
    + rewrite (bool_decide_eq_false_2 _ Ea). reflexivity.
Qed.

(** X15.  [format_messages_for_cohere] works message by message: the
    history of a concatenation is the concatenation of the histories; the
    texts are those of the "user" and "assistant" messages, in order, with
    the roles "USER" and "CHATBOT"; messages of any other role are left
    out, so the history is never longer than the list, and as long when
    every message is of one of the two roles. *)
Theorem format_messages_keeps_order (a b : list Message) :
  format_messages_for_cohere (a ++ b)
  = format_messages_for_cohere a ++ format_messages_for_cohere b /\
  turn_message <$> format_messages_for_cohere a
  = msg_content <$> List.filter spoken a /\
  turn_role <$> format_messages_for_cohere a
  = (fun m => if decide (msg_role m = "user") then "USER" else "CHATBOT")
      <$> List.filter spoken a /\
  (length (format_messages_for_cohere a) <= length a)%nat /\
  (Forall (fun m => msg_role m = "user" \/ msg_role m = "assistant") a ->
   length (format_messages_for_cohere a) = length a).
Proof.
  split; [|split; [|split; [|split]]].
  - induction a as [|m a IH]; [reflexivity|].
    rewrite <- app_comm_cons, !format_messages_cons, IH.
    destruct (spoken m); reflexivity.
  - induction a as [|m a IH]; [reflexivity|].
    rewrite format_messages_cons. cbn [List.filter].
    destruct (spoken m); [|exact IH].
    rewrite !fmap_cons, IH. reflexivity.
  - induction a as [|m a IH]; [reflexivity|].
    rewrite format_messages_cons. cbn [List.filter].
    destruct (spoken m); [|exact IH].
    rewrite !fmap_cons, IH. reflexivity.
  - induction a as [|m a IH]; [reflexivity|].
    rewrite format_messages_cons.
    destruct (spoken m); simpl; lia.
  - induction 1 as [|m a Hm _ IH]; [reflexivity|].
    rewrite format_messages_cons.
    assert (Hs : spoken m = true).
    { unfold spoken. apply orb_true_iff.
      destruct Hm as [Hm|Hm]; [left|right]; apply bool_decide_eq_true, Hm. }
    rewrite Hs. simpl. rewrite IH. reflexivity.
Qed.

(** ** A turn that answers *)

Lemma get_or_create_conversation_run `{P : Platform} (user_id : pystr)
    (request : ChatRequest) (env : TurnEnv) (s s1 : Session)
    (conversation : Conversation) :
  get_or_create_conversation user_id request env s = (s1, inr conversation) ->
  tasks (working s1) = tasks (working s) /\
  messages (working s1) = messages (working s) /\
  In conversation (conversations (working s1)) /\
  conv_user_id conversation = user_id /\
  (if truthy_opt (req_conversation_id request)
   then uuid_of_str (default [] (req_conversation_id request))
        = Some (conv_id conversation) /\ s1 = s
   else conversation = mkConversation (conversation_uuid env) user_id
                                      (utcnow env) (utcnow env)) /\
  (committed s = working s -> committed s1 = working s1).
Proof.
  unfold get_or_create_conversation.
  destruct (truthy_opt (req_conversation_id request)).
  - destruct (uuid_of_str _) as [cid|]; [|discriminate].
    destruct (List.filter _ _) as [|c l] eqn:Hf; [discriminate|].
    intros [= <- <-].
    assert (Hin : In c (c :: l)) by now left.
    rewrite <- Hf in Hin. apply filter_In in Hin as [Hin Hc].
    apply andb_true_iff in Hc as [Hid Hu].
    apply bool_decide_eq_true in Hid, Hu. subst cid. auto 10.
  - intros [= <- <-]. simpl. repeat split; try reflexivity.
    apply in_or_app. right. now left.
Qed.

Lemma answered_turn `{P : Platform} `{L : LanguageModel}
    (token_user_id user_id : pystr) (request : ChatRequest) (env : TurnEnv)
    (s s' : Session) (response : ChatResponse) :
  chat_endpoint token_user_id user_id request env s = (s', inr response) ->
  token_user_id = user_id /\
  exists s1 conversation first s2 stored,
    get_or_create_conversation user_id request env s = (s1, inr conversation) /\
    (exists history, chat_with_tools (req_message request) history = inr first) /\
    run_tool_calls user_id (response_tool_calls first) (utcnow env) s1
    = (s2, inr (resp_tool_calls response)) /\
    store_messages conversation request (resp_message response)
                   (resp_tool_calls response) env s2 = (s', inr stored) /\
    resp_conversation_id response = conv_id conversation /\
    resp_message_id response = msg_id stored.
Proof.
  unfold chat_endpoint.
  destruct (decide (token_user_id <> user_id)) as [|Hsame]; [discriminate|].
  assert (Heq : token_user_id = user_id).
  { destruct (decide (token_user_id = user_id)); [assumption|contradiction]. }
  intros Hrun. split; [exact Heq|].
  rewrite run_try in Hrun.
  match type of Hrun with
  | context [match ?body with _ => _ end] =>
      destruct body as [s0 [e|a]] eqn:Hbody
  end; [destruct e; discriminate|].
  injection Hrun as <- <-.
  apply bind_returns in Hbody as (s1 & conversation & Hconv & Hbody).
  apply bind_returns in Hbody as (s1' & history & Hhist & Hbody).
  cbv zeta in Hbody.
  apply bind_returns in Hbody as (s1'' & first & Hfirst & Hbody).
  apply bind_returns in Hbody as (s2 & outcome & Houtcome & Hbody).
  apply bind_returns in Hbody as (s3 & stored & Hstore & Hbody).
  injection Hbody as <- <-.
  injection Hhist as <- _. unfold lift in Hfirst. injection Hfirst as <- Hfirst.
  exists s1, conversation, first, s2, stored. cbn [resp_tool_calls resp_message
    resp_conversation_id resp_message_id].
  split; [exact Hconv|]. split; [eexists; exact Hfirst|]. split; [|auto].
  destruct (response_tool_calls first) as [|c calls].
  - injection Houtcome as <- <-. reflexivity.
  - apply bind_returns in Houtcome as (s4 & results & Hresults & Houtcome).
    apply bind_returns in Houtcome as (s5 & final & Hfinal & Houtcome).
    injection Houtcome as <- <-. unfold lift in Hfinal. injection Hfinal as <- _.
    exact Hresults.
Qed.

(** X16.  A turn that answers was made under the identity of the path, and
    has appended to the messages table exactly two messages of its
    conversation, the user's text and then the reply with the tool
    results (or none), both stamped with the time of the turn.  The
    response names the assistant message and the conversation, which is
    the requested one or the new one, belongs to the user and has
    [updated_at] moved to the time of the turn. *)
Theorem answered_turn_stores_both_messages `{P : Platform} `{L : LanguageModel}
    (db db' : Tables) (seq : Z) (token_user_id user_id : pystr)
    (request : ChatRequest) (env : TurnEnv) (response : ChatResponse) :
  serve_chat db seq token_user_id user_id request env = (db', inr response) ->
  token_user_id = user_id /\
  messages db'
  = messages db ++
    [ mkMessage (user_message_uuid env) (resp_conversation_id response) "user"
                (req_message request) None (utcnow env);
      mkMessage (assistant_message_uuid env) (resp_conversation_id response)
                "assistant" (resp_message response)
                (match resp_tool_calls response with
                 | [] => None
                 | _ :: _ => Some (resp_tool_calls response)
                 end)
                (utcnow env) ] /\
  resp_message_id response = assistant_message_uuid env /\
  (if truthy_opt (req_conversation_id request)
   then uuid_of_str (default [] (req_conversation_id request))
        = Some (resp_conversation_id response)
   else resp_conversation_id response = conversation_uuid env) /\
  (exists c, In c (conversations db') /\
             conv_id c = resp_conversation_id response /\
             conv_user_id c = user_id /\ conv_updated_at c = utcnow env).
Proof.
  unfold serve_chat.
  destruct (chat_endpoint token_user_id user_id request env (mkSession db db seq))
    as [s' r] eqn:Hrun.
  intros [= <- ->].
  destruct (answered_turn _ _ _ _ _ _ _ Hrun)
    as (Hsame & s1 & conversation & first & s2 & stored &
        Hconv & _ & Htools & Hstore & Hcid & Hmid).
  destruct (get_or_create_conversation_run _ _ _ _ _ _ Hconv)
    as (Htasks1 & Hmsgs1 & Hin1 & Hu1 & Hreq & Hclean).
  specialize (Hclean eq_refl).
  assert (Hmsgs2 := keeps_messages_tool_calls (messages (working s1)) user_id
                      (response_tool_calls first) (utcnow env) s1
                      (conj eq_refl (f_equal messages Hclean))).
  assert (Hconvs2 := keeps_conversations_tool_calls (conversations (working s1))
                       user_id (response_tool_calls first) (utcnow env) s1
                       (conj eq_refl (f_equal conversations Hclean))).
  rewrite Htools in Hmsgs2, Hconvs2. cbn [fst] in Hmsgs2, Hconvs2.
  destruct Hmsgs2 as [Hmsgs2 _]. destruct Hconvs2 as [Hconvs2 _].
  apply store_messages_returned in Hstore
    as (Hstored & Hcommitted & _ & Hmessages & Hconversations).
  rewrite Hcommitted.
  split; [exact Hsame|]. split; [|split; [|split]].
  - rewrite Hmessages, Hstored, Hmsgs2, Hmsgs1, Hcid. reflexivity.
  - rewrite Hmid, Hstored. reflexivity.
  - rewrite Hcid. destruct (truthy_opt (req_conversation_id request)).
    + apply Hreq.
    + rewrite Hreq. reflexivity.
  - exists (mkConversation (conv_id conversation) (conv_user_id conversation)
                           (conv_created_at conversation) (utcnow env)).
    split; [|rewrite Hcid; auto].
    rewrite Hconversations. apply in_map_iff. exists conversation.
    split; [|rewrite Hconvs2; exact Hin1].
    rewrite decide_True by reflexivity. reflexivity.
Qed.

Lemma answered_turn_stores_both_messages_witness :
  messages (fst (@serve_chat ascii_postgres (scripted_model [])
                   (mkTables [] [] []) 1 u1 u1
                   (mkChatRequest (lit "hello") None) turn_env))
  = [ mkMessage 1001 1000 "user" (lit "hello") None 100;
      mkMessage 1002 1000 "assistant" (lit "") None 100 ].
Proof.
  refine (proj1 (proj2 (answered_turn_stores_both_messages
                          (P := ascii_postgres) (L := scripted_model [])
                          (mkTables [] [] []) _ 1 u1 u1
                          (mkChatRequest (lit "hello") None) turn_env
                          (mkChatResponse (lit "") [] 1000 1002) _))).
  vm_compute. reflexivity.
Defined.

(** X17.  A turn that answers changes tasks through its tool calls only:
    the tasks table afterwards is the one that the loop over the model's
    tool calls left in the session, one result per call; and a turn without
    tool results leaves the tasks table as it was. *)
Theorem answered_turn_changes_tasks_by_tools `{P : Platform} `{L : LanguageModel}
    (db db' : Tables) (seq : Z) (token_user_id user_id : pystr)
    (request : ChatRequest) (env : TurnEnv) (response : ChatResponse) :
  serve_chat db seq token_user_id user_id request env = (db', inr response) ->
  (exists history first,
     chat_with_tools (req_message request) history = inr first /\
     call_name <$> resp_tool_calls response = tc_name <$> response_tool_calls first /\
     tasks db'
     = tasks (working (fst (run_tool_calls user_id (response_tool_calls first)
                              (utcnow env)
                              (after_step_1 db seq user_id request env))))) /\
  (resp_tool_calls response = [] -> tasks db' = tasks db).
Proof.
  unfold serve_chat.
  destruct (chat_endpoint token_user_id user_id request env (mkSession db db seq))
    as [s' r] eqn:Hrun.
  intros [= <- ->].
  destruct (answered_turn _ _ _ _ _ _ _ Hrun)
    as (Hsame & s1 & conversation & first & s2 & stored &
        Hconv & [history Hfirst] & Htools & Hstore & Hcid & Hmid).
  destruct (get_or_create_conversation_run _ _ _ _ _ _ Hconv)
    as (Htasks1 & _).
  destruct (run_tool_calls_records user_id (utcnow env)
              (response_tool_calls first) s1) as (results & Hres & Hnames & _).
  rewrite Htools in Hres. injection Hres as <-.
  apply store_messages_returned in Hstore as (_ & Hcommitted & Htasks & _).
  rewrite Hcommitted, Htasks.
  split.
  - exists history, first. split; [exact Hfirst|]. split; [exact Hnames|].
    unfold after_step_1. rewrite Hconv. cbn [fst]. rewrite Htools. reflexivity.
  - intros Hnone. rewrite Hnone in Htools, Hnames.
    destruct (response_tool_calls first) as [|c calls]; [|discriminate Hnames].
    injection Htools as <-. exact Htasks1.
Qed.

Lemma answered_turn_changes_tasks_by_tools_witness :
  tasks (fst (@serve_chat ascii_postgres (scripted_model [])
                (committed two_owners) 3 u1 u1
                (mkChatRequest (lit "hello") None) turn_env))
  = tasks (committed two_owners).
Proof.
  refine (proj2 (answered_turn_changes_tasks_by_tools
                   (P := ascii_postgres) (L := scripted_model [])
                   (committed two_owners) _ 3 u1 u1
                   (mkChatRequest (lit "hello") None) turn_env
                   (mkChatResponse (lit "") [] 1000 1002) _) eq_refl).
  vm_compute. reflexivity.
Defined.

(** X18.  A turn under a path that is not the caller's is refused with 403.
    A turn that names a conversation by a uuid which no conversation of
    the caller carries, because there is none or because it belongs to
    another user, is refused with 404 "Conversation not found".  A turn
    whose [conversation_id] is not empty and is not a uuid is refused with
    500 "Failed to process chat message: ..." and the message of the
    database.  In the three cases the database is untouched, whatever the model
    would have said.  And a turn whose [conversation_id] is the empty
    string runs as the turn without one: it starts a new conversation. *)
Theorem foreign_conversation_is_not_found `{P : Platform} `{L : LanguageModel}
    (db : Tables) (seq : Z) (token_user_id user_id : pystr)
    (request : ChatRequest) (env : TurnEnv) :
  (token_user_id <> user_id ->
   serve_chat db seq token_user_id user_id request env
   = (db, inl (HTTPException 403 "Access denied: user_id mismatch"))) /\
  (forall text cid,
     req_conversation_id request = Some text -> truthy text = true ->
     uuid_of_str text = Some cid ->
     Forall (fun c => conv_id c = cid -> conv_user_id c <> user_id)
            (conversations db) ->
     serve_chat db seq user_id user_id request env
     = (db, inl (HTTPException 404 "Conversation not found"))) /\
  (forall text,
     req_conversation_id request = Some text -> truthy text = true ->
     uuid_of_str text = None ->
     exists msg,
       serve_chat db seq user_id user_id request env
       = (db, inl (HTTPException 500
                     ("Failed to process chat message: " ++ msg)%string))) /\
  (req_conversation_id request = Some [] ->
   serve_chat db seq token_user_id user_id request env
   = serve_chat db seq token_user_id user_id
       (mkChatRequest (req_message request) None) env).
Proof.
  split; [|split; [|split]].
  - intros Hne. unfold serve_chat, chat_endpoint.
    rewrite decide_True by exact Hne. reflexivity.
  - intros text cid Hreq Htext Hcid Hnone. unfold serve_chat, chat_endpoint.
    rewrite decide_False by (intros Hne; apply Hne; reflexivity).
    rewrite run_try, run_bind. unfold get_or_create_conversation.
    rewrite Hreq. cbn [truthy_opt from_option id]. rewrite Htext, Hcid.
    cbn [working].
    destruct (List.filter _ _) as [|c l] eqn:Hf; [reflexivity|].
    exfalso. assert (Hin : In c (c :: l)) by now left.
    rewrite <- Hf in Hin. apply filter_In in Hin as [Hin Hc].
    apply andb_true_iff in Hc as [Hid Hu].
    apply bool_decide_eq_true in Hid, Hu.
    rewrite Forall_forall in Hnone.
    exact (Hnone c (proj2 (list_elem_of_In _ _) Hin) Hid Hu).
  - intros text Hreq Htext Hcid. unfold serve_chat, chat_endpoint.
    rewrite decide_False by (intros Hne; apply Hne; reflexivity).
    rewrite run_try, run_bind. unfold get_or_create_conversation.
    rewrite Hreq. cbn [truthy_opt from_option id]. rewrite Htext, Hcid.
    eexists. reflexivity.
  - intros Hreq. unfold serve_chat. rewrite !chat_endpoint_run.
    unfold get_or_create_conversation. rewrite Hreq. reflexivity.
Qed.

Lemma foreign_conversation_is_not_found_witness :
  @serve_chat ascii_postgres (scripted_model []) (committed long_conversation) 1
    u2 u2 (mkChatRequest (lit "hello") (Some conversation_7)) turn_env
  = (committed long_conversation,
     inl (HTTPException 404 "Conversation not found")) /\
  exists msg,
    @serve_chat ascii_postgres (scripted_model []) (committed long_conversation) 1
      u1 u1 (mkChatRequest (lit "hello") (Some (lit "7"))) turn_env
    = (committed long_conversation,
       inl (HTTPException 500 ("Failed to process chat message: " ++ msg)%string)).
Proof.
  split.
  - refine (proj1 (proj2 (foreign_conversation_is_not_found
                            (P := ascii_postgres) (L := scripted_model [])
                            (committed long_conversation) 1 u2 u2
                            (mkChatRequest (lit "hello") (Some conversation_7))
                            turn_env))
              conversation_7 7%N eq_refl eq_refl _ _).
    + vm_compute. reflexivity.
    + repeat constructor. intros _. discriminate.
  - refine (proj1 (proj2 (proj2 (foreign_conversation_is_not_found
                            (P := ascii_postgres) (L := scripted_model [])
                            (committed long_conversation) 1 u1 u1
                            (mkChatRequest (lit "hello") (Some (lit "7")))
                            turn_env)))
              (lit "7") eq_refl eq_refl _).
    vm_compute. reflexivity.
Defined.

(** ** Authentication *)

Lemma user_of_email `{D : TokenDecoder} (authorization : option pystr) :
  get_current_user authorization
  = match get_current_user_with_email authorization with
    | inr (user_id, email) => inr user_id
    | inl e => inl e
    end.
Proof.
  unfold get_current_user, get_current_user_with_email.
  destruct (negb (truthy_opt authorization) || _); [reflexivity|].
  cbv zeta. destruct (jwt_decode _) as [payload| |msg]; try reflexivity.
  destruct (negb (truthy_opt _)); reflexivity.
Qed.

(** X19.  The two dependencies authenticate alike: for every header,
    [get_current_user] returns the user that
    [get_current_user_with_email] returns, or raises the same error. *)
Theorem auth_dependencies_agree `{D : TokenDecoder} (authorization : option pystr) :
  get_current_user authorization
  = match get_current_user_with_email authorization with
    | inr (user_id, email) => inr user_id
    | inl e => inl e
    end.
Proof.
  unfold get_current_user, get_current_user_with_email.
  destruct (negb (truthy_opt authorization) || _); [reflexivity|].
  cbv zeta. destruct (jwt_decode _) as [payload| |msg]; try reflexivity.
  destruct (negb (truthy_opt _)); reflexivity.
Qed.

Lemma truthy_opt_Some (o : option pystr) :
  truthy_opt o = true -> exists v, o = Some v /\ v <> [].
Proof.
  destruct o as [[|c v]|]; try discriminate. intros _. eexists. split; [reflexivity|]. discriminate.
Qed.

(** X20.  Whoever [get_current_user] authenticates is named by the token:
    the header begins with "Bearer ", what is left of it after removing
    "Bearer " decodes to a payload, and the returned user is the
    non-empty ["sub"] of the payload, or its ["user_id"] when ["sub"] is
    missing or empty.  The returned user is never the empty string. *)
Theorem authenticated_user_is_named_by_token `{D : TokenDecoder}
    (authorization : option pystr) (user_id : pystr) :
  get_current_user authorization = inr user_id ->
  user_id <> [] /\
  exists header payload,
    authorization = Some header /\
    starts_with (lit "Bearer ") header = true /\
    jwt_decode (replace (lit "Bearer ") (lit "") header) = JwtPayload payload /\
    (payload !! "sub" = Some user_id \/
     truthy_opt (payload !! "sub") = false /\ payload !! "user_id" = Some user_id).
Proof.
  unfold get_current_user.
  destruct (negb (truthy_opt authorization) || _) eqn:Hhead; [discriminate|].
  apply orb_false_iff in Hhead as [Hsome Hprefix].
  apply negb_false_iff in Hsome, Hprefix.
  destruct authorization as [header|]; [|discriminate]. cbn [default] in *.
  cbv zeta. destruct (jwt_decode _) as [payload| |msg] eqn:Hdec; try discriminate.
  destruct (negb (truthy_opt _)) eqn:Hid; [discriminate|].
  apply negb_false_iff in Hid. intros [= <-].
  destruct (truthy_opt_Some _ Hid) as (v & Hv & Hne). rewrite Hv. cbn [default].
  split; [exact Hne|]. exists header, payload.
  split; [reflexivity|]. split; [exact Hprefix|]. split; [exact Hdec|].
  revert Hv. unfold or_else.
  destruct (truthy_opt (payload !! "sub")); auto.
Qed.

Lemma authenticated_user_is_named_by_token_witness :
  exists header payload,
    Some (lit "Bearer t1") = Some header /\
    starts_with (lit "Bearer ") header = true /\
    jwt_decode (TokenDecoder := one_token)
               (replace (lit "Bearer ") (lit "") header) = JwtPayload payload /\
    (payload !! "sub" = Some u1 \/
     truthy_opt (payload !! "sub") = false /\ payload !! "user_id" = Some u1).
Proof.
  refine (proj2 (authenticated_user_is_named_by_token (D := one_token)
                   (Some (lit "Bearer t1")) u1 _)).
  vm_compute. reflexivity.
Defined.

Lemma replace_free (old new s : pystr) :
  occurs_in old s = false -> replace old new s = s.
Proof.
  unfold replace. induction s as [|c s IH]; [reflexivity|].
  intros Hfree. cbn [occurs_in] in Hfree.
  apply orb_false_iff in Hfree as [Hhere Hlater].
  cbn [replace_from]. rewrite Hhere, (IH Hlater). reflexivity.
Qed.

Lemma header_authenticates `{D : TokenDecoder} (header token user_id : pystr)
    (payload : gmap string pystr) :
  starts_with (lit "Bearer ") header = true ->
  replace (lit "Bearer ") (lit "") header = token ->
  jwt_decode token = JwtPayload payload ->
  payload !! "sub" = Some user_id -> user_id <> [] ->
  get_current_user_with_email (Some header)
  = inr (user_id,
         if truthy_opt (payload !! "email")
         then default [] (payload !! "email")
         else user_id ++ lit "@example.com").
Proof.
  intros Hprefix Htoken Hdec Hsub Hne.
  assert (Hid : or_else (payload !! "sub") (payload !! "user_id") = Some user_id).
  { unfold or_else. rewrite Hsub. destruct user_id; [contradiction|reflexivity]. }
  assert (Htrue : truthy_opt (Some user_id) = true).
  { destruct user_id; [contradiction|reflexivity]. }
  assert (Hheader : truthy header = true).
  { destruct header; [discriminate Hprefix|reflexivity]. }
  unfold get_current_user_with_email. cbn [truthy_opt from_option id].
  rewrite Hheader, Hprefix. cbn [negb orb]. cbv zeta.
  rewrite Htoken, Hdec, Hid, Htrue. cbn [negb from_option id str_opt].
  unfold or_else. destruct (truthy_opt (payload !! "email")); reflexivity.
Qed.

(** X21.  A header "Bearer <token>" whose token decodes to a payload with a
    non-empty ["sub"] authenticates as that subject, whatever ["user_id"]
    the payload has; so does the header with the prefix written twice,
    since every occurrence of "Bearer " is removed; and the e-mail is the
    payload's, or "<user>@example.com" when the payload has none. *)
Theorem bearer_token_authenticates `{D : TokenDecoder} (token user_id : pystr)
    (payload : gmap string pystr) :
  occurs_in (lit "Bearer ") token = false ->
  jwt_decode token = JwtPayload payload ->
  payload !! "sub" = Some user_id -> user_id <> [] ->
  get_current_user (Some (lit "Bearer " ++ token)) = inr user_id /\
  get_current_user (Some (lit "Bearer Bearer " ++ token)) = inr user_id /\
  get_current_user_with_email (Some (lit "Bearer " ++ token))
  = inr (user_id,
         if truthy_opt (payload !! "email")
         then default [] (payload !! "email")
         else user_id ++ lit "@example.com").
Proof.
  intros Hfree Hdec Hsub Hne.
  assert (Hone : get_current_user_with_email (Some (lit "Bearer " ++ token))
                 = inr (user_id,
                        if truthy_opt (payload !! "email")
                        then default [] (payload !! "email")
                        else user_id ++ lit "@example.com")).
  { apply (header_authenticates _ token); try assumption; [reflexivity|].
    exact (replace_free (lit "Bearer ") (lit "") token Hfree). }
  assert (Htwo : get_current_user_with_email (Some (lit "Bearer Bearer " ++ token))
                 = inr (user_id,
                        if truthy_opt (payload !! "email")
                        then default [] (payload !! "email")
                        else user_id ++ lit "@example.com")).
  { apply (header_authenticates _ token); try assumption; [reflexivity|].
    exact (replace_free (lit "Bearer ") (lit "") token Hfree). }
  rewrite !user_of_email, Hone, Htwo. auto.
Qed.

Lemma bearer_token_authenticates_witness :
  get_current_user (D := one_token) (Some (lit "Bearer t1")) = inr u1.
Proof.
  refine (proj1 (bearer_token_authenticates (D := one_token) (lit "t1") u1
                   {[ "sub" := u1 ]} eq_refl _ _ _)).
  - vm_compute. reflexivity.
  - vm_compute. reflexivity.
  - discriminate.
Defined.

(** X22.  The chat handler from its first line.  A header that fails
    authentication is answered with the error of the dependency and the
    session is untouched; and in a turn that answers, the path's user is
    the one the header authenticates, and every tool call ran with that
    [user_id]. *)
Theorem chat_runs_as_the_token_user `{P : Platform} `{L : LanguageModel}
    `{D : TokenDecoder} (authorization : option pystr) (user_id : pystr)
    (request : ChatRequest) (env : TurnEnv) (s : Session) :
  (forall e, get_current_user authorization = inl e ->
     chat_endpoint_from_header authorization user_id request env s = (s, inl e)) /\
  (forall s' response,
     chat_endpoint_from_header authorization user_id request env s
     = (s', inr response) ->
     get_current_user authorization = inr user_id /\
     Forall (fun c => call_parameters c !! "user_id" = Some user_id)
            (resp_tool_calls response)).
Proof.
  unfold chat_endpoint_from_header. rewrite user_of_email.
  destruct (get_current_user_with_email authorization)
    as [e|[token_user_id email]].
  - split; [intros e' [= <-]; reflexivity|discriminate].
  - split; [discriminate|]. intros s' response Hrun.
    destruct (chat_endpoint_records _ _ _ _ _ _ _ Hrun) as [-> Hids]. auto.
Qed.

(** ** The REST handlers *)

Lemma verify_same (user_id : pystr) : verify_user_access user_id user_id = inr tt.
Proof.
  unfold verify_user_access.
  rewrite decide_False by (intros Hne; apply Hne; reflexivity). reflexivity.
Qed.

Lemma verify_other (path_user_id token_user_id : pystr) :
  path_user_id <> token_user_id ->
  verify_user_access path_user_id token_user_id
  = inl (HTTPException 403 "Access denied: user_id mismatch").
Proof. intros Hne. unfold verify_user_access. rewrite decide_True by exact Hne. reflexivity. Qed.

Lemma owned_task_missing (task_id : Z) (current_user : pystr) (s : Session) :
  Forall (fun t => task_pk t = task_id -> task_user_id t <> current_user)
         (tasks (working s)) ->
  Routes.owned_task task_id current_user s
  = (s, inl (HTTPException 404 "Task not found")).
Proof.
  intros Hnone. unfold Routes.owned_task, Routes.session_get. rewrite run_bind.
  destruct (List.filter _ _) as [|t l] eqn:Hf; [reflexivity|]. cbn [head].
  assert (Hin : In t (t :: l)) by now left.
  rewrite <- Hf in Hin. apply filter_In in Hin as [Hin Hpk].
  apply bool_decide_eq_true in Hpk. rewrite Forall_forall in Hnone.
  rewrite decide_True; [reflexivity|].
  apply Hnone; [apply list_elem_of_In, Hin|exact Hpk].
Qed.

Lemma owned_task_found (task_id : Z) (current_user : pystr) (s s' : Session)
    (t : Task) :
  Routes.owned_task task_id current_user s = (s', inr t) ->
  s' = s /\ In t (tasks (working s)) /\ task_pk t = task_id /\
  task_user_id t = current_user.
Proof.
  unfold Routes.owned_task, Routes.session_get. rewrite run_bind.
  destruct (List.filter _ _) as [|r l] eqn:Hf; [discriminate|]. cbn [head].
  destruct (decide (task_user_id r <> current_user)) as [Hne|Heq]; [discriminate|].
  intros [= <- <-].
  assert (Hin : In r (r :: l)) by now left.
  rewrite <- Hf in Hin. apply filter_In in Hin as [Hin Hpk].
  apply bool_decide_eq_true in Hpk.
  destruct (decide (task_user_id r = current_user)); [auto|contradiction].
Qed.

Lemma owned_task_own (current_user : pystr) (t : Task) (s : Session) :
  NoDup (task_pk <$> tasks (working s)) ->
  In t (tasks (working s)) -> task_user_id t = current_user ->
  Routes.owned_task (task_pk t) current_user s = (s, inr t).
Proof.
  intros Hnd Hin Hu. unfold Routes.owned_task, Routes.session_get. rewrite run_bind.
  destruct (head_filter_In (fun r => bool_decide (task_pk r = task_pk t))
              (tasks (working s)) t Hin) as [r Hr].
  { apply bool_decide_eq_true. reflexivity. }
  rewrite Hr. apply head_Some in Hr as [l Hl].
  assert (Hin' : In r (r :: l)) by now left.
  rewrite <- Hl in Hin'. apply filter_In in Hin' as [Hin' Hpk].
  apply bool_decide_eq_true in Hpk.
  rewrite (key_names_one_row _ t r Hnd Hin Hin' Hpk).
  rewrite decide_False by (intros Hne; apply Hne; exact Hu). reflexivity.
Qed.

Lemma run_lift {A B} (a : A) (k : A -> M B) (s : Session) :
  bind (lift (inr a)) k s = k a s.
Proof. reflexivity. Qed.

Lemma run_sent {B} (r : exn + unit) (k : unit -> M B) (s : Session) :
  bind (lift r) k s = match r with inl e => (s, inl e) | inr u => k u s end.
Proof. destruct r; reflexivity. Qed.

Lemma stored_and_read_back (t0 t : Task) (s : Session) :
  keyed (task_seq s) (tasks (working s)) ->
  In t0 (tasks (working s)) -> task_pk t = task_pk t0 ->
  (store_task t ;;; commit ;;; refresh t)%py s
  = (fst (commit (fst (store_task t s))), inr t).
Proof.
  intros Hk Hin Hpk.
  destruct (working_store s t0 t Hk Hin Hpk) as [Hk1 Hin1].
  rewrite run_store, run_commit. apply refresh_stored; [apply Hk1|exact Hin1].
Qed.

Lemma store_twice_rows (t1 t2 : Task) (rows : list Task) :
  task_pk t2 = task_pk t1 ->
  (fun r => if decide (task_pk r = task_pk t2) then t2 else r)
    <$> ((fun r => if decide (task_pk r = task_pk t1) then t1 else r) <$> rows)
  = (fun r => if decide (task_pk r = task_pk t2) then t2 else r) <$> rows.
Proof.
  intros Hpk. rewrite <- list_fmap_compose. apply list_fmap_ext.
  intros i r _. simpl.
  destruct (decide (task_pk r = task_pk t1)) as [E|E].
  - rewrite !decide_True by congruence. reflexivity.
  - reflexivity.
Qed.

(** X23.  The four handlers that address one task refuse with 403 under a
    path that is not the caller's, and answer 404 "Task not found" alike
    for an id that does not exist and for the task of another user; in
    both cases the session is untouched. *)
Theorem rest_foreign_task_is_not_found (path_user_id current_user : pystr)
    (task_id : Z) (task_data : Routes.TaskUpdate) (now : Z) (s : Session) :
  (path_user_id <> current_user ->
   let denied {A} : exn + A :=
     inl (HTTPException 403 "Access denied: user_id mismatch") in
   Routes.get_task path_user_id task_id current_user s = (s, denied) /\
   Routes.update_task path_user_id task_id task_data current_user now s
   = (s, denied) /\
   Routes.delete_task path_user_id task_id current_user s = (s, denied) /\
   Routes.toggle_complete path_user_id task_id current_user now s = (s, denied)) /\
  (Forall (fun t => task_pk t = task_id -> task_user_id t <> current_user)
          (tasks (working s)) ->
   let not_found {A} : exn + A := inl (HTTPException 404 "Task not found") in
   Routes.get_task current_user task_id current_user s = (s, not_found) /\
   Routes.update_task current_user task_id task_data current_user now s
   = (s, not_found) /\
   Routes.delete_task current_user task_id current_user s = (s, not_found) /\
   Routes.toggle_complete current_user task_id current_user now s
   = (s, not_found)).
Proof.
  split.
  - intros Hne denied.
    unfold Routes.get_task, Routes.update_task, Routes.delete_task,
      Routes.toggle_complete.
    rewrite (verify_other _ _ Hne). repeat split; reflexivity.
  - intros Hnone not_found.
    unfold Routes.get_task, Routes.update_task, Routes.delete_task,
      Routes.toggle_complete.
    rewrite verify_same, !run_lift.
    rewrite !run_bind, (owned_task_missing _ _ _ Hnone).
    repeat split; reflexivity.
Qed.

(** X24.  [toggle_complete] negates the completion flag of a task of the
    caller and stamps it; toggling twice restores the task but for
    [updated_at], and leaves every other row of the database as it
    was. *)
Theorem toggle_complete_twice (user_id : pystr) (task_id : Z) (now now' : Z)
    (s s1 : Session) (t1 : Task) :
  keyed (task_seq s) (tasks (working s)) ->
  Routes.toggle_complete user_id task_id user_id now s = (s1, inr t1) ->
  exists t,
    In t (tasks (working s)) /\ task_pk t = task_id /\ task_user_id t = user_id /\
    t1 = set_updated_at (Routes.assign_completed t (negb (task_completed t))) now /\
    exists s2,
      Routes.toggle_complete user_id task_id user_id now' s1
      = (s2, inr (set_updated_at t now')) /\
      tasks (committed s2)
      = (fun r => if decide (task_pk r = task_id) then set_updated_at t now' else r)
          <$> tasks (working s).
Proof.
  intros Hk. unfold Routes.toggle_complete at 1.
  rewrite verify_same, run_lift, run_bind.
  destruct (Routes.owned_task task_id user_id s) as [s0 [e|t]] eqn:Hown;
    [discriminate|].
  destruct (owned_task_found _ _ _ _ _ Hown) as (-> & Hin & Hpk & Hu).
  cbv zeta.
  set (t' := set_updated_at (Routes.assign_completed t (negb (task_completed t))) now).
  rewrite (stored_and_read_back t t' s Hk Hin eq_refl).
  intros Hrun. apply pair_equal_spec in Hrun as [Hs1 Ht1].
  injection Ht1 as <-. subst s1.
  exists t. repeat (split; [assumption || reflexivity|]).
  destruct (working_store s t t' Hk Hin eq_refl) as [Hk1 Hin1].
  set (s1 := fst (commit (fst (store_task t' s)))) in *.
  assert (Hown1 : Routes.owned_task task_id user_id s1 = (s1, inr t')).
  { rewrite <- Hpk. apply (owned_task_own user_id t' s1); [apply Hk1|exact Hin1|exact Hu]. }
  unfold Routes.toggle_complete.
  rewrite verify_same, run_lift, run_bind, Hown1. cbv zeta.
  set (t'' := set_updated_at
                (Routes.assign_completed t' (negb (task_completed t'))) now').
  assert (Ht'' : t'' = set_updated_at t now').
  { unfold t'', t'. destruct t as [pk u ti d c ca ua]. simpl.
    rewrite negb_involutive. reflexivity. }
  rewrite (stored_and_read_back t' t'' s1 Hk1 Hin1 eq_refl).
  eexists. split; [rewrite Ht''; reflexivity|].
  match goal with
  | |- _ = ?rows =>
      change ((fun r => if decide (task_pk r = task_pk (set_updated_at t now'))
                        then set_updated_at t now' else r)
                <$> ((fun r => if decide (task_pk r = task_pk t') then t' else r)
                       <$> tasks (working s)) = rows)
  end.
  rewrite (store_twice_rows t' (set_updated_at t now')) by reflexivity.
  rewrite <- Hpk. reflexivity.
Qed.

Lemma toggle_complete_twice_witness :
  exists t,
    In t (tasks (working one_task)) /\ task_pk t = 1 /\ task_user_id t = u1 /\
    mkTask 1 u1 (lit "buy milk") None true 0 5
    = set_updated_at (Routes.assign_completed t (negb (task_completed t))) 5 /\
    exists s2,
      Routes.toggle_complete u1 1 u1 9 (fst (Routes.toggle_complete u1 1 u1 5 one_task))
      = (s2, inr (set_updated_at t 9)) /\
      tasks (committed s2)
      = (fun r => if decide (task_pk r = 1) then set_updated_at t 9 else r)
          <$> tasks (working one_task).
Proof.
  refine (toggle_complete_twice u1 1 5 9 one_task _
            (mkTask 1 u1 (lit "buy milk") None true 0 5) one_task_keyed _).
  vm_compute. reflexivity.
Defined.

(** X25.  What the REST [update_task] stores: of a task of the caller, the
    title, description and completion flag that the request carries, as
    they are, the fields it does not carry unchanged, and [updated_at] the
    time of the call; the row replaces the old one and no other row
    changes. *)
Theorem rest_update_changes_given_fields (user_id : pystr) (task_id : Z)
    (task_data : Routes.TaskUpdate) (now : Z) (s s' : Session) (t' : Task) :
  keyed (task_seq s) (tasks (working s)) ->
  Routes.update_task user_id task_id task_data user_id now s = (s', inr t') ->
  exists t,
    In t (tasks (working s)) /\ task_pk t = task_id /\ task_user_id t = user_id /\
    t' = mkTask task_id user_id
           (default (task_title t) (Routes.update_title task_data))
           (match Routes.update_description task_data with
            | Some description => Some description
            | None => task_description t
            end)
           (default (task_completed t) (Routes.update_completed task_data))
           (task_created_at t) now /\
    tasks (committed s')
    = (fun r => if decide (task_pk r = task_id) then t' else r)
        <$> tasks (working s) /\
    committed s' = working s'.
Proof.
  intros Hk. unfold Routes.update_task.
  rewrite verify_same, run_lift, run_bind.
  destruct (Routes.owned_task task_id user_id s) as [s0 [e|t]] eqn:Hown;
    [discriminate|].
  destruct (owned_task_found _ _ _ _ _ Hown) as (-> & Hin & Hpk & Hu).
  cbv zeta. rewrite run_sent.
  destruct (send_texts _) as [e|[]]; [discriminate|].
  match goal with
  | |- context [store_task ?x] => set (stored := x)
  end.
  assert (Hstored : stored
                    = mkTask task_id user_id
                        (default (task_title t) (Routes.update_title task_data))
                        (match Routes.update_description task_data with
                         | Some description => Some description
                         | None => task_description t
                         end)
                        (default (task_completed t) (Routes.update_completed task_data))
                        (task_created_at t) now).
  { unfold stored. rewrite <- Hpk, <- Hu.
    destruct (Routes.update_title task_data), (Routes.update_description task_data),
      (Routes.update_completed task_data); reflexivity. }
  assert (Hkey : task_pk stored = task_pk t) by (rewrite Hstored; symmetry; exact Hpk).
  rewrite (stored_and_read_back t stored s Hk Hin Hkey).
  intros Hrun. apply pair_equal_spec in Hrun as [Hs' Ht'].
  injection Ht' as <-. subst s'.
  exists t. repeat (split; [assumption|]).
  split; [|reflexivity].
  change (tasks (committed (fst (commit (fst (store_task stored s))))))
    with ((fun r => if decide (task_pk r = task_pk stored) then stored else r)
            <$> tasks (working s)).
  rewrite Hkey, Hpk. reflexivity.
Qed.

Lemma rest_update_changes_given_fields_witness :
  exists t,
    In t (tasks (working one_task)) /\ task_pk t = 1 /\ task_user_id t = u1 /\
    mkTask 1 u1 (lit " tea ") None true 0 5
    = mkTask 1 u1 (lit " tea ") (task_description t) true (task_created_at t) 5.
Proof.
  destruct (rest_update_changes_given_fields u1 1
              (Routes.mkTaskUpdate (Some (lit " tea ")) None (Some true)) 5
              one_task
              (fst (Routes.update_task u1 1
                      (Routes.mkTaskUpdate (Some (lit " tea ")) None (Some true))
                      u1 5 one_task))
              (mkTask 1 u1 (lit " tea ") None true 0 5) one_task_keyed)
    as (t & Hin & Hpk & Hu & Ht & _); [vm_compute; reflexivity|].
  exists t. auto.
Defined.

(** X26.  After the REST [delete_task] succeeded, the task was one of the
    caller, the database holds the other rows and no row of that id,
    [get_task] answers 404, and the tool [complete_task] by that id
    answers "Task not found for this user". *)
Theorem rest_delete_then_not_found `{P : Platform} (user_id : pystr)
    (task_id : Z) (s s' : Session) :
  Routes.delete_task user_id task_id user_id s = (s', inr tt) ->
  (exists t, In t (tasks (working s)) /\ task_pk t = task_id /\
             task_user_id t = user_id) /\
  tasks (committed s')
  = List.filter (fun r => negb (bool_decide (task_pk r = task_id)))
                (tasks (working s)) /\
  Routes.get_task user_id task_id user_id s'
  = (s', inl (HTTPException 404 "Task not found")) /\
  (forall id_text now, truthy id_text = true -> int_of_str id_text = Some task_id ->
     snd (complete_task user_id (Some id_text) None now s')
     = inr (ResError "Task not found for this user" None)).
Proof.
  unfold Routes.delete_task. rewrite verify_same, run_lift, run_bind.
  destruct (Routes.owned_task task_id user_id s) as [s0 [e|t]] eqn:Hown;
    [discriminate|].
  destruct (owned_task_found _ _ _ _ _ Hown) as (-> & Hin & Hpk & Hu).
  rewrite run_delete.
  change (commit (fst (delete_row t s)))
    with (fst (commit (fst (delete_row t s))), @inr exn unit tt).
  intros Hrun. apply pair_equal_spec in Hrun as [Hs' _]. subst s'.
  split; [exists t; auto|]. split; [rewrite <- Hpk; reflexivity|].
  assert (Hgone : Forall (fun r => task_pk r <> task_id)
                    (tasks (working (fst (commit (fst (delete_row t s))))))).
  { apply Forall_forall. intros r Hr.
    apply list_elem_of_In, filter_In in Hr as [_ Hr].
    apply negb_true_iff, bool_decide_eq_false in Hr. congruence. }
  split.
  - unfold Routes.get_task. rewrite verify_same, run_lift.
    apply owned_task_missing.
    eapply Forall_impl; [exact Hgone|]. simpl. intros r Hr Hr'. contradiction.
  - intros id_text now Ht Hi.
    set (s1 := fst (commit (fst (delete_row t s)))) in *.
    assert (Hres : resolve user_id (Some id_text) None s1 = (s1, inr NotFound)).
    { rewrite (resolve_not_by_id user_id (Some id_text) None s1).
      - apply resolve_rows.
      - apply find_by_id_unusable. intros id_text' i' [= <-] _ Hi'.
        rewrite Hi in Hi'. injection Hi' as <-.
        apply Forall_forall. intros r Hr.
        apply list_elem_of_In, tasks_of_In in Hr as [Hr _].
        rewrite Forall_forall in Hgone. apply Hgone, list_elem_of_In, Hr. }
    unfold complete_task. cbn [truthy_opt]. rewrite Ht.
    cbn [negb andb]. rewrite run_bind, Hres. reflexivity.
Qed.

Lemma rest_delete_then_not_found_witness :
  Routes.get_task u1 1 u1 (fst (Routes.delete_task u1 1 u1 one_task))
  = (fst (Routes.delete_task u1 1 u1 one_task),
     inl (HTTPException 404 "Task not found")).
Proof.
  refine (proj1 (proj2 (proj2 (rest_delete_then_not_found (P := ascii_postgres)
                                 u1 1 one_task _ _)))).
  vm_compute. reflexivity.
Defined.

(** X27.  Sorted by creation time, the REST listing shows what the tool
    [list_tasks] shows, in the same order, for every status but two: the
    REST handler calls the open tasks "pending" and the tool calls them
    "incomplete", and each lists everything under the other's word. *)
Theorem rest_list_agrees_with_tool (title_before : pystr -> pystr -> bool)
    (user_id status : pystr) (s : Session) :
  let rest status :=
    Routes.list_tasks title_before user_id status (lit "created_at") user_id s in
  (status <> lit "incomplete" -> status <> lit "pending" ->
   rest status = (s, inr (listed user_id status s))) /\
  rest (lit "pending") = (s, inr (listed user_id (lit "incomplete") s)) /\
  rest (lit "incomplete") = (s, inr (listed user_id (lit "all") s)) /\
  listed user_id (lit "pending") s = listed user_id (lit "all") s.
Proof.
  intros rest. unfold rest, Routes.list_tasks, listed, list_tasks.
  rewrite verify_same. cbn [snd]. split; [|split; [|split]].
  - intros Hi Hp. rewrite run_lift.
    destruct (decide (status = lit "completed")); [reflexivity|].
    destruct (decide (status = lit "pending")); [contradiction|].
    destruct (decide (status = lit "incomplete")); [contradiction|].
    reflexivity.
  - reflexivity.
  - reflexivity.
  - reflexivity.
Qed.

(** X28.  The task that the REST [create_task] returns carries the next id
    and the caller as owner, with title and description as the request
    has them; it is the one row that the database gained; [get_task]
    returns it to its owner and answers 404 to anybody else. *)
Theorem rest_create_then_get (defaults : Routes.TaskDefaults) (user_id : pystr)
    (task_data : Routes.TaskCreate) (s s' : Session) (t : Task) :
  keyed (task_seq s) (tasks (working s)) ->
  Routes.create_task defaults user_id task_data user_id s = (s', inr t) ->
  t = mkTask (task_seq s) user_id (Routes.create_title task_data)
             (Routes.create_description task_data)
             (Routes.default_completed defaults)
             (Routes.default_created_at defaults)
             (Routes.default_updated_at defaults) /\
  tasks (committed s') = tasks (working s) ++ [t] /\
  Routes.get_task user_id (task_pk t) user_id s' = (s', inr t) /\
  (forall other, other <> user_id ->
     Routes.get_task other (task_pk t) other s'
     = (s', inl (HTTPException 404 "Task not found"))).
Proof.
  intros Hk. unfold Routes.create_task.
  rewrite verify_same, run_lift, run_add.
  destruct (send_texts _) as [e|[]] eqn:Hsend; [discriminate|].
  rewrite run_commit.
  pose (mk := fun i => mkTask i user_id (Routes.create_title task_data)
                         (Routes.create_description task_data)
                         (Routes.default_completed defaults)
                         (Routes.default_created_at defaults)
                         (Routes.default_updated_at defaults)).
  assert (Hr := refresh_added s mk Hk (fun i => eq_refl) Hsend).
  assert (Hadded := add_new_task_sent mk s Hsend).
  unfold mk in Hr. cbv beta iota zeta in Hr |- *. rewrite Hr.
  intros Hrun. apply pair_equal_spec in Hrun as [Hs' Ht].
  injection Ht as <-. subst s'.
  split; [reflexivity|].
  split; [unfold mk in Hadded; rewrite Hadded; reflexivity|].
  change (mkTask (task_seq s) user_id (Routes.create_title task_data)
                 (Routes.create_description task_data)
                 (Routes.default_completed defaults)
                 (Routes.default_created_at defaults)
                 (Routes.default_updated_at defaults))
    with (mk (task_seq s)).
  set (s1 := fst (commit (fst (add_new_task mk s)))).
  assert (Hk1 : keyed (task_seq s1) (tasks (working s1))).
  { unfold s1. rewrite Hadded. apply keyed_append; [exact Hk|reflexivity]. }
  assert (Hin : In (mk (task_seq s)) (tasks (working s1))).
  { unfold s1. rewrite Hadded. simpl. apply in_or_app. right. now left. }
  split.
  - unfold Routes.get_task. rewrite verify_same, run_lift.
    apply (owned_task_own user_id (mk (task_seq s)) s1 (proj1 Hk1) Hin eq_refl).
  - intros other Hne. unfold Routes.get_task. rewrite verify_same, run_lift.
    apply owned_task_missing. apply Forall_forall. intros r Hrow Hpk.
    apply list_elem_of_In in Hrow.
    rewrite (key_names_one_row _ (mk (task_seq s)) r (proj1 Hk1) Hin Hrow Hpk).
    simpl. congruence.
Qed.

Lemma rest_create_then_get_witness :
  Routes.get_task u1 2 u1
    (fst (Routes.create_task (Routes.mkTaskDefaults false 7 7) u1
            (Routes.mkTaskCreate (lit "walk dog") None) u1 one_task))
  = (fst (Routes.create_task (Routes.mkTaskDefaults false 7 7) u1
            (Routes.mkTaskCreate (lit "walk dog") None) u1 one_task),
     inr (mkTask 2 u1 (lit "walk dog") None false 7 7)).
Proof.
  refine (proj1 (proj2 (proj2 (rest_create_then_get (Routes.mkTaskDefaults false 7 7)
                                 u1 (Routes.mkTaskCreate (lit "walk dog") None)
                                 one_task _ (mkTask 2 u1 (lit "walk dog") None false 7 7)
                                 one_task_keyed _)))).
  vm_compute. reflexivity.
Defined.

(** X29.  The REST listing returns the caller's tasks that pass the status
    filter, each once per row; sorted by title in the collation of the
    database under [sort = "title"], newest first under
    [sort = "created_at"]. *)
Theorem rest_list_is_sorted (title_before : pystr -> pystr -> bool)
    (user_id status_filter sort : pystr) (s : Session) :
  (forall x y, title_before x y = false -> title_before y x = true) ->
  (forall x y z, title_before x y = true -> title_before y z = true ->
                 title_before x z = true) ->
  exists rows,
    Routes.list_tasks title_before user_id status_filter sort user_id s
    = (s, inr rows) /\
    rows ≡ₚ List.filter (rest_wanted status_filter)
                        (tasks_of user_id (tasks (working s))) /\
    (sort = lit "title" ->
     StronglySorted (fun x y => title_before (task_title x) (task_title y) = true)
                    rows) /\
    (sort = lit "created_at" ->
     StronglySorted (fun x y => task_created_at y <= task_created_at x) rows).
Proof.
  intros Htotal Htrans. unfold Routes.list_tasks.
  rewrite verify_same, run_lift. eexists. split; [reflexivity|].
  assert (Hfilter :
    (if decide (status_filter = lit "completed") then
       List.filter task_completed (tasks_of user_id (tasks (working s)))
     else if decide (status_filter = lit "pending") then
       List.filter (fun t => negb (task_completed t))
                   (tasks_of user_id (tasks (working s)))
     else tasks_of user_id (tasks (working s)))
    = List.filter (rest_wanted status_filter)
                  (tasks_of user_id (tasks (working s)))).
  { unfold rest_wanted.
    destruct (decide (status_filter = lit "completed")); [reflexivity|].
    destruct (decide (status_filter = lit "pending")); [reflexivity|].
    symmetry. apply forallb_filter_id, forallb_forall. reflexivity. }
  cbv zeta. rewrite Hfilter. split; [|split].
  - destruct (decide (sort = lit "title")); [apply sort_by_Permutation|].
    destruct (decide (sort = lit "created_at")); [apply sort_by_Permutation|].
    reflexivity.
  - intros ->. rewrite decide_True by reflexivity.
    apply (sort_by_sorted
             (fun x y : Task => title_before (task_title x) (task_title y))).
    + intros x y. apply Htotal.
    + intros x y z. apply Htrans.
  - intros ->. rewrite decide_False by discriminate.
    rewrite decide_True by reflexivity. apply newest_first_sorted.
Qed.

Lemma rest_list_is_sorted_witness :
  exists rows,
    Routes.list_tasks by_length u1 (lit "all") (lit "title") u1 two_purchases
    = (two_purchases, inr rows) /\
    rows ≡ₚ List.filter (rest_wanted (lit "all"))
                        (tasks_of u1 (tasks (working two_purchases))) /\
    (lit "title" = lit "title" ->
     StronglySorted (fun x y => by_length (task_title x) (task_title y) = true)
                    rows) /\
    (lit "title" = lit "created_at" ->
     StronglySorted (fun x y => task_created_at y <= task_created_at x) rows).
Proof.
  apply (rest_list_is_sorted by_length u1 (lit "all") (lit "title") two_purchases).
  - unfold by_length. intros x y Hxy. apply Nat.leb_le.
    apply Nat.leb_gt in Hxy. lia.
  - unfold by_length. intros x y z Hxy Hyz. apply Nat.leb_le.
    apply Nat.leb_le in Hxy, Hyz. lia.
Defined.

(** ** The REST handlers keep to the caller's rows *)

Lemma refresh_state (t : Task) (s : Session) : fst (refresh t s) = s.
Proof. unfold refresh. destruct (List.filter _ _); reflexivity. Qed.

(** A handler that stops before its lookup succeeded has changed nothing. *)
Lemma rest_lookup {A} (path_user_id current_user : pystr) (task_id : Z)
    (k : Task -> M A) (Q : Session -> Prop) (s : Session) :
  Q s ->
  (forall t, In t (tasks (working s)) -> task_pk t = task_id ->
             task_user_id t = current_user -> Q (fst (k t s))) ->
  Q (fst ((lift (verify_user_access path_user_id current_user) ;;;
           task <- Routes.owned_task task_id current_user ;;
           k task)%py s)).
Proof.
  intros Hs Hk. unfold verify_user_access.
  destruct (decide (path_user_id <> current_user)); [exact Hs|].
  rewrite run_lift, run_bind.
  destruct (Routes.owned_task task_id current_user s) as [s0 [e|t]] eqn:Hown.
  - revert Hown. unfold Routes.owned_task, Routes.session_get. rewrite run_bind.
    destruct (head _) as [t|]; [|intros [= <- _]; exact Hs].
    destruct (decide (task_user_id t <> current_user)); intros [= <- _]; exact Hs.
  - destruct (owned_task_found _ _ _ _ _ Hown) as (-> & Hin & Hpk & Hu).
    apply Hk; assumption.
Qed.

Lemma foreign_after_store (owner : pystr) (t0 t : Task) (s : Session) :
  NoDup (task_pk <$> tasks (working s)) ->
  In t0 (tasks (working s)) -> task_user_id t0 = owner ->
  task_pk t = task_pk t0 -> task_user_id t = owner ->
  foreign owner (tasks (working (fst ((store_task t ;;; commit ;;; refresh t)%py s))))
  = foreign owner (tasks (working s)).
Proof.
  intros Hnd Hin Hu0 Hpk Hu.
  rewrite run_store, run_commit, refresh_state. simpl.
  apply foreign_store; [|exact Hu].
  rewrite Hpk. apply (key_owner owner _ t0 Hnd Hin Hu0).
Qed.

(** X30.  Whatever the path, the id and the outcome, the REST handlers that
    write leave the rows of every other user as they were. *)
Theorem rest_owner_isolation (defaults : Routes.TaskDefaults)
    (path_user_id current_user : pystr) (task_id : Z)
    (created : Routes.TaskCreate) (updated : Routes.TaskUpdate) (now : Z)
    (s : Session) :
  NoDup (task_pk <$> tasks (working s)) ->
  let untouched (s' : Session) :=
    foreign current_user (tasks (working s'))
    = foreign current_user (tasks (working s)) in
  untouched (fst (Routes.create_task defaults path_user_id created current_user s)) /\
  untouched (fst (Routes.update_task path_user_id task_id updated current_user now s)) /\
  untouched (fst (Routes.delete_task path_user_id task_id current_user s)) /\
  untouched (fst (Routes.toggle_complete path_user_id task_id current_user now s)).
Proof.
  intros Hnd untouched. unfold untouched. split; [|split; [|split]].
  - unfold Routes.create_task, verify_user_access.
    destruct (decide (path_user_id <> current_user)); [reflexivity|].
    rewrite run_lift, run_add.
    destruct (send_texts _) as [e|[]] eqn:Hsend; [reflexivity|].
    rewrite run_commit, refresh_state, (add_new_task_sent _ s Hsend). simpl.
    rewrite foreign_app, foreign_own by reflexivity. apply app_nil_r.
  - unfold Routes.update_task.
    apply (rest_lookup path_user_id current_user task_id _
             (fun s' => foreign current_user (tasks (working s'))
                        = foreign current_user (tasks (working s))));
      [reflexivity|].
    intros t Hin Hpk Hu. cbv zeta. rewrite run_sent.
    destruct (send_texts _) as [e|[]]; [reflexivity|].
    apply (foreign_after_store current_user t _ s Hnd Hin Hu).
    + destruct (Routes.update_title updated), (Routes.update_description updated),
        (Routes.update_completed updated); reflexivity.
    + destruct (Routes.update_title updated), (Routes.update_description updated),
        (Routes.update_completed updated); exact Hu.
  - unfold Routes.delete_task.
    apply (rest_lookup path_user_id current_user task_id _
             (fun s' => foreign current_user (tasks (working s'))
                        = foreign current_user (tasks (working s))));
      [reflexivity|].
    intros t Hin Hpk Hu. rewrite run_delete. simpl.
    apply foreign_delete. apply (key_owner current_user _ t Hnd Hin Hu).
  - unfold Routes.toggle_complete.
    apply (rest_lookup path_user_id current_user task_id _
             (fun s' => foreign current_user (tasks (working s'))
                        = foreign current_user (tasks (working s))));
      [reflexivity|].
    intros t Hin Hpk Hu. cbv zeta.
    apply (foreign_after_store current_user t _ s Hnd Hin Hu); [reflexivity|exact Hu].
Qed.

Lemma rest_owner_isolation_witness :
  foreign u1 (tasks (working (fst (Routes.delete_task u1 2 u1 two_owners))))
  = [row 2 u2 "pay rent"].
Proof.
  refine (proj1 (proj2 (proj2 (rest_owner_isolation (Routes.mkTaskDefaults false 0 0)
            u1 u1 2 (Routes.mkTaskCreate [] None)
            (Routes.mkTaskUpdate None None None) 0 two_owners _)))).
  exact (proj1 (proj1 two_owners_well_keyed)).
Defined.

